(** * goog.ui.Dialog and goog.ui.Dialog.ButtonSet

    A shallow embedding of [static/js/closure/goog/ui/dialog.js]: the modal
    dialog widget, its button set, its show/hide state machine and its
    click and key handlers, followed by the properties established about
    them.

    Conventions.
    - A JavaScript method that mutates [this] is a function on the record of
      the object's fields; a method of the dialog, which can also throw, is
      a computation in the state-and-exception monad [M].
    - DOM nodes are identified by a number ([uid]); [null] is [None].
    - Every call into the DOM toolkit that writes to the page is appended to
      the page's [trace], in program order, together with every event the
      dialog dispatches.  The parts of the page that the dialog reads back
      (the elements below a container, the focused element) are kept as
      interpreted state next to the trace.
    - The dialog lives alone in its document; a button set is modelled as a
      value owned by the dialog that uses it.
    - Not embedded: the decoration of existing markup by the dialog
      ([decorateInternal], [canDecorate]), which queries the document by
      class name, and [setTitle] and [setDraggable], whose toolkit calls
      are not among the observable calls recorded here. *)

From Stdlib Require Import ZArith QArith Qminmax Lia Bool.
From stdpp Require Import base option list strings gmap.

Open Scope string_scope.
Open Scope list_scope.

(** ** JavaScript values *)

(** A button caption: "A string caption or a DOM node that can be appended
    to a button element".  For a node, [repr] is what [String(node)]
    evaluates to. *)
Inductive Caption :=
| CapText (s : string)
| CapNode (node : nat) (repr : string).

#[global] Instance Caption_eq_dec : EqDecision Caption.
Proof. solve_decision. Defined.

(** [String(v)] for [v] a caption or [undefined] ([None]). *)
Definition js_String (v : option Caption) : string :=
  match v with
  | None => "undefined"
  | Some (CapText s) => s
  | Some (CapNode _ r) => r
  end.

(** Truthiness of a [string?]: [null], [undefined] and [''] are falsy. *)
Definition truthy (k : option string) : bool :=
  match k with
  | Some s => negb (String.eqb s "")
  | None => false
  end.

(** Truthiness of an optional boolean argument ([undefined] is falsy). *)
Definition truthy_flag (b : option bool) : bool :=
  match b with
  | Some b => b
  | None => false
  end.

(** [goog.getCssName(className, modifier)] without a renaming map. *)
Definition getCssName (className modifier : string) : string :=
  (className ++ "-" ++ modifier)%string.

(** ** goog.structs.Map *)

Module StructsMap.

(** Modelled from the spec: [goog.structs.Map], the class ButtonSet
    extends, is not among the sources; the spec describes it as an
    "ordered mapping key→caption" with "insertion order preserved".  An
    entry list in order of first insertion; [set] on a present key
    replaces the value in place, on an absent key appends. *)
Definition t := list (string * Caption).

Definition empty : t := [].

Fixpoint set (key : string) (value : Caption) (m : t) : t :=
  match m with
  | [] => [(key, value)]
  | (k, v) :: m' =>
      if String.eqb k key then (k, value) :: m'
      else (k, v) :: set key value m'
  end.

(** [get] of an absent key is [undefined]. *)
Fixpoint get (key : string) (m : t) : option Caption :=
  match m with
  | [] => None
  | (k, v) :: m' => if String.eqb k key then Some v else get key m'
  end.

Definition getKeys (m : t) : list string := map fst m.

Definition containsKey (key : string) (m : t) : bool :=
  match get key m with Some _ => true | None => false end.

End StructsMap.

(** ** DOM elements and the page *)

Module Element.

(** The properties of an element the dialog looks at.  [content] is what
    was appended below it when it was created. *)
Record t := mk {
  uid : nat;
  tagName : string;
  name : string;
  id : string;
  disabled : bool;
  className : string;
  content : list Caption
}.

End Element.

(** Events dispatched by dialogs: [goog.ui.Dialog.Event] (type SELECT, with
    the button's key and caption) and the AFTER_HIDE event. *)
Inductive DialogEvent :=
| SELECT (key : string) (caption : option Caption)
| AFTER_HIDE.

(** A child handed to [createDom]. *)
Inductive Child :=
| ChildText (s : string)
| ChildNode (n : nat).

Definition child_of_caption (c : Caption) : Child :=
  match c with
  | CapText s => ChildText s
  | CapNode n _ => ChildNode n
  end.

(** The observable calls. *)
Inductive Effect :=
| Dispatched (e : DialogEvent)
| CreateDom (n : nat) (tag className : string) (children : list Child)
| SetClassName (n : nat) (className : string)
| AddClass (n : nat) (className : string)
| SetInnerHTML (n : nat) (html : string)
| SetCssText (n : nat) (css : string)
| AppendChild (parent child : nat)
| RemoveChild (parent child : nat)
| RemoveNode (n : nat)
| ShowElement (n : nat) (shown : bool)
| SetOpacity (n : nat) (opacity : Q)
| SetSize (n : nat) (w h : Z)
| SetPosition (n : nat) (left top : Q)
| SetRole (n : nat) (role : string)
| SetState (n : nat) (state : string)
| Focus (n : nat)
| DisposeDragger
| DisposeFocusHandler
| StopPropagation
| PreventDefault.

(** [goog.userAgent]. *)
Record UserAgent := {
  GECKO : bool;
  WEBKIT : bool;
  OPERA : bool;
  IE : bool
}.

(** What the layout queries of the toolkit answer: [doc.body.scrollWidth]
    and [scrollHeight], [goog.dom.getViewportSize], [goog.style.getSize] of
    the dialog element, [getDocumentScroll], and whether
    [goog.style.getComputedPosition] of the dialog element is ['fixed']. *)
Record Layout := {
  scrollWidth : Z;
  scrollHeight : Z;
  viewportWidth : Z;
  viewportHeight : Z;
  dialogWidth : Z;
  dialogHeight : Z;
  scrollX : Z;
  scrollY : Z;
  positionFixed : bool
}.

Module Page.

(** The document the dialog lives in, as far as the dialog reads it back
    (the DOM toolkit itself is "treated as opaque" by the spec).
    [elements] gives, for a container node, the elements below it in
    document order; [activeElement] is the node that has the focus
    ([None]: the body). *)
Record t := mk {
  userAgent : UserAgent;
  layout : Layout;
  next_uid : nat;
  elements : gmap nat (list Element.t);
  activeElement : option nat;
  trace : list Effect
}.

(** [doc.body]. *)
Definition body : nat := 0.

Definition emit (e : Effect) (p : t) : t :=
  mk (userAgent p) (layout p) (next_uid p) (elements p) (activeElement p)
     (trace p ++ [e]).

(** A new node. *)
Definition fresh (p : t) : nat * t :=
  (next_uid p,
   mk (userAgent p) (layout p) (S (next_uid p)) (elements p)
      (activeElement p) (trace p)).

Definition set_elements (n : nat) (l : list Element.t) (p : t) : t :=
  mk (userAgent p) (layout p) (next_uid p) (<[n := l]> (elements p))
     (activeElement p) (trace p).

Definition set_activeElement (a : option nat) (p : t) : t :=
  mk (userAgent p) (layout p) (next_uid p) (elements p) a (trace p).

(** [dom.createDom(tag, className, children...)]. *)
Definition createDom (tag className : string) (children : list Child)
    (p : t) : nat * t :=
  let (n, p) := fresh p in
  (n, emit (CreateDom n tag className children) p).

(** [el.innerHTML = '']. *)
Definition clear (n : nat) (p : t) : t :=
  emit (SetInnerHTML n "") (set_elements n [] p).

(** [parent.appendChild(child)] for an element [child]. *)
Definition appendElement (parent : nat) (child : Element.t) (p : t) : t :=
  emit (AppendChild parent (Element.uid child))
       (set_elements parent
          (default [] (elements p !! parent) ++ [child]) p).

(** [el.getElementsByTagName(tag)], with the tag in upper case. *)
Definition getElementsByTagName (n : nat) (tag : string) (p : t)
    : list Element.t :=
  filter (fun e => Element.tagName e = tag)
         (default [] (elements p !! n)).

(** [el.focus()] on an element that can take the focus. *)
Definition focus (n : nat) (p : t) : t :=
  emit (Focus n) (set_activeElement (Some n) p).

End Page.

(** [goog.dom.NodeType]. *)
Module NodeType.
Definition ELEMENT : Z := 1.
End NodeType.

(** [a || b] on strings: [b] when [a] is empty. *)
Definition or_else (a b : string) : string :=
  if String.eqb a "" then b else a.

(** ** goog.ui.Dialog.ButtonSet *)

Module ButtonSet.

Record t := mk {
  map_ : StructsMap.t;
  class_ : string;
  defaultButton_ : option string;
  element_ : option nat;
  cancelButton_ : option string
}.

(** [new goog.ui.Dialog.ButtonSet()]. *)
Definition new : t :=
  mk StructsMap.empty "goog-buttonset" None None None.

Definition get (key : string) (this : t) : option Caption :=
  StructsMap.get key (map_ this).

Definition set (key : string) (caption : Caption)
    (opt_isDefault opt_isCancel : option bool) (this : t) : t :=
  let this :=
    mk (StructsMap.set key caption (map_ this)) (class_ this)
       (defaultButton_ this) (element_ this) (cancelButton_ this) in
  let this :=
    if truthy_flag opt_isDefault then
      mk (map_ this) (class_ this) (Some key) (element_ this)
         (cancelButton_ this)
    else this in
  let this :=
    if truthy_flag opt_isCancel then
      mk (map_ this) (class_ this) (defaultButton_ this) (element_ this)
         (Some key)
    else this in
  this.

Definition setDefault (key : option string) (this : t) : t :=
  mk (map_ this) (class_ this) key (element_ this) (cancelButton_ this).

Definition getDefault (this : t) : option string := defaultButton_ this.

Definition setCancel (key : option string) (this : t) : t :=
  mk (map_ this) (class_ this) (defaultButton_ this) (element_ this) key.

Definition getCancel (this : t) : option string := cancelButton_ this.

(** The button [render] creates for one entry of the map. *)
Definition button (this : t) (n : nat) (key : string) (caption : Caption)
    : Element.t :=
  Element.mk n "BUTTON" key "" false
    (if decide (Some key = defaultButton_ this)
     then getCssName (class_ this) "default" else "")
    [caption].

(** The body of the [goog.structs.forEach] loop of [render]. *)
Definition render_entry (this : t) (el : nat) (p : Page.t)
    (entry : string * Caption) : Page.t :=
  let (key, caption) := entry in
  let (n, p) := Page.createDom "button" "" [child_of_caption caption] p in
  let b := button this n key caption in
  let p := if decide (Some key = defaultButton_ this)
           then Page.emit (SetClassName n (Element.className b)) p
           else p in
  Page.appendElement el b p.

Definition render (this : t) (p : Page.t) : Page.t :=
  match element_ this with
  | Some el => fold_left (render_entry this el) (map_ this) (Page.clear el p)
  | None => p
  end.

Definition attachToElement (el : nat) (this : t) (p : Page.t)
    : t * Page.t :=
  let this :=
    mk (map_ this) (class_ this) (defaultButton_ this) (Some el)
       (cancelButton_ this) in
  (this, render this p).

(** [getAllButtons]; [None] stands for the TypeError of reading
    [this.element_.getElementsByTagName] on a null [element_]. *)
Definition getAllButtons (this : t) (p : Page.t)
    : option (list Element.t) :=
  match element_ this with
  | Some el => Some (Page.getElementsByTagName el "BUTTON" p)
  | None => None
  end.

(** The loop of [getButton]: the first button whose name or id is [key]. *)
Definition find_button (key : string) (buttons : list Element.t)
    : option Element.t :=
  List.find
    (fun b => String.eqb (Element.name b) key
              || String.eqb (Element.id b) key)
    buttons.

Definition getButton (key : string) (this : t) (p : Page.t)
    : option (option Element.t) :=
  match getAllButtons this p with
  | Some buttons => Some (find_button key buttons)
  | None => None
  end.

(** The standard sets. *)
Definition OK : t :=
  set "ok" (CapText "OK") (Some true) None new.

Definition OK_CANCEL : t :=
  set "cancel" (CapText "Cancel") (Some false) (Some true)
    (set "ok" (CapText "OK") (Some true) None new).

Definition YES_NO : t :=
  set "no" (CapText "No") (Some false) (Some true)
    (set "yes" (CapText "Yes") (Some true) None new).

Definition YES_NO_CANCEL : t :=
  set "cancel" (CapText "Cancel") (Some false) (Some true)
    (set "no" (CapText "No") (Some true) None
       (set "yes" (CapText "Yes") None None new)).

Definition CONTINUE_SAVE_CANCEL : t :=
  set "cancel" (CapText "Cancel") (Some true) (Some true)
    (set "save" (CapText "Save") None None
       (set "continue" (CapText "Continue") None None new)).

Definition SAVE_CANCEL : t :=
  set "cancel" (CapText "Cancel") (Some true) (Some true)
    (set "save" (CapText "Save") None None new).

(** A call that changes the key bookkeeping of a button set. *)
Inductive Op :=
| OpSet (key : string) (caption : Caption)
        (opt_isDefault opt_isCancel : option bool)
| OpSetDefault (key : option string)
| OpSetCancel (key : option string).

Definition apply (this : t) (op : Op) : t :=
  match op with
  | OpSet key caption d c => set key caption d c this
  | OpSetDefault key => setDefault key this
  | OpSetCancel key => setCancel key this
  end.

(** A sequence of calls, the first of the list first. *)
Definition run (ops : list Op) (this : t) : t := fold_left apply ops this.

(** The keys handed to [set] by a sequence of calls, in call order. *)
Definition set_keys (ops : list Op) : list string :=
  omap (fun op => match op with
                  | OpSet key _ _ _ => Some key
                  | _ => None
                  end) ops.

(** "defaultKey and cancelKey, if set, must reference existing keys". *)
Definition key_ok (this : t) (k : option string) : Prop :=
  match k with
  | Some key => key ∈ StructsMap.getKeys (map_ this)
  | None => True
  end.

Definition keys_ok (this : t) : Prop :=
  key_ok this (defaultButton_ this) /\ key_ok this (cancelButton_ this).

(** [decorate] reads two things off a button that the element record does
    not carry: [goog.dom.getTextContent(button)] and [button.value]. *)
Section Decorate.

Variable getTextContent : Element.t -> string.
Variable value : Element.t -> string.

(** The body of the loop of [decorate] for the button at index [i].  The
    class list of the button is kept by the toolkit: the call of
    [goog.dom.classes.add] is recorded, the [className] the page holds for
    the button is not recomputed. *)
Definition decorate_button (i : nat) (button : Element.t)
    (s : t * Page.t) : t * Page.t :=
  let (this, p) := s in
  let key := or_else (Element.name button) (Element.id button) in
  let caption := or_else (getTextContent button) (value button) in
  if negb (String.eqb key "") then
    let isDefault := Nat.eqb i 0 in
    let isCancel := String.eqb (Element.name button) "cancel" in
    let this :=
      set key (CapText caption) (Some isDefault) (Some isCancel) this in
    (this,
     if isDefault
     then Page.emit (AddClass (Element.uid button)
                       (getCssName (class_ this) "default")) p
     else p)
  else s.

Fixpoint decorate_loop (i : nat) (buttons : list Element.t)
    (s : t * Page.t) : t * Page.t :=
  match buttons with
  | [] => s
  | button :: rest => decorate_loop (S i) rest (decorate_button i button s)
  end.

(** [element] is given with its [nodeType]. *)
Definition decorate (element : option (nat * Z)) (this : t) (p : Page.t)
    : t * Page.t :=
  match element with
  | Some (n, nodeType) =>
      if Z.eqb nodeType NodeType.ELEMENT then
        let this :=
          mk (map_ this) (class_ this) (defaultButton_ this) (Some n)
             (cancelButton_ this) in
        decorate_loop 0 (Page.getElementsByTagName n "BUTTON" p) (this, p)
      else (this, p)
  | None => (this, p)
  end.

End Decorate.

End ButtonSet.

(** ** goog.events.EventHandler registrations *)

(** What a listener is registered on: a DOM node, the window, the dialog's
    [goog.events.FocusHandler], or a null reference. *)
Inductive Src :=
| SrcNode (n : nat)
| SrcWindow
| SrcFocusHandler
| SrcNull.

Definition src_of (el : option nat) : Src :=
  match el with
  | Some n => SrcNode n
  | None => SrcNull
  end.

(** [goog.events.EventType] and [goog.events.FocusHandler.EventType]. *)
Inductive EventType := CLICK | KEYDOWN | RESIZE | FOCUSIN.

(** The methods of the dialog that are registered as listeners. *)
Module Fn.
Inductive t :=
| onTitleCloseClick_
| onFocus_
| onKeyDown_
| onResize_
| onButtonClick_.
End Fn.

Record Listener := {
  src : Src;
  type : EventType;
  fn : Fn.t;
  capture : bool
}.

#[global] Instance Src_eq_dec : EqDecision Src.
Proof. solve_decision. Defined.

#[global] Instance EventType_eq_dec : EqDecision EventType.
Proof. solve_decision. Defined.

#[global] Instance Fn_eq_dec : EqDecision Fn.t.
Proof. solve_decision. Defined.

#[global] Instance Listener_eq_dec : EqDecision Listener.
Proof. solve_decision. Defined.

(** [goog.fx.Dragger]: the dragged element, the handle, and [limits], a
    [goog.math.Rect] (left, top, width, height). *)
Record Dragger := {
  drag_target : option nat;
  drag_handle : option nat;
  limits : option (Z * Z * Z * Z)
}.

(** [goog.ui.Component.Error]. *)
Inductive ComponentError := NOT_SUPPORTED | ALREADY_RENDERED.

(** What a method can throw: [Error(goog.ui.Component.Error...)], or the
    TypeError of a property access on [null]. *)
Inductive Exn :=
| Error (e : ComponentError)
| TypeError.

(** The outcome of a call: normal return, an exception, or the recursion
    budget of the model used up (see [setVisible]). *)
Inductive Result (A : Type) :=
| Ok (a : A)
| Throw (e : Exn)
| OutOfFuel.

Arguments Ok {A} a.
Arguments Throw {A} e.
Arguments OutOfFuel {A}.

(** [goog.events.KeyCodes]. *)
Module KeyCodes.
Definition TAB : Z := 9.
Definition ENTER : Z := 13.
Definition ESC : Z := 27.
End KeyCodes.

(** A [goog.events.BrowserEvent] for a key. *)
Record KeyEvent := {
  keyCode : Z;
  shiftKey : bool;
  target : Element.t
}.

(** ** goog.ui.Dialog *)

Module Dialog.

(** The fields of a dialog, with those of its superclasses:
    [goog.Disposable] ([disposed_]), [goog.events.EventTarget] (the
    [listeners] registered on the dialog; a listener answers [false] when
    it cancels the event, by returning false or by [preventDefault]) and
    [goog.ui.Component] ([dom_], [element_], [inDocument_], [handler_],
    [wasDecorated_]).  Listeners observe events and answer; they do not
    call back into the dialog. *)
Record t := mk {
  disposed_ : bool;
  listeners : list (DialogEvent -> bool);
  dom_ : Page.t;
  element_ : option nat;
  inDocument_ : bool;
  handler_ : list Listener;
  wasDecorated_ : bool;
  class_ : string;
  useIframeMask_ : bool;
  modal_ : bool;
  draggable_ : bool;
  backgroundElementOpacity_ : Q;
  title_ : string;
  content_ : string;
  buttons_ : option ButtonSet.t;
  dragger_ : option Dragger;
  visible_ : bool;
  disposeOnHide_ : bool;
  bgEl_ : option nat;
  bgIframeEl_ : option nat;
  titleEl_ : option nat;
  titleTextEl_ : option nat;
  titleCloseEl_ : option nat;
  contentEl_ : option nat;
  buttonEl_ : option nat;
  tabCatcherEl_ : option nat;
  focusHandler_ : bool
}.

Definition set_disposed_ (x : bool) (d : t) : t :=
  mk x (listeners d) (dom_ d) (element_ d) (inDocument_ d) (handler_ d)
     (wasDecorated_ d) (class_ d) (useIframeMask_ d) (modal_ d) (draggable_ d)
     (backgroundElementOpacity_ d) (title_ d) (content_ d) (buttons_ d)
     (dragger_ d) (visible_ d) (disposeOnHide_ d) (bgEl_ d) (bgIframeEl_ d)
     (titleEl_ d) (titleTextEl_ d) (titleCloseEl_ d) (contentEl_ d)
     (buttonEl_ d) (tabCatcherEl_ d) (focusHandler_ d).

Definition set_listeners (x : list (DialogEvent -> bool)) (d : t) : t :=
  mk (disposed_ d) x (dom_ d) (element_ d) (inDocument_ d) (handler_ d)
     (wasDecorated_ d) (class_ d) (useIframeMask_ d) (modal_ d) (draggable_ d)
     (backgroundElementOpacity_ d) (title_ d) (content_ d) (buttons_ d)
     (dragger_ d) (visible_ d) (disposeOnHide_ d) (bgEl_ d) (bgIframeEl_ d)
     (titleEl_ d) (titleTextEl_ d) (titleCloseEl_ d) (contentEl_ d)
     (buttonEl_ d) (tabCatcherEl_ d) (focusHandler_ d).

Definition set_dom_ (x : Page.t) (d : t) : t :=
  mk (disposed_ d) (listeners d) x (element_ d) (inDocument_ d) (handler_ d)
     (wasDecorated_ d) (class_ d) (useIframeMask_ d) (modal_ d) (draggable_ d)
     (backgroundElementOpacity_ d) (title_ d) (content_ d) (buttons_ d)
     (dragger_ d) (visible_ d) (disposeOnHide_ d) (bgEl_ d) (bgIframeEl_ d)
     (titleEl_ d) (titleTextEl_ d) (titleCloseEl_ d) (contentEl_ d)
     (buttonEl_ d) (tabCatcherEl_ d) (focusHandler_ d).

Definition set_element_ (x : option nat) (d : t) : t :=
  mk (disposed_ d) (listeners d) (dom_ d) x (inDocument_ d) (handler_ d)
     (wasDecorated_ d) (class_ d) (useIframeMask_ d) (modal_ d) (draggable_ d)
     (backgroundElementOpacity_ d) (title_ d) (content_ d) (buttons_ d)
     (dragger_ d) (visible_ d) (disposeOnHide_ d) (bgEl_ d) (bgIframeEl_ d)
     (titleEl_ d) (titleTextEl_ d) (titleCloseEl_ d) (contentEl_ d)
     (buttonEl_ d) (tabCatcherEl_ d) (focusHandler_ d).

Definition set_inDocument_ (x : bool) (d : t) : t :=
  mk (disposed_ d) (listeners d) (dom_ d) (element_ d) x (handler_ d)
     (wasDecorated_ d) (class_ d) (useIframeMask_ d) (modal_ d) (draggable_ d)
     (backgroundElementOpacity_ d) (title_ d) (content_ d) (buttons_ d)
     (dragger_ d) (visible_ d) (disposeOnHide_ d) (bgEl_ d) (bgIframeEl_ d)
     (titleEl_ d) (titleTextEl_ d) (titleCloseEl_ d) (contentEl_ d)
     (buttonEl_ d) (tabCatcherEl_ d) (focusHandler_ d).

Definition set_handler_ (x : list Listener) (d : t) : t :=
  mk (disposed_ d) (listeners d) (dom_ d) (element_ d) (inDocument_ d) x
     (wasDecorated_ d) (class_ d) (useIframeMask_ d) (modal_ d) (draggable_ d)
     (backgroundElementOpacity_ d) (title_ d) (content_ d) (buttons_ d)
     (dragger_ d) (visible_ d) (disposeOnHide_ d) (bgEl_ d) (bgIframeEl_ d)
     (titleEl_ d) (titleTextEl_ d) (titleCloseEl_ d) (contentEl_ d)
     (buttonEl_ d) (tabCatcherEl_ d) (focusHandler_ d).

Definition set_buttons_ (x : option ButtonSet.t) (d : t) : t :=
  mk (disposed_ d) (listeners d) (dom_ d) (element_ d) (inDocument_ d)
     (handler_ d) (wasDecorated_ d) (class_ d) (useIframeMask_ d) (modal_ d)
     (draggable_ d) (backgroundElementOpacity_ d) (title_ d) (content_ d) x
     (dragger_ d) (visible_ d) (disposeOnHide_ d) (bgEl_ d) (bgIframeEl_ d)
     (titleEl_ d) (titleTextEl_ d) (titleCloseEl_ d) (contentEl_ d)
     (buttonEl_ d) (tabCatcherEl_ d) (focusHandler_ d).

Definition set_dragger_ (x : option Dragger) (d : t) : t :=
  mk (disposed_ d) (listeners d) (dom_ d) (element_ d) (inDocument_ d)
     (handler_ d) (wasDecorated_ d) (class_ d) (useIframeMask_ d) (modal_ d)
     (draggable_ d) (backgroundElementOpacity_ d) (title_ d) (content_ d)
     (buttons_ d) x (visible_ d) (disposeOnHide_ d) (bgEl_ d) (bgIframeEl_ d)
     (titleEl_ d) (titleTextEl_ d) (titleCloseEl_ d) (contentEl_ d)
     (buttonEl_ d) (tabCatcherEl_ d) (focusHandler_ d).

Definition set_visible_ (x : bool) (d : t) : t :=
  mk (disposed_ d) (listeners d) (dom_ d) (element_ d) (inDocument_ d)
     (handler_ d) (wasDecorated_ d) (class_ d) (useIframeMask_ d) (modal_ d)
     (draggable_ d) (backgroundElementOpacity_ d) (title_ d) (content_ d)
     (buttons_ d) (dragger_ d) x (disposeOnHide_ d) (bgEl_ d) (bgIframeEl_ d)
     (titleEl_ d) (titleTextEl_ d) (titleCloseEl_ d) (contentEl_ d)
     (buttonEl_ d) (tabCatcherEl_ d) (focusHandler_ d).

Definition set_disposeOnHide_ (x : bool) (d : t) : t :=
  mk (disposed_ d) (listeners d) (dom_ d) (element_ d) (inDocument_ d)
     (handler_ d) (wasDecorated_ d) (class_ d) (useIframeMask_ d) (modal_ d)
     (draggable_ d) (backgroundElementOpacity_ d) (title_ d) (content_ d)
     (buttons_ d) (dragger_ d) (visible_ d) x (bgEl_ d) (bgIframeEl_ d)
     (titleEl_ d) (titleTextEl_ d) (titleCloseEl_ d) (contentEl_ d)
     (buttonEl_ d) (tabCatcherEl_ d) (focusHandler_ d).

Definition set_bgEl_ (x : option nat) (d : t) : t :=
  mk (disposed_ d) (listeners d) (dom_ d) (element_ d) (inDocument_ d)
     (handler_ d) (wasDecorated_ d) (class_ d) (useIframeMask_ d) (modal_ d)
     (draggable_ d) (backgroundElementOpacity_ d) (title_ d) (content_ d)
     (buttons_ d) (dragger_ d) (visible_ d) (disposeOnHide_ d) x
     (bgIframeEl_ d) (titleEl_ d) (titleTextEl_ d) (titleCloseEl_ d)
     (contentEl_ d) (buttonEl_ d) (tabCatcherEl_ d) (focusHandler_ d).

Definition set_bgIframeEl_ (x : option nat) (d : t) : t :=
  mk (disposed_ d) (listeners d) (dom_ d) (element_ d) (inDocument_ d)
     (handler_ d) (wasDecorated_ d) (class_ d) (useIframeMask_ d) (modal_ d)
     (draggable_ d) (backgroundElementOpacity_ d) (title_ d) (content_ d)
     (buttons_ d) (dragger_ d) (visible_ d) (disposeOnHide_ d) (bgEl_ d) x
     (titleEl_ d) (titleTextEl_ d) (titleCloseEl_ d) (contentEl_ d)
     (buttonEl_ d) (tabCatcherEl_ d) (focusHandler_ d).

Definition set_titleEl_ (x : option nat) (d : t) : t :=
  mk (disposed_ d) (listeners d) (dom_ d) (element_ d) (inDocument_ d)
     (handler_ d) (wasDecorated_ d) (class_ d) (useIframeMask_ d) (modal_ d)
     (draggable_ d) (backgroundElementOpacity_ d) (title_ d) (content_ d)
     (buttons_ d) (dragger_ d) (visible_ d) (disposeOnHide_ d) (bgEl_ d)
     (bgIframeEl_ d) x (titleTextEl_ d) (titleCloseEl_ d) (contentEl_ d)
     (buttonEl_ d) (tabCatcherEl_ d) (focusHandler_ d).

Definition set_titleTextEl_ (x : option nat) (d : t) : t :=
  mk (disposed_ d) (listeners d) (dom_ d) (element_ d) (inDocument_ d)
     (handler_ d) (wasDecorated_ d) (class_ d) (useIframeMask_ d) (modal_ d)
     (draggable_ d) (backgroundElementOpacity_ d) (title_ d) (content_ d)
     (buttons_ d) (dragger_ d) (visible_ d) (disposeOnHide_ d) (bgEl_ d)
     (bgIframeEl_ d) (titleEl_ d) x (titleCloseEl_ d) (contentEl_ d)
     (buttonEl_ d) (tabCatcherEl_ d) (focusHandler_ d).

Definition set_titleCloseEl_ (x : option nat) (d : t) : t :=
  mk (disposed_ d) (listeners d) (dom_ d) (element_ d) (inDocument_ d)
     (handler_ d) (wasDecorated_ d) (class_ d) (useIframeMask_ d) (modal_ d)
     (draggable_ d) (backgroundElementOpacity_ d) (title_ d) (content_ d)
     (buttons_ d) (dragger_ d) (visible_ d) (disposeOnHide_ d) (bgEl_ d)
     (bgIframeEl_ d) (titleEl_ d) (titleTextEl_ d) x (contentEl_ d)
     (buttonEl_ d) (tabCatcherEl_ d) (focusHandler_ d).

Definition set_contentEl_ (x : option nat) (d : t) : t :=
  mk (disposed_ d) (listeners d) (dom_ d) (element_ d) (inDocument_ d)
     (handler_ d) (wasDecorated_ d) (class_ d) (useIframeMask_ d) (modal_ d)
     (draggable_ d) (backgroundElementOpacity_ d) (title_ d) (content_ d)
     (buttons_ d) (dragger_ d) (visible_ d) (disposeOnHide_ d) (bgEl_ d)
     (bgIframeEl_ d) (titleEl_ d) (titleTextEl_ d) (titleCloseEl_ d) x
     (buttonEl_ d) (tabCatcherEl_ d) (focusHandler_ d).

Definition set_buttonEl_ (x : option nat) (d : t) : t :=
  mk (disposed_ d) (listeners d) (dom_ d) (element_ d) (inDocument_ d)
     (handler_ d) (wasDecorated_ d) (class_ d) (useIframeMask_ d) (modal_ d)
     (draggable_ d) (backgroundElementOpacity_ d) (title_ d) (content_ d)
     (buttons_ d) (dragger_ d) (visible_ d) (disposeOnHide_ d) (bgEl_ d)
     (bgIframeEl_ d) (titleEl_ d) (titleTextEl_ d) (titleCloseEl_ d)
     (contentEl_ d) x (tabCatcherEl_ d) (focusHandler_ d).

Definition set_tabCatcherEl_ (x : option nat) (d : t) : t :=
  mk (disposed_ d) (listeners d) (dom_ d) (element_ d) (inDocument_ d)
     (handler_ d) (wasDecorated_ d) (class_ d) (useIframeMask_ d) (modal_ d)
     (draggable_ d) (backgroundElementOpacity_ d) (title_ d) (content_ d)
     (buttons_ d) (dragger_ d) (visible_ d) (disposeOnHide_ d) (bgEl_ d)
     (bgIframeEl_ d) (titleEl_ d) (titleTextEl_ d) (titleCloseEl_ d)
     (contentEl_ d) (buttonEl_ d) x (focusHandler_ d).

Definition set_focusHandler_ (x : bool) (d : t) : t :=
  mk (disposed_ d) (listeners d) (dom_ d) (element_ d) (inDocument_ d)
     (handler_ d) (wasDecorated_ d) (class_ d) (useIframeMask_ d) (modal_ d)
     (draggable_ d) (backgroundElementOpacity_ d) (title_ d) (content_ d)
     (buttons_ d) (dragger_ d) (visible_ d) (disposeOnHide_ d) (bgEl_ d)
     (bgIframeEl_ d) (titleEl_ d) (titleTextEl_ d) (titleCloseEl_ d)
     (contentEl_ d) (buttonEl_ d) (tabCatcherEl_ d) x.

(** *** The monad of methods *)

Definition M (A : Type) : Type := t -> Result A * t.

#[global] Instance M_ret : MRet M := fun A a d => (Ok a, d).

#[global] Instance M_bind : MBind M := fun A B f m d =>
  match m d with
  | (Ok a, d') => f a d'
  | (Throw e, d') => (Throw e, d')
  | (OutOfFuel, d') => (OutOfFuel, d')
  end.

Definition gets {A : Type} (f : t -> A) : M A := fun d => (Ok (f d), d).

Definition modify (f : t -> t) : M unit := fun d => (Ok tt, f d).

Definition throw {A : Type} (e : Exn) : M A := fun d => (Throw e, d).

Definition out_of_fuel {A : Type} : M A := fun d => (OutOfFuel, d).

(** Reading a property of [o]: a TypeError when [o] is null. *)
Definition deref {A : Type} (o : option A) : M A :=
  match o with
  | Some a => mret a
  | None => throw TypeError
  end.

Definition when (b : bool) (m : M unit) : M unit :=
  if b then m else mret tt.

(** [if (o) { body(o) }] for a reference [o]. *)
Definition when_some {A : Type} (o : option A) (body : A -> M unit)
    : M unit :=
  match o with
  | Some a => body a
  | None => mret tt
  end.

(** [try { m } catch (e) { }]. *)
Definition try_catch (m : M unit) : M unit := fun d =>
  match m d with
  | (Throw _, d') => (Ok tt, d')
  | r => r
  end.

Definition emit (e : Effect) : M unit :=
  modify (fun d => set_dom_ (Page.emit e (dom_ d)) d).

Definition createDom_ (tag className : string) (children : list Child)
    : M nat := fun d =>
  let (n, p) := Page.createDom tag className children (dom_ d) in
  (Ok n, set_dom_ p d).

(** [goog.style.showElement(el, shown)]. *)
Definition showElement (el : option nat) (shown : bool) : M unit :=
  n ← deref el; emit (ShowElement n shown).

(** *** Accessors *)

Definition getElement : M (option nat) := gets element_.

Definition isInDocument : M bool := gets inDocument_.

Definition getButtonSet : M (option ButtonSet.t) := gets buttons_.

Definition isVisible : M bool := gets visible_.

Definition getDisposeOnHide : M bool := gets disposeOnHide_.

Definition setDisposeOnHide (b : bool) : M unit :=
  modify (fun d =>
    mk (disposed_ d) (listeners d) (dom_ d) (element_ d) (inDocument_ d)
       (handler_ d) (wasDecorated_ d) (class_ d) (useIframeMask_ d)
       (modal_ d) (draggable_ d) (backgroundElementOpacity_ d) (title_ d)
       (content_ d) (buttons_ d) (dragger_ d) (visible_ d) b (bgEl_ d)
       (bgIframeEl_ d) (titleEl_ d) (titleTextEl_ d) (titleCloseEl_ d)
       (contentEl_ d) (buttonEl_ d) (tabCatcherEl_ d) (focusHandler_ d)).

(** *** The component's event handler *)

(** Modelled from the spec: [goog.events.EventHandler], reached through
    [getHandler()], is not among the sources; the spec has the dialog
    "attach" listeners on show and "detach those listeners" on hide.  A
    registration is kept once; [unlisten] removes it. *)
Definition listen (s : Src) (ty : EventType) (f : Fn.t)
    (opt_capture : bool) : M unit :=
  modify (fun d =>
    let l := Build_Listener s ty f opt_capture in
    if decide (l ∈ handler_ d) then d
    else set_handler_ (handler_ d ++ [l]) d).

Definition unlisten (s : Src) (ty : EventType) (f : Fn.t)
    (opt_capture : bool) : M unit :=
  modify (fun d =>
    let l := Build_Listener s ty f opt_capture in
    set_handler_ (filter (fun l' => l' <> l) (handler_ d)) d).

(** Modelled from the spec: [dispatchEvent] of [goog.events.EventTarget]
    is not among the sources; the spec has "a cancelable [...]
    notification" after which "hiding proceeds only if not canceled".
    Every listener sees the event; the result is false when one of them
    cancels it. *)
Definition dispatchEvent (e : DialogEvent) : M bool :=
  emit (Dispatched e);;
  ls ← gets listeners;
  mret (forallb (fun l => l e) ls).

(** *** DOM construction *)

Definition manageBackgroundDom_ : M unit :=
  useIframeMask ← gets useIframeMask_;
  modal ← gets modal_;
  bgIframeEl ← gets bgIframeEl_;
  cls ← gets class_;
  match bgIframeEl with
  | None =>
      when (useIframeMask && modal) (
        n ← createDom_ "iframe" "" [];
        modify (set_bgIframeEl_ (Some n));;
        emit (SetClassName n (getCssName cls "bg"));;
        emit (ShowElement n false);;
        emit (SetOpacity n 0))
  | Some n =>
      when (negb useIframeMask || negb modal) (
        emit (RemoveNode n);;
        modify (set_bgIframeEl_ None))
  end;;
  bgEl ← gets bgEl_;
  match bgEl with
  | None =>
      when modal (
        n ← createDom_ "div" (getCssName cls "bg") [];
        modify (set_bgEl_ (Some n));;
        opacity ← gets backgroundElementOpacity_;
        emit (SetOpacity n opacity);;
        emit (ShowElement n false))
  | Some n =>
      when (negb modal) (
        emit (RemoveNode n);;
        modify (set_bgEl_ None))
  end.

(** [this.buttons_.attachToElement(el)]. *)
Definition attachButtons (bs : ButtonSet.t) (el : nat) : M unit :=
  modify (fun d =>
    let (bs', p) := ButtonSet.attachToElement el bs (dom_ d) in
    set_buttons_ (Some bs') (set_dom_ p d)).

(** Component ids and the a11y label that carries them are left out:
    [getId()] and [titleId_] only name the title element. *)
Definition createDom : M unit :=
  manageBackgroundDom_;;
  cls ← gets class_;
  title ← gets title_;
  titleTextEl ← createDom_ "span" (getCssName cls "title-text")
                   [ChildText title];
  modify (set_titleTextEl_ (Some titleTextEl));;
  titleCloseEl ← createDom_ "span" (getCssName cls "title-close") [];
  modify (set_titleCloseEl_ (Some titleCloseEl));;
  titleEl ← createDom_ "div" (getCssName cls "title")
               [ChildNode titleTextEl; ChildNode titleCloseEl];
  modify (set_titleEl_ (Some titleEl));;
  contentEl ← createDom_ "div" (getCssName cls "content") [];
  modify (set_contentEl_ (Some contentEl));;
  buttonEl ← createDom_ "div" (getCssName cls "buttons") [];
  modify (set_buttonEl_ (Some buttonEl));;
  tabCatcherEl ← createDom_ "span" "" [];
  modify (set_tabCatcherEl_ (Some tabCatcherEl));;
  el ← createDom_ "div" cls
          [ChildNode titleEl; ChildNode contentEl; ChildNode buttonEl;
           ChildNode tabCatcherEl];
  modify (set_element_ (Some el));;
  emit (SetRole el "dialog");;
  emit (SetState el "labelledby");;
  content ← gets content_;
  when (negb (String.eqb content ""))
       (emit (SetInnerHTML contentEl content));;
  showElement (Some el) false;;
  buttons ← gets buttons_;
  when_some buttons (fun bs => attachButtons bs buttonEl).

Definition renderBackground_ (parent : nat) : M unit :=
  bgIframeEl ← gets bgIframeEl_;
  when_some bgIframeEl (fun n => emit (AppendChild parent n));;
  bgEl ← gets bgEl_;
  when_some bgEl (fun n => emit (AppendChild parent n)).

Definition createDraggableTitleDom_ : M Dragger :=
  el ← getElement;
  titleEl ← gets titleEl_;
  let dragger := Build_Dragger el titleEl None in
  n ← deref titleEl;
  cls ← gets class_;
  emit (AddClass n (getCssName cls "title-draggable"));;
  mret dragger.

(** It starts with [goog.ui.Component.prototype.enterDocument], which
    sets [inDocument_].  The elements the model creates carry no id, so
    the [titleTextEl_.id !== ''] branch only reads [titleTextEl_]. *)
Definition enterDocument : M unit :=
  modify (set_inDocument_ true);;
  draggable ← gets draggable_;
  dragger ← gets dragger_;
  when (draggable && negb (bool_decide (is_Some dragger))) (
    dr ← createDraggableTitleDom_;
    modify (set_dragger_ (Some dr)));;
  titleCloseEl ← gets titleCloseEl_;
  listen (src_of titleCloseEl) CLICK Fn.onTitleCloseClick_ false;;
  focusHandler ← gets focusHandler_;
  listen (if (focusHandler : bool) then SrcFocusHandler else SrcNull) FOCUSIN
         Fn.onFocus_ false;;
  el ← getElement;
  n ← deref el;
  emit (SetRole n "dialog");;
  titleTextEl ← gets titleTextEl_;
  _ ← deref titleTextEl;
  mret tt.

(** Modelled from the spec: [goog.ui.Component.prototype.render], called
    through [goog.ui.Dialog.superClass_.render.call(this, parent)], is not
    among the sources; the spec has the "DOM created lazily on first
    render" and "re-rendering an already-rendered dialog" as a fatal usage
    error.  It creates the DOM if there is none, appends the element to
    [parent] and calls [enterDocument] (a dialog has no parent
    component). *)
Definition Component_render (parent : nat) : M unit :=
  inDocument ← gets inDocument_;
  if (inDocument : bool) then throw (Error ALREADY_RENDERED)
  else
    el ← getElement;
    when (negb (bool_decide (is_Some el))) createDom;;
    el ← getElement;
    n ← deref el;
    emit (AppendChild parent n);;
    enterDocument.

Definition render (opt_parent : option nat) : M unit :=
  inDocument ← isInDocument;
  if (inDocument : bool) then throw (Error ALREADY_RENDERED)
  else
    el ← getElement;
    when (negb (bool_decide (is_Some el))) createDom;;
    let parent := default Page.body opt_parent in
    renderBackground_ parent;;
    Component_render parent.

Definition renderBefore (sibling : option nat) : M unit :=
  throw (Error NOT_SUPPORTED).

(** *** Geometry *)

Definition resizeBackground_ : M unit :=
  bgIframeEl ← gets bgIframeEl_;
  when_some bgIframeEl (fun n => emit (ShowElement n false));;
  bgEl ← gets bgEl_;
  when_some bgEl (fun n => emit (ShowElement n false));;
  l ← gets (fun d => Page.layout (dom_ d));
  let w := scrollWidth l in
  let h := Z.max (scrollHeight l) (viewportHeight l) in
  bgIframeEl ← gets bgIframeEl_;
  when_some bgIframeEl (fun n =>
    emit (ShowElement n true);; emit (SetSize n w h));;
  bgEl ← gets bgEl_;
  when_some bgEl (fun n =>
    emit (ShowElement n true);; emit (SetSize n w h));;
  draggable ← gets draggable_;
  when draggable (
    el ← getElement;
    _ ← deref el;
    dragger ← gets dragger_;
    dr ← deref dragger;
    modify (set_dragger_
      (Some (Build_Dragger (drag_target dr) (drag_handle dr)
               (Some (0, 0, w - dialogWidth l, h - dialogHeight l)%Z))))).

Definition center (offset viewport dialog : Z) : Q :=
  Qred (Qmax (inject_Z offset + inject_Z viewport / 2
              - inject_Z dialog / 2) 0).

Definition reposition : M unit :=
  el ← getElement;
  n ← deref el;
  l ← gets (fun d => Page.layout (dom_ d));
  let x := if positionFixed l then 0%Z else scrollX l in
  let y := if positionFixed l then 0%Z else scrollY l in
  emit (SetPosition n (center x (viewportWidth l) (dialogWidth l))
                      (center y (viewportHeight l) (dialogHeight l))).

(** *** Showing and hiding *)

(** [button.focus()]: a disabled button does not take the focus (the
    source expects that IE6 throws there, and swallows it). *)
Definition focusButton (button : Element.t) : M unit :=
  if Element.disabled button then mret tt
  else
    modify (fun d => set_dom_ (Page.focus (Element.uid button) (dom_ d)) d).

(** The WebKit and Opera detour: focus a temporary input below the dialog
    element, then remove it; the focus it had falls back to the body. *)
Definition focusTemp : M unit :=
  temp ← createDom_ "input" "" [];
  emit (SetCssText temp "position:fixed;width:0;height:0");;
  el ← getElement;
  n ← deref el;
  emit (AppendChild n temp);;
  modify (fun d => set_dom_ (Page.focus temp (dom_ d)) d);;
  emit (RemoveChild n temp);;
  modify (fun d => set_dom_ (Page.set_activeElement None (dom_ d)) d).

(** "Move focus to the default button (if any)". *)
Definition focusDefaultButton : M unit :=
  bs ← getButtonSet;
  when_some bs (fun bs =>
    let defaultButton := ButtonSet.getDefault bs in
    when (truthy defaultButton) (
      buttonEl ← gets buttonEl_;
      c ← deref buttonEl;
      buttons ← gets (fun d => Page.getElementsByTagName c "BUTTON" (dom_ d));
      when_some
        (List.find
           (fun b => bool_decide (Some (Element.name b) = defaultButton))
           buttons)
        (fun button =>
           try_catch (
             ua ← gets (fun d => Page.userAgent (dom_ d));
             when (WEBKIT ua || OPERA ua) focusTemp;;
             focusButton button)))).

(** The blocks of [setVisible], in source order.  First: "Listen for
    keyboard and resize events while the dialog is visible", or stop
    listening. *)
Definition setVisible_listeners (visible : bool) : M unit :=
  if visible then
    resizeBackground_;;
    reposition;;
    el ← getElement;
    listen (src_of el) KEYDOWN Fn.onKeyDown_ true;;
    listen SrcWindow RESIZE Fn.onResize_ true
  else
    el ← getElement;
    unlisten (src_of el) KEYDOWN Fn.onKeyDown_ true;;
    unlisten SrcWindow RESIZE Fn.onResize_ true.

(** "Show/hide the iframe mask (on IE), the background mask, and the
    dialog." *)
Definition setVisible_showElements (visible : bool) : M unit :=
  bgIframeEl ← gets bgIframeEl_;
  when_some bgIframeEl (fun n => emit (ShowElement n visible));;
  bgEl ← gets bgEl_;
  when_some bgEl (fun n => emit (ShowElement n visible));;
  el ← getElement;
  showElement el visible.

(** The [if (visible)] block that moves the focus. *)
Definition setVisible_focus : M unit :=
  ua ← gets (fun d => Page.userAgent (dom_ d));
  when (GECKO ua) (
    el ← getElement;
    n ← deref el;
    modify (fun d => set_dom_ (Page.focus n (dom_ d)) d));;
  focusDefaultButton.

(** What follows [this.visible_ = visible]; [dispose] is the call
    [this.dispose()]. *)
Definition setVisible_finish (dispose : M unit) (visible : bool) : M unit :=
  if negb visible then
    buttonEl ← gets buttonEl_;
    unlisten (src_of buttonEl) CLICK Fn.onButtonClick_ false;;
    dispatchEvent AFTER_HIDE;;
    disposeOnHide ← gets disposeOnHide_;
    when disposeOnHide dispose
  else
    buttonEl ← gets buttonEl_;
    listen (src_of buttonEl) CLICK Fn.onButtonClick_ false.

(** The body of [setVisible]. *)
Definition setVisible_body (dispose : M unit) (visible : bool) : M unit :=
  v ← gets visible_;
  if Bool.eqb visible v then mret tt
  else
    inDocument ← isInDocument;
    when (negb inDocument) (render (Some Page.body));;
    setVisible_listeners visible;;
    setVisible_showElements visible;;
    when visible setVisible_focus;;
    modify (set_visible_ visible);;
    setVisible_finish dispose visible.

(** The body of [exitDocument]; [setVisible] is the call
    [this.setVisible(false)].  It ends with the superclass method:
    Modelled from the spec, [goog.ui.Component.prototype.exitDocument],
    not among the sources, removes the listeners of the component's
    handler ("no explicit cancellation beyond detaching listeners on
    hide/dispose") and clears [inDocument_]. *)
Definition exitDocument_body (setVisible : bool -> M unit) : M unit :=
  v ← isVisible;
  when v (setVisible false);;
  dragger ← gets dragger_;
  when_some dragger (fun _ =>
    emit DisposeDragger;; modify (set_dragger_ None));;
  modify (set_handler_ []);;
  modify (set_inDocument_ false).

(** The body of [disposeInternal].  It starts with the superclass chain,
    which is not among the sources and is modelled from the spec
    ("explicit disposal which detaches and nulls all element references"):
    [goog.events.EventTarget] drops the listeners on the dialog,
    [goog.ui.Component] leaves the document if it is in it, disposes of
    its handler, detaches its element unless it was decorated, and nulls
    it.  The source of the dialog follows from [focusHandler_] on. *)
Definition disposeInternal_body (exitDocument : M unit) : M unit :=
  modify (set_listeners []);;
  inDocument ← gets inDocument_;
  when inDocument exitDocument;;
  modify (set_handler_ []);;
  wasDecorated ← gets wasDecorated_;
  el ← gets element_;
  when_some el (fun n => when (negb wasDecorated) (emit (RemoveNode n)));;
  modify (set_element_ None);;
  focusHandler ← gets focusHandler_;
  when focusHandler (
    emit DisposeFocusHandler;; modify (set_focusHandler_ false));;
  bgEl ← gets bgEl_;
  when_some bgEl (fun n => emit (RemoveNode n);; modify (set_bgEl_ None));;
  bgIframeEl ← gets bgIframeEl_;
  when_some bgIframeEl (fun n =>
    emit (RemoveNode n);; modify (set_bgIframeEl_ None));;
  modify (set_titleCloseEl_ None);;
  modify (set_buttonEl_ None);;
  modify (set_tabCatcherEl_ None).

(** Modelled from the spec: [goog.Disposable.prototype.dispose], not
    among the sources; disposal happens once ("transitions to
    Disposed"): [disposed_] is set, then [disposeInternal] runs. *)
Definition dispose_body (disposeInternal : M unit) : M unit :=
  disposed ← gets disposed_;
  when (negb disposed) (
    modify (set_disposed_ true);;
    disposeInternal).

(** [setVisible], [dispose] and [exitDocument] call each other.  [fuel]
    bounds how many calls of [setVisible] may be nested inside one
    another through that cycle; [setVisible_fuel] shows that the bound is
    never reached. *)
Fixpoint setVisible (fuel : nat) (visible : bool) : M unit :=
  setVisible_body
    (dispose_body (disposeInternal_body (exitDocument_body
       match fuel with
       | O => fun _ => out_of_fuel
       | S fuel' => setVisible fuel'
       end)))
    visible.

Definition exitDocument (fuel : nat) : M unit :=
  exitDocument_body (setVisible fuel).

Definition disposeInternal (fuel : nat) : M unit :=
  disposeInternal_body (exitDocument fuel).

Definition dispose (fuel : nat) : M unit :=
  dispose_body (disposeInternal fuel).

(** *** The button set *)

Definition setButtonSet (buttons : option ButtonSet.t) : M unit :=
  modify (set_buttons_ buttons);;
  buttonEl ← gets buttonEl_;
  when_some buttonEl (fun el =>
    match buttons with
    | Some bs => attachButtons bs el
    | None => modify (fun d => set_dom_ (Page.clear el (dom_ d)) d)
    end).

(** *** Handlers *)

Definition onTitleCloseClick_ (fuel : nat) : M unit :=
  bs ← getButtonSet;
  let key := match bs with
             | Some bs => ButtonSet.getCancel bs
             | None => None
             end in
  match bs, key with
  | Some bs, Some k =>
      if truthy key then
        close ← dispatchEvent (SELECT k (ButtonSet.get k bs));
        when close (setVisible fuel false)
      else setVisible fuel false
  | _, _ => setVisible fuel false
  end.

(** The loop of [findParentButton_] over [element] and its ancestors,
    nearest first; the chain ends where [parentNode] is null. *)
Fixpoint findParentButton_loop (buttonEl : option nat)
    (chain : list Element.t) : option Element.t :=
  match chain with
  | [] => None
  | el :: parents =>
      if decide (Some (Element.uid el) = buttonEl) then None
      else if String.eqb (Element.tagName el) "BUTTON" then Some el
      else findParentButton_loop buttonEl parents
  end.

Definition findParentButton_ (element : list Element.t)
    : M (option Element.t) :=
  buttonEl ← gets buttonEl_;
  mret (findParentButton_loop buttonEl element).

(** [e.target] is given with its ancestors. *)
Definition onButtonClick_ (fuel : nat) (e_target : list Element.t)
    : M unit :=
  button ← findParentButton_ e_target;
  when_some button (fun button =>
    when (negb (Element.disabled button)) (
      let key := Element.name button in
      bs ← getButtonSet;
      bs ← deref bs;
      let caption := ButtonSet.get key bs in
      close ← dispatchEvent (SELECT key caption);
      when close (setVisible fuel false))).

(** The Escape branch of [onKeyDown_]: the values of [close] and
    [hasHandler]. *)
Definition onKeyDown_ESC (buttonSet : option ButtonSet.t)
    (target : Element.t) : M (bool * bool) :=
  let cancel := match buttonSet with
                | Some bs => ButtonSet.getCancel bs
                | None => None
                end in
  let isSpecialFormElement :=
    String.eqb (Element.tagName target) "SELECT"
    && negb (Element.disabled target) in
  match buttonSet, cancel with
  | Some bs, Some k =>
      if truthy cancel && negb isSpecialFormElement then
        close ← dispatchEvent (SELECT k (ButtonSet.get k bs));
        mret (close, true)
      else mret (negb isSpecialFormElement, false)
  | _, _ => mret (negb isSpecialFormElement, false)
  end.

(** The Enter branch of [onKeyDown_]. *)
Definition onKeyDown_ENTER (buttonSet : option ButtonSet.t)
    (target : Element.t) : M (bool * bool) :=
  key ←
    (if String.eqb (Element.tagName target) "BUTTON" then
       mret (Some (Element.name target))
     else
       match buttonSet with
       | Some bs =>
           let defaultKey := ButtonSet.getDefault bs in
           defaultButton ←
             (match defaultKey with
              | Some k =>
                  if truthy defaultKey then
                    p ← gets dom_;
                    deref (ButtonSet.getButton k bs p)
                  else mret None
              | None => mret None
              end);
           let isSpecialFormElement :=
             (String.eqb (Element.tagName target) "TEXTAREA"
              || String.eqb (Element.tagName target) "SELECT")
             && negb (Element.disabled target) in
           match defaultButton with
           | Some b =>
               if negb (Element.disabled b) && negb isSpecialFormElement
               then mret defaultKey
               else mret None
           | None => mret None
           end
       | None => mret None
       end);
  match key with
  | Some k =>
      if truthy key then
        bs ← deref buttonSet;
        close ← dispatchEvent
                  (SELECT k (Some (CapText (js_String (ButtonSet.get k bs)))));
        mret (close, true)
      else mret (false, false)
  | None => mret (false, false)
  end.

Definition onKeyDown_ (fuel : nat) (e : KeyEvent) : M unit :=
  buttonSet ← getButtonSet;
  '(close, hasHandler) ←
    (if Z.eqb (keyCode e) KeyCodes.ESC then
       onKeyDown_ESC buttonSet (target e)
     else if Z.eqb (keyCode e) KeyCodes.ENTER then
       onKeyDown_ENTER buttonSet (target e)
     else
       el ← getElement;
       mret (false,
             Z.eqb (keyCode e) KeyCodes.TAB && shiftKey e
             && bool_decide (Some (Element.uid (target e)) = el)));
  when (close || hasHandler) (
    emit StopPropagation;; emit PreventDefault);;
  when close (setVisible fuel false).

Definition onResize_ : M unit := resizeBackground_.

(** *** Construction *)

(** [new goog.ui.Dialog(opt_class, opt_useIframeMask)] in the document
    [page]: the field defaults of the prototype, the OK/Cancel button
    set, and a focus handler. *)
Definition new (opt_class : option string) (opt_useIframeMask : option bool)
    (page : Page.t) : t :=
  mk false [] page None false [] false
     (match opt_class with
      | Some c => if truthy opt_class then c else "modal-dialog"
      | None => "modal-dialog"
      end)
     (truthy_flag opt_useIframeMask) true true (3 # 10) "" ""
     (Some ButtonSet.OK_CANCEL) None false false
     None None None None None None None None true.

(** A listener is registered on the dialog with [goog.events.listen]. *)
Definition addListener (l : DialogEvent -> bool) (d : t) : t :=
  set_listeners (listeners d ++ [l]) d.

(** *** Content, background and modality *)

Definition set_modal_ (x : bool) (d : t) : t :=
  mk (disposed_ d) (listeners d) (dom_ d) (element_ d) (inDocument_ d)
     (handler_ d) (wasDecorated_ d) (class_ d) (useIframeMask_ d) x
     (draggable_ d) (backgroundElementOpacity_ d) (title_ d) (content_ d)
     (buttons_ d) (dragger_ d) (visible_ d) (disposeOnHide_ d) (bgEl_ d)
     (bgIframeEl_ d) (titleEl_ d) (titleTextEl_ d) (titleCloseEl_ d)
     (contentEl_ d) (buttonEl_ d) (tabCatcherEl_ d) (focusHandler_ d).

Definition set_backgroundElementOpacity_ (x : Q) (d : t) : t :=
  mk (disposed_ d) (listeners d) (dom_ d) (element_ d) (inDocument_ d)
     (handler_ d) (wasDecorated_ d) (class_ d) (useIframeMask_ d) (modal_ d)
     (draggable_ d) x (title_ d) (content_ d) (buttons_ d) (dragger_ d)
     (visible_ d) (disposeOnHide_ d) (bgEl_ d) (bgIframeEl_ d) (titleEl_ d)
     (titleTextEl_ d) (titleCloseEl_ d) (contentEl_ d) (buttonEl_ d)
     (tabCatcherEl_ d) (focusHandler_ d).

Definition set_content_ (x : string) (d : t) : t :=
  mk (disposed_ d) (listeners d) (dom_ d) (element_ d) (inDocument_ d)
     (handler_ d) (wasDecorated_ d) (class_ d) (useIframeMask_ d) (modal_ d)
     (draggable_ d) (backgroundElementOpacity_ d) (title_ d) x (buttons_ d)
     (dragger_ d) (visible_ d) (disposeOnHide_ d) (bgEl_ d) (bgIframeEl_ d)
     (titleEl_ d) (titleTextEl_ d) (titleCloseEl_ d) (contentEl_ d)
     (buttonEl_ d) (tabCatcherEl_ d) (focusHandler_ d).

Definition getTitle : M string := gets title_.

Definition getContent : M string := gets content_.

Definition getClass : M string := gets class_.

Definition getModal : M bool := gets modal_.

Definition getDraggable : M bool := gets draggable_.

Definition getBackgroundElementOpacity : M Q :=
  gets backgroundElementOpacity_.

(** As in [createDom], [innerHTML = html] on the content element is
    recorded as the call it is. *)
Definition setContent (html : string) : M unit :=
  modify (set_content_ html);;
  contentEl ← gets contentEl_;
  when_some contentEl (fun n => emit (SetInnerHTML n html)).

Definition setBackgroundElementOpacity (opacity : Q) : M unit :=
  modify (set_backgroundElementOpacity_ opacity);;
  bgEl ← gets bgEl_;
  when_some bgEl (fun n =>
    opacity ← gets backgroundElementOpacity_;
    emit (SetOpacity n opacity)).

Definition setModal (modal : bool) : M unit :=
  modify (set_modal_ modal);;
  manageBackgroundDom_.

(** *** The lazy getters *)

(** [this.render()], when [rendered] is false, before a part of the dialog
    is returned. *)
Definition render_unless (rendered : bool) : M unit :=
  when (negb rendered) (render None).

Definition getContentElement : M (option nat) :=
  contentEl ← gets contentEl_;
  render_unless (bool_decide (is_Some contentEl));;
  gets contentEl_.

Definition getTitleElement : M (option nat) :=
  inDocument ← isInDocument;
  render_unless inDocument;;
  gets titleEl_.

Definition getTitleTextElement : M (option nat) :=
  inDocument ← isInDocument;
  render_unless inDocument;;
  gets titleTextEl_.

Definition getTitleCloseElement : M (option nat) :=
  inDocument ← isInDocument;
  render_unless inDocument;;
  gets titleCloseEl_.

Definition getButtonElement : M (option nat) :=
  inDocument ← isInDocument;
  render_unless inDocument;;
  gets buttonEl_.

Definition getDialogElement : M (option nat) :=
  inDocument ← isInDocument;
  render_unless inDocument;;
  getElement.

Definition getBackgroundElement : M (option nat) :=
  inDocument ← isInDocument;
  render_unless inDocument;;
  gets bgEl_.

(** *** The focus wrap *)

(** "Moves the focus to the dialog." *)
Definition focusElement_ : M unit :=
  ua ← gets (fun d => Page.userAgent (dom_ d));
  when (IE ua) (
    modify (fun d => set_dom_ (Page.focus Page.body (dom_ d)) d));;
  el ← getElement;
  n ← deref el;
  modify (fun d => set_dom_ (Page.focus n (dom_ d)) d).

(** [goog.Timer.callOnce(this.focusElement_, 0, this)] hands the method to
    the timer: the handler returns the call it has scheduled, if any. *)
Definition onFocus_ (e_target : nat) : M (option (M unit)) :=
  tabCatcherEl ← gets tabCatcherEl_;
  mret (if decide (tabCatcherEl = Some e_target) then Some focusElement_
        else None).

End Dialog.

Import Dialog.

(** ** Vocabulary of the properties *)

(** Keys in order of first occurrence. *)
Fixpoint first_occurrences (ks : list string) : list string :=
  match ks with
  | [] => []
  | k :: ks' => k :: filter (fun k' => k' <> k) (first_occurrences ks')
  end.

(** A call that keeps the key bookkeeping sound when made on [this]:
    any [set], and [setDefault] or [setCancel] with null or with a key of
    the mapping. *)
Definition op_ok (this : ButtonSet.t) (op : ButtonSet.Op) : Prop :=
  match op with
  | ButtonSet.OpSet _ _ _ _ => True
  | ButtonSet.OpSetDefault key => ButtonSet.key_ok this key
  | ButtonSet.OpSetCancel key => ButtonSet.key_ok this key
  end.

Fixpoint ops_ok (this : ButtonSet.t) (ops : list ButtonSet.Op) : Prop :=
  match ops with
  | [] => True
  | op :: ops' => op_ok this op /\ ops_ok (ButtonSet.apply this op) ops'
  end.

(** The events dispatched by the dialog, in order, among the observable
    calls. *)
Definition dispatched (tr : list Effect) : list DialogEvent :=
  omap (fun e => match e with Dispatched ev => Some ev | _ => None end) tr.

(** A property of the state that a computation keeps, however it ends. *)
Definition invariant {A : Type} (I : Dialog.t -> Prop) (m : M A) : Prop :=
  forall d, I d -> I (snd (m d)).


(** [this.dispose()] as it runs on a hidden dialog: [exitDocument] finds
    [isVisible()] false and does not call [setVisible]. *)
Definition dispose_hidden_dialog : M unit :=
  dispose_body (disposeInternal_body (exitDocument_body (fun _ => mret tt))).

(** The state Visible of the lifecycle: the dialog is shown, and so it has
    been rendered into the document and has not been disposed of. *)
Definition Visible (d : Dialog.t) : Prop :=
  visible_ d = true /\ inDocument_ d = true /\ is_Some (element_ d)
  /\ disposed_ d = false.

(** The listeners [setVisible(true)] attaches for the time the dialog is
    shown. *)
Definition keydownListener (el : nat) : Listener :=
  Build_Listener (SrcNode el) KEYDOWN Fn.onKeyDown_ true.

Definition resizeListener : Listener :=
  Build_Listener SrcWindow RESIZE Fn.onResize_ true.

Definition clickListener (buttonEl : option nat) : Listener :=
  Build_Listener (src_of buttonEl) CLICK Fn.onButtonClick_ false.

(** The state after one more observable call, and after
    [dispatchEvent(ev)]. *)
Definition after_emit (e : Effect) (d : Dialog.t) : Dialog.t :=
  set_dom_ (Page.emit e (dom_ d)) d.

Definition after_dispatch (ev : DialogEvent) (d : Dialog.t) : Dialog.t :=
  after_emit (Dispatched ev) d.

(** Whether the listeners let [ev] proceed: none of them cancels it. *)
Definition proceeds (ev : DialogEvent) (d : Dialog.t) : bool :=
  forallb (fun l => l ev) (listeners d).

(** "Users may expect to hit escape on a SELECT element": the target is an
    enabled SELECT. *)
Definition onSelect (target : Element.t) : bool :=
  String.eqb (Element.tagName target) "SELECT"
  && negb (Element.disabled target).

(** "Users may expect to hit enter on a TEXTAREA or a SELECT element". *)
Definition onTextareaOrSelect (target : Element.t) : bool :=
  (String.eqb (Element.tagName target) "TEXTAREA"
   || String.eqb (Element.tagName target) "SELECT")
  && negb (Element.disabled target).

(** The cancel key the handlers act on: the one of the dialog's button
    set, when there is a button set and the key is truthy. *)
Definition cancelKey (d : Dialog.t) : option string :=
  match buttons_ d with
  | Some bs =>
      if truthy (ButtonSet.getCancel bs) then ButtonSet.getCancel bs else None
  | None => None
  end.

(** A keydown of Escape, and one of Enter. *)
Definition escape (shiftKey : bool) (target : Element.t) : KeyEvent :=
  Build_KeyEvent KeyCodes.ESC shiftKey target.

Definition enter (shiftKey : bool) (target : Element.t) : KeyEvent :=
  Build_KeyEvent KeyCodes.ENTER shiftKey target.

(** The SELECT event of the Enter key for [key]: the caption goes through
    [String(...)]. *)
Definition enterEvent (key : string) (bs : ButtonSet.t) : DialogEvent :=
  SELECT key (Some (CapText (js_String (ButtonSet.get key bs)))).

(** The button [setVisible(true)] looks for: the first button below the
    button container whose name is the default key of the button set,
    when that key is truthy. *)
Definition defaultButtonElement (d : Dialog.t) : option Element.t :=
  match buttons_ d, buttonEl_ d with
  | Some bs, Some c =>
      if truthy (ButtonSet.getDefault bs) then
        List.find
          (fun b => bool_decide (Some (Element.name b)
                                 = ButtonSet.getDefault bs))
          (Page.getElementsByTagName c "BUTTON" (dom_ d))
      else None
  | _, _ => None
  end.

(** ** Sample dialogs *)

(** A WebKit page, 800 by 600, with a document of 1000 by 2000. *)
Definition sample_page : Page.t :=
  Page.mk (Build_UserAgent false true false false)
          (Build_Layout 1000 2000 800 600 300 200 0 50 false)
          1 ∅ None [].

(** [new goog.ui.Dialog()], with its OK/Cancel buttons, and the same
    dialog after [setVisible(true)]. *)
Definition sample_dialog : Dialog.t := new None None sample_page.

Definition sample_shown : Dialog.t :=
  Eval vm_compute in snd (setVisible 0 true sample_dialog).

(** A dialog with the single button OK (no cancel key), shown. *)
Definition sample_ok_shown : Dialog.t :=
  Eval vm_compute in
    snd (setVisible 0 true
           (snd (setButtonSet (Some ButtonSet.OK) sample_dialog))).

(** A dialog whose one button is not the default. *)
Definition sample_no_default : Dialog.t :=
  Eval vm_compute in
    snd (setButtonSet
           (Some (ButtonSet.set "close" (CapText "Close") None None
                    ButtonSet.new))
           sample_dialog).

(** The button set of [sample_shown]: OK/Cancel, attached to node 6. *)
Definition sample_buttons : ButtonSet.t :=
  Eval vm_compute in
    fst (ButtonSet.attachToElement 6 ButtonSet.OK_CANCEL sample_page).

(** The rendered OK button of [sample_shown], a select box and a button
    without a name in the content of a dialog, and the content element. *)
Definition sample_content : Element.t :=
  Element.mk 5 "DIV" "" "" false "modal-dialog-content" [].

Definition sample_ok_button : Element.t :=
  Element.mk 9 "BUTTON" "ok" "" false "goog-buttonset-default"
             [CapText "OK"].

Definition sample_select : Element.t :=
  Element.mk 100 "SELECT" "choice" "" false "" [].

Definition sample_unnamed_button : Element.t :=
  Element.mk 101 "BUTTON" "" "" false "" [].

(** A disabled copy of the OK button. *)
Definition sample_ok_disabled : Element.t :=
  Element.mk 9 "BUTTON" "ok" "" true "goog-buttonset-default"
             [CapText "OK"].

(** [sample_shown] after [button.disabled = true] on its OK button. *)
Definition sample_shown_disabled : Dialog.t :=
  Eval vm_compute in
  set_dom_
    (Page.set_elements 6
       [sample_ok_disabled;
        Element.mk 10 "BUTTON" "cancel" "" false "" [CapText "Cancel"]]
       (dom_ sample_shown))
    sample_shown.

(** The calls that build [ButtonSet.OK_CANCEL], then [setDefault] on the
    cancel key. *)
Definition sample_ops : list ButtonSet.Op :=
  [ButtonSet.OpSet "ok" (CapText "OK") (Some true) None;
   ButtonSet.OpSet "cancel" (CapText "Cancel") (Some false) (Some true);
   ButtonSet.OpSetDefault (Some "cancel")].

(** ** Vocabulary of the further properties *)

(** The key [decorate] reads off a button, [button.name || button.id], and
    the buttons that have one. *)
Definition button_key (b : Element.t) : string :=
  or_else (Element.name b) (Element.id b).

Definition keyed (buttons : list Element.t) : list Element.t :=
  filter (fun b => button_key b <> "") buttons.

(** The button set with [el] as its container. *)
Definition attached (el : nat) (bs : ButtonSet.t) : ButtonSet.t :=
  ButtonSet.mk (ButtonSet.map_ bs) (ButtonSet.class_ bs)
    (ButtonSet.defaultButton_ bs) (Some el) (ButtonSet.cancelButton_ bs).

(** The six standard button sets. *)
Definition standard_sets : list ButtonSet.t :=
  [ButtonSet.OK; ButtonSet.OK_CANCEL; ButtonSet.YES_NO;
   ButtonSet.YES_NO_CANCEL; ButtonSet.CONTINUE_SAVE_CANCEL;
   ButtonSet.SAVE_CANCEL].

(** The caption [decorate] reads off a button:
    [goog.dom.getTextContent(button) || button.value]. *)
Definition decorate_caption (getTextContent value : Element.t -> string)
    (b : Element.t) : Caption :=
  CapText (or_else (getTextContent b) (value b)).

(** The calls of [set] that [decorate] makes for the buttons it finds, the
    first of them at index [i]. *)
Fixpoint decorate_ops (getTextContent value : Element.t -> string)
    (i : nat) (buttons : list Element.t) : list ButtonSet.Op :=
  match buttons with
  | [] => []
  | b :: rest =>
      (if decide (button_key b = "") then []
       else [ButtonSet.OpSet (button_key b)
               (decorate_caption getTextContent value b)
               (Some (Nat.eqb i 0))
               (Some (String.eqb (Element.name b) "cancel"))])
      ++ decorate_ops getTextContent value (S i) rest
  end.

(** A container, node 6, with three buttons as markup has them: one with
    a name, one with an id only, and one named "cancel"; the text of a
    button is what it was created with. *)
Definition sample_markup : Page.t :=
  Page.mk (Build_UserAgent false true false false)
          (Build_Layout 1000 2000 800 600 300 200 0 50 false)
          10
          {[ 6 := [Element.mk 7 "BUTTON" "save" "" false "" [CapText "Save"];
                   Element.mk 8 "BUTTON" "" "later" false "" [CapText "Later"];
                   Element.mk 9 "BUTTON" "cancel" "" false ""
                     [CapText "Cancel"]] ]}
          None [].

Definition sample_text (b : Element.t) : string :=
  match Element.content b with
  | [CapText s] => s
  | _ => ""
  end.

Definition sample_value (b : Element.t) : string := "".

(** The part of a chain of ancestors, nearest first, that lies strictly
    below the node [c]. *)
Fixpoint below (c : option nat) (chain : list Element.t) : list Element.t :=
  match chain with
  | [] => []
  | e :: parents =>
      if decide (Some (Element.uid e) = c) then [] else e :: below c parents
  end.

(** The button a click lands in: the first BUTTON among the target and its
    ancestors below the button container. *)
Definition clicked_button (d : Dialog.t) (e_target : list Element.t)
    : option Element.t :=
  List.find (fun e => String.eqb (Element.tagName e) "BUTTON")
            (below (buttonEl_ d) e_target).

(** A keydown of another key. *)
Definition tab (shiftKey : bool) (target : Element.t) : KeyEvent :=
  Build_KeyEvent KeyCodes.TAB shiftKey target.

(** The dialog element of [sample_shown], and the caption text node of its
    OK button with that button and the container above it. *)
Definition sample_element : Element.t :=
  Element.mk 8 "DIV" "" "" false "modal-dialog" [].

Definition sample_container : Element.t :=
  Element.mk 6 "DIV" "" "" false "modal-dialog-buttons" [].

(** The background masks a dialog has, the iframe mask first. *)
Definition masks (d : Dialog.t) : list nat :=
  option_list (bgIframeEl_ d) ++ option_list (bgEl_ d).

(** An observable call that puts a node into the document or shows it. *)
Definition reveals (e : Effect) : Prop :=
  match e with
  | AppendChild _ _ => True
  | ShowElement _ true => True
  | _ => False
  end.

(** *** The consistent states of a dialog *)

(** The listeners [enterDocument] registers: a click on the close box, and
    a focus change anywhere in the document. *)
Definition closeListener (d : Dialog.t) : Listener :=
  Build_Listener (src_of (titleCloseEl_ d)) CLICK Fn.onTitleCloseClick_ false.

Definition focusListener (d : Dialog.t) : Listener :=
  Build_Listener (if focusHandler_ d then SrcFocusHandler else SrcNull)
                 FOCUSIN Fn.onFocus_ false.

(** The listeners that go with the state of a dialog, in the order in
    which they are registered: none outside the document; in it, those of
    [enterDocument], and when the dialog is shown those of
    [setVisible(true)] after them. *)
Definition registered (d : Dialog.t) : list Listener :=
  if inDocument_ d then
    [closeListener d; focusListener d]
    ++ (if visible_ d
        then [Build_Listener (src_of (element_ d)) KEYDOWN Fn.onKeyDown_ true;
              resizeListener; clickListener (buttonEl_ d)]
        else [])
  else [].

(** The DOM of a dialog is complete: every part [createDom] makes is
    there, the masks are those the modality asks for, and the button set,
    if any, has the button element as its container. *)
Definition Built (d : Dialog.t) : Prop :=
  is_Some (titleEl_ d) /\ is_Some (titleTextEl_ d)
  /\ is_Some (titleCloseEl_ d) /\ is_Some (contentEl_ d)
  /\ is_Some (buttonEl_ d) /\ is_Some (tabCatcherEl_ d)
  /\ (is_Some (bgEl_ d) <-> modal_ d = true)
  /\ (is_Some (bgIframeEl_ d) <-> useIframeMask_ d && modal_ d = true)
  /\ (forall bs, buttons_ d = Some bs ->
                 ButtonSet.element_ bs = buttonEl_ d).

(** A dialog as the calls of its interface leave it: shown only in the
    document, in the document only with an element, an element only with
    the complete DOM, draggable in the document only with a dragger, and
    holding exactly the listeners that go with its state. *)
Definition Consistent (d : Dialog.t) : Prop :=
  (visible_ d = true -> inDocument_ d = true)
  /\ (inDocument_ d = true -> is_Some (element_ d))
  /\ (inDocument_ d = true -> draggable_ d = true -> is_Some (dragger_ d))
  /\ (is_Some (element_ d) -> Built d)
  /\ handler_ d = registered d.

(** What the caller has set on a dialog, as opposed to what rendering and
    showing make of it. *)
Definition settings (d : Dialog.t) :=
  (disposed_ d, listeners d, wasDecorated_ d, class_ d, useIframeMask_ d,
   modal_ d, draggable_ d, backgroundElementOpacity_ d, title_ d, content_ d,
   disposeOnHide_ d, focusHandler_ d).

(** A dialog after its disposal: hidden, outside the document, without
    listeners of either kind, and with the references that
    [disposeInternal] and [exitDocument] clear set to null. *)
Definition Disposed (d : Dialog.t) : Prop :=
  disposed_ d = true /\ visible_ d = false /\ inDocument_ d = false
  /\ element_ d = None /\ handler_ d = [] /\ listeners d = []
  /\ focusHandler_ d = false
  /\ bgEl_ d = None /\ bgIframeEl_ d = None /\ titleCloseEl_ d = None
  /\ buttonEl_ d = None /\ tabCatcherEl_ d = None.

(** *** Calls *)

(** A call of the interface of a dialog, or an event that reaches one of
    its handlers. *)
Inductive Call :=
| CallSetVisible (visible : bool)
| CallSetButtonSet (buttons : option ButtonSet.t)
| CallSetModal (modal : bool)
| CallSetContent (html : string)
| CallSetBackgroundElementOpacity (opacity : Q)
| CallSetDisposeOnHide (b : bool)
| CallRender (opt_parent : option nat)
| CallRenderBefore (sibling : option nat)
| CallReposition
| CallExitDocument
| CallDispose
| CallGetContentElement
| CallGetTitleElement
| CallGetTitleTextElement
| CallGetTitleCloseElement
| CallGetButtonElement
| CallGetDialogElement
| CallGetBackgroundElement
| EventButtonClick (e_target : list Element.t)
| EventKeyDown (e : KeyEvent)
| EventTitleCloseClick
| EventResize
| EventFocus (e_target : nat)
| TimerFocusElement.

(** The call made, its result dropped. *)
Definition call (fuel : nat) (c : Call) : M unit :=
  match c with
  | CallSetVisible visible => setVisible fuel visible
  | CallSetButtonSet buttons => setButtonSet buttons
  | CallSetModal modal => setModal modal
  | CallSetContent html => setContent html
  | CallSetBackgroundElementOpacity opacity =>
      setBackgroundElementOpacity opacity
  | CallSetDisposeOnHide b => setDisposeOnHide b
  | CallRender opt_parent => render opt_parent
  | CallRenderBefore sibling => renderBefore sibling
  | CallReposition => reposition
  | CallExitDocument => exitDocument fuel
  | CallDispose => dispose fuel
  | CallGetContentElement => getContentElement;; mret tt
  | CallGetTitleElement => getTitleElement;; mret tt
  | CallGetTitleTextElement => getTitleTextElement;; mret tt
  | CallGetTitleCloseElement => getTitleCloseElement;; mret tt
  | CallGetButtonElement => getButtonElement;; mret tt
  | CallGetDialogElement => getDialogElement;; mret tt
  | CallGetBackgroundElement => getBackgroundElement;; mret tt
  | EventButtonClick e_target => onButtonClick_ fuel e_target
  | EventKeyDown e => onKeyDown_ fuel e
  | EventTitleCloseClick => onTitleCloseClick_ fuel
  | EventResize => onResize_
  | EventFocus e_target => onFocus_ e_target;; mret tt
  | TimerFocusElement => focusElement_
  end.

(** A sequence of calls, each on the dialog the one before has left,
    whether it returned or threw. *)
Definition calls (fuel : nat) (cs : list Call) (d : Dialog.t) : Dialog.t :=
  fold_left (fun d c => snd (call fuel c d)) cs d.




(** The shown sample dialog after [setVisible(false)]: hidden, in the
    document. *)
Definition sample_hidden : Dialog.t :=
  Eval vm_compute in snd (setVisible 0 false sample_shown).

(** A dialog without a button set, shown. *)
Definition sample_no_buttons : Dialog.t :=
  Eval vm_compute in
    snd (setVisible 0 true (snd (setButtonSet None sample_dialog))).

(** * Properties *)

(** ** The ordered map *)

Section StructsMapFacts.

Lemma get_set_eq key value m :
  StructsMap.get key (StructsMap.set key value m) = Some value.
Proof.
  induction m as [|[k v] m IH]; simpl.
  - by rewrite String.eqb_refl.
  - destruct (String.eqb k key) eqn:E; simpl; rewrite E; done.
Qed.

Lemma get_set_ne key key' value m :
  key' <> key ->
  StructsMap.get key' (StructsMap.set key value m) = StructsMap.get key' m.
Proof.
  intros Hne. induction m as [|[k v] m IH]; simpl.
  - destruct (String.eqb_spec key key'); congruence.
  - destruct (String.eqb_spec k key); simpl.
    + subst. destruct (String.eqb_spec key key'); congruence.
    + by rewrite IH.
Qed.

Lemma getKeys_set key value m :
  StructsMap.getKeys (StructsMap.set key value m) =
  if decide (key ∈ StructsMap.getKeys m) then StructsMap.getKeys m
  else StructsMap.getKeys m ++ [key].
Proof.
  unfold StructsMap.getKeys.
  induction m as [|[k v] m IH]; cbn [StructsMap.set map fst].
  - case_decide as Hin; [by apply elem_of_nil in Hin | done].
  - destruct (String.eqb_spec k key) as [->|Hne]; cbn [map fst].
    + clear IH.
      case_decide as Hin; [done | exfalso; apply Hin, elem_of_cons; by left].
    + rewrite IH. clear IH.
      destruct (decide (key ∈ map fst m)) as [Hin|Hin];
        destruct (decide (key ∈ k :: map fst m)) as [Hin'|Hin']; try done.
      * exfalso. apply Hin', elem_of_cons. by right.
      * exfalso. apply elem_of_cons in Hin' as [?|?]; congruence.
Qed.

Lemma getKeys_set_incl key value m k :
  k ∈ StructsMap.getKeys m ->
  k ∈ StructsMap.getKeys (StructsMap.set key value m).
Proof.
  rewrite getKeys_set. case_decide; [done|]. intros. apply elem_of_app. by left.
Qed.

Lemma getKeys_set_key key value m :
  key ∈ StructsMap.getKeys (StructsMap.set key value m).
Proof.
  rewrite getKeys_set. case_decide; [done|]. apply elem_of_app. right.
  by apply list_elem_of_singleton.
Qed.

Lemma filter_filter_absorb (P Q : string -> Prop)
    `{!forall x, Decision (P x)} `{!forall x, Decision (Q x)}
    (l : list string) :
  (forall x, P x -> Q x) -> filter P (filter Q l) = filter P l.
Proof.
  intros HPQ. induction l as [|x l IH]; [done|].
  rewrite !filter_cons. destruct (decide (Q x)) as [HQ|HQ].
  - rewrite filter_cons. destruct (decide (P x)); by rewrite IH.
  - rewrite IH. destruct (decide (P x)) as [HP|]; [|done]. by apply HPQ in HP.
Qed.

Lemma first_occurrences_NoDup ks : NoDup (first_occurrences ks).
Proof.
  induction ks as [|k ks IH]; simpl; [constructor|].
  constructor.
  - intros [Hk _]%list_elem_of_filter. by apply Hk.
  - by apply NoDup_filter.
Qed.

End StructsMapFacts.

(** ** The button set *)

Section ButtonSetFacts.

Lemma ButtonSet_set_map_ key caption d c bs :
  ButtonSet.map_ (ButtonSet.set key caption d c bs)
  = StructsMap.set key caption (ButtonSet.map_ bs).
Proof. unfold ButtonSet.set. by destruct (truthy_flag d), (truthy_flag c). Qed.

Lemma ButtonSet_set_element_ key caption d c bs :
  ButtonSet.element_ (ButtonSet.set key caption d c bs)
  = ButtonSet.element_ bs.
Proof. unfold ButtonSet.set. by destruct (truthy_flag d), (truthy_flag c). Qed.

Lemma ButtonSet_set_class_ key caption d c bs :
  ButtonSet.class_ (ButtonSet.set key caption d c bs) = ButtonSet.class_ bs.
Proof. unfold ButtonSet.set. by destruct (truthy_flag d), (truthy_flag c). Qed.

Lemma ButtonSet_set_defaultButton_ key caption d c bs :
  ButtonSet.defaultButton_ (ButtonSet.set key caption d c bs)
  = if truthy_flag d then Some key else ButtonSet.defaultButton_ bs.
Proof. unfold ButtonSet.set. by destruct (truthy_flag d), (truthy_flag c). Qed.

Lemma ButtonSet_set_cancelButton_ key caption d c bs :
  ButtonSet.cancelButton_ (ButtonSet.set key caption d c bs)
  = if truthy_flag c then Some key else ButtonSet.cancelButton_ bs.
Proof. unfold ButtonSet.set. by destruct (truthy_flag d), (truthy_flag c). Qed.

Lemma key_ok_set key caption d c bs k :
  ButtonSet.key_ok bs k ->
  ButtonSet.key_ok (ButtonSet.set key caption d c bs) k.
Proof.
  destruct k as [k|]; [|done]. unfold ButtonSet.key_ok.
  rewrite ButtonSet_set_map_. apply getKeys_set_incl.
Qed.

Lemma keys_ok_set key caption d c bs :
  ButtonSet.keys_ok bs -> ButtonSet.keys_ok (ButtonSet.set key caption d c bs).
Proof.
  intros [Hd Hc]. unfold ButtonSet.keys_ok.
  rewrite ButtonSet_set_defaultButton_, ButtonSet_set_cancelButton_. split.
  - destruct (truthy_flag d); [|by apply key_ok_set].
    unfold ButtonSet.key_ok. rewrite ButtonSet_set_map_. apply getKeys_set_key.
  - destruct (truthy_flag c); [|by apply key_ok_set].
    unfold ButtonSet.key_ok. rewrite ButtonSet_set_map_. apply getKeys_set_key.
Qed.

Lemma keys_ok_apply bs op :
  ButtonSet.keys_ok bs -> op_ok bs op ->
  ButtonSet.keys_ok (ButtonSet.apply bs op).
Proof.
  intros Hok Hop. destruct op as [key caption d c|key|key]; simpl.
  - by apply keys_ok_set.
  - destruct Hok as [_ Hc]. split; [exact Hop | exact Hc].
  - destruct Hok as [Hd _]. split; [exact Hd | exact Hop].
Qed.

Lemma getKeys_run ops bs :
  StructsMap.getKeys (ButtonSet.map_ (ButtonSet.run ops bs))
  = StructsMap.getKeys (ButtonSet.map_ bs)
    ++ filter (fun k => k ∉ StructsMap.getKeys (ButtonSet.map_ bs))
         (first_occurrences (ButtonSet.set_keys ops)).
Proof.
  revert bs. induction ops as [|op ops IH]; intros bs.
  - simpl. by rewrite app_nil_r.
  - unfold ButtonSet.run in *. simpl. rewrite IH. clear IH.
    destruct op as [key caption d c|key|key]; simpl; try done.
    rewrite ButtonSet_set_map_, getKeys_set.
    set (ks := StructsMap.getKeys (ButtonSet.map_ bs)).
    set (fo := first_occurrences (ButtonSet.set_keys ops)).
    rewrite filter_cons.
    destruct (decide (key ∈ ks)) as [Hin|Hin].
    + rewrite decide_False by (intros Hn; by apply Hn).
      f_equal. symmetry. apply filter_filter_absorb. intros x Hx ->.
      by apply Hx.
    + rewrite decide_True by done.
      rewrite <- app_assoc. simpl. do 2 f_equal.
      rewrite list_filter_filter. apply list_filter_iff.
      intros x. rewrite elem_of_app, list_elem_of_singleton. tauto.
Qed.

Lemma run_element_ ops bs :
  ButtonSet.element_ (ButtonSet.run ops bs) = ButtonSet.element_ bs.
Proof.
  revert bs. induction ops as [|op ops IH]; intros bs; [done|].
  unfold ButtonSet.run in *. cbn [fold_left]. rewrite IH.
  destruct op; cbn; [apply ButtonSet_set_element_|done|done].
Qed.

End ButtonSetFacts.

(** C10.  [set(key, caption)] with the isDefault and isCancel flags absent
    or false gives [key] the caption, leaves every other entry of the
    mapping as it was, keeps the order of the keys (a new key goes last),
    and leaves the default key, the cancel key, the class and the container
    unchanged; [key] may be the current default or cancel key. *)
Theorem set_without_flags (key : string) (caption : Caption)
    (opt_isDefault opt_isCancel : option bool) (bs : ButtonSet.t) :
  truthy_flag opt_isDefault = false ->
  truthy_flag opt_isCancel = false ->
  let bs' := ButtonSet.set key caption opt_isDefault opt_isCancel bs in
  ButtonSet.getDefault bs' = ButtonSet.getDefault bs
  /\ ButtonSet.getCancel bs' = ButtonSet.getCancel bs
  /\ ButtonSet.get key bs' = Some caption
  /\ (forall key', key' <> key ->
                   ButtonSet.get key' bs' = ButtonSet.get key' bs)
  /\ StructsMap.getKeys (ButtonSet.map_ bs')
     = (if decide (key ∈ StructsMap.getKeys (ButtonSet.map_ bs))
        then StructsMap.getKeys (ButtonSet.map_ bs)
        else StructsMap.getKeys (ButtonSet.map_ bs) ++ [key])
  /\ ButtonSet.class_ bs' = ButtonSet.class_ bs
  /\ ButtonSet.element_ bs' = ButtonSet.element_ bs.
Proof.
  intros Hd Hc bs'. unfold bs', ButtonSet.getDefault, ButtonSet.getCancel,
    ButtonSet.get.
  rewrite ButtonSet_set_defaultButton_, ButtonSet_set_cancelButton_,
    ButtonSet_set_map_, ButtonSet_set_class_, ButtonSet_set_element_, Hd, Hc.
  repeat split.
  - apply get_set_eq.
  - intros key' Hne. by apply get_set_ne.
  - apply getKeys_set.
Qed.

(** Re-setting "ok", the default key of the OK/Cancel set, without flags. *)
Lemma set_without_flags_witness :
  truthy_flag None = false
  /\ truthy_flag (Some false) = false
  /\ ButtonSet.getDefault
       (ButtonSet.set "ok" (CapText "Fine") None (Some false)
          ButtonSet.OK_CANCEL)
     = Some "ok".
Proof.
  split; [reflexivity|]. split; [reflexivity|].
  destruct (set_without_flags "ok" (CapText "Fine") None (Some false)
              ButtonSet.OK_CANCEL eq_refl eq_refl) as (Hdef & _).
  rewrite Hdef. reflexivity.
Defined.

(** C5, as stated, fails: [setDefault] stores a key that the mapping does
    not have. *)
Lemma setDefault_unknown_key :
  ~ ButtonSet.keys_ok
      (ButtonSet.run [ButtonSet.OpSetDefault (Some "ok")] ButtonSet.new).
Proof.
  intros [Hd _]. cbn in Hd. by apply elem_of_nil in Hd.
Qed.

(** C5 (amended).  The default key and the cancel key, when set, are keys
    of the mapping after every call of a sequence in which [setDefault]
    and [setCancel] are given null or a key the mapping has at that
    moment; [set] may be called with any arguments. *)
Theorem keys_ok_run (ops : list ButtonSet.Op) (bs : ButtonSet.t) :
  ButtonSet.keys_ok bs ->
  ops_ok bs ops ->
  ButtonSet.keys_ok (ButtonSet.run ops bs).
Proof.
  revert bs. induction ops as [|op ops IH]; intros bs Hok Hops; [done|].
  destruct Hops as [Hop Hops]. unfold ButtonSet.run. cbn [fold_left].
  apply IH; [by apply keys_ok_apply | exact Hops].
Qed.

Lemma keys_ok_run_witness :
  ButtonSet.keys_ok ButtonSet.new
  /\ ops_ok ButtonSet.new sample_ops
  /\ ButtonSet.keys_ok (ButtonSet.run sample_ops ButtonSet.new).
Proof.
  assert (Hnew : ButtonSet.keys_ok ButtonSet.new) by (split; exact I).
  assert (Hops : ops_ok ButtonSet.new sample_ops).
  { cbn. repeat split. apply elem_of_cons. right. apply elem_of_cons.
    by left. }
  split; [exact Hnew|]. split; [exact Hops|].
  exact (keys_ok_run sample_ops ButtonSet.new Hnew Hops).
Defined.

(** ** Rendering the button set *)

Section RenderFacts.

Lemma render_entry_next_uid bs el p key caption :
  Page.next_uid (ButtonSet.render_entry bs el p (key, caption))
  = S (Page.next_uid p).
Proof. unfold ButtonSet.render_entry. cbn. by case_decide. Qed.

Lemma render_entry_elements bs el p key caption :
  Page.elements (ButtonSet.render_entry bs el p (key, caption))
  = <[el := default [] (Page.elements p !! el)
            ++ [ButtonSet.button bs (Page.next_uid p) key caption]]>
      (Page.elements p).
Proof. unfold ButtonSet.render_entry. cbn. by case_decide. Qed.

Lemma render_entry_activeElement bs el p entry :
  Page.activeElement (ButtonSet.render_entry bs el p entry)
  = Page.activeElement p.
Proof.
  destruct entry as [key caption]. unfold ButtonSet.render_entry. cbn.
  by case_decide.
Qed.

(** The loop appends one button per entry, in the order of the entries. *)
Lemma render_fold bs el m : forall p old,
  Page.elements p !! el = Some old ->
  Page.elements (fold_left (ButtonSet.render_entry bs el) m p) !! el
  = Some (old ++ imap (fun i kc => ButtonSet.button bs (Page.next_uid p + i)
                                     (fst kc) (snd kc)) m).
Proof.
  induction m as [|[key caption] m IH]; intros p old Hold.
  - simpl. by rewrite app_nil_r.
  - cbn [fold_left].
    rewrite (IH _ (old ++ [ButtonSet.button bs (Page.next_uid p)
                             key caption])).
    + rewrite <- app_assoc. cbn [app imap fst snd].
      rewrite Nat.add_0_r, render_entry_next_uid. do 3 f_equal.
      apply imap_ext. intros i [k c] _. cbn. f_equal. lia.
    + rewrite render_entry_elements, Hold. cbn. by rewrite lookup_insert_eq.
Qed.

Lemma render_elements bs el p :
  ButtonSet.element_ bs = Some el ->
  Page.elements (ButtonSet.render bs p) !! el
  = Some (imap (fun i kc => ButtonSet.button bs (Page.next_uid p + i)
                              (fst kc) (snd kc)) (ButtonSet.map_ bs)).
Proof.
  intros Hel. unfold ButtonSet.render. rewrite Hel.
  rewrite (render_fold bs el _ _ []); [done|].
  cbn. by rewrite lookup_insert_eq.
Qed.

Lemma render_names bs m : forall n,
  map Element.name
    (imap (fun i kc => ButtonSet.button bs (n + i) (fst kc) (snd kc)) m)
  = StructsMap.getKeys m.
Proof.
  unfold StructsMap.getKeys.
  induction m as [|[k c] m IH]; intros n; [done|].
  cbn [imap map]. f_equal. rewrite <- (IH (S n)). f_equal.
  apply imap_ext. intros i [k' c'] _. cbn. f_equal. lia.
Qed.

Lemma getCssName_nonempty c m : getCssName c m <> "".
Proof. unfold getCssName. by destruct c. Qed.

Lemma button_marked bs n key caption :
  Element.className (ButtonSet.button bs n key caption)
    = getCssName (ButtonSet.class_ bs) "default"
  <-> Some key = ButtonSet.defaultButton_ bs.
Proof.
  cbn. case_decide as H; [done|]. split; [|done].
  intros Heq. symmetry in Heq. by apply getCssName_nonempty in Heq.
Qed.

Lemma render_fold_activeElement bs el m : forall p,
  Page.activeElement (fold_left (ButtonSet.render_entry bs el) m p)
  = Page.activeElement p.
Proof.
  induction m as [|entry m IH]; intros p; [done|].
  cbn [fold_left]. by rewrite IH, render_entry_activeElement.
Qed.

End RenderFacts.

(** C6.  For a button set that started empty on the container [el] and
    went through the calls [ops], [render] leaves below [el] exactly one
    BUTTON element per key of the mapping, named by the keys in the order
    in which [set] first received them, whatever flags the calls carried;
    a button has the class name of the default button if and only if its
    name is the default key. *)
Theorem render_in_insertion_order (ops : list ButtonSet.Op)
    (bs0 : ButtonSet.t) (el : nat) (p : Page.t) :
  ButtonSet.map_ bs0 = StructsMap.empty ->
  ButtonSet.element_ bs0 = Some el ->
  let bs := ButtonSet.run ops bs0 in
  exists buttons : list Element.t,
    Page.elements (ButtonSet.render bs p) !! el = Some buttons
    /\ map Element.name buttons = first_occurrences (ButtonSet.set_keys ops)
    /\ map Element.name buttons = StructsMap.getKeys (ButtonSet.map_ bs)
    /\ NoDup (map Element.name buttons)
    /\ Forall (fun b =>
         Element.tagName b = "BUTTON"
         /\ (Element.className b = getCssName (ButtonSet.class_ bs) "default"
             <-> Some (Element.name b) = ButtonSet.defaultButton_ bs))
       buttons.
Proof.
  intros Hempty Hel bs.
  assert (Hkeys : StructsMap.getKeys (ButtonSet.map_ bs)
                  = first_occurrences (ButtonSet.set_keys ops)).
  { unfold bs. rewrite getKeys_run, Hempty.
    cbn [StructsMap.getKeys StructsMap.empty map app].
    induction (first_occurrences _) as [|x l IH]; [done|].
    rewrite filter_cons, IH. by rewrite decide_True by apply not_elem_of_nil. }
  eexists. split.
  { apply render_elements. unfold bs. by rewrite run_element_. }
  pose proof (render_names bs (ButtonSet.map_ bs) (Page.next_uid p))
    as Hnames.
  split; [by rewrite Hnames|]. split; [done|]. split.
  { rewrite Hnames, Hkeys. apply first_occurrences_NoDup. }
  apply Forall_forall. intros b Hb.
  apply list_elem_of_lookup in Hb as [i Hb].
  rewrite list_lookup_imap in Hb.
  apply fmap_Some in Hb as [[k c] [_ ->]].
  split; [done|]. apply button_marked.
Qed.

(** The OK/Cancel calls followed by [setDefault('cancel')], rendered into
    node 6 of the sample page. *)
Lemma render_in_insertion_order_witness :
  ButtonSet.map_ (ButtonSet.mk [] "goog-buttonset" None (Some 6) None)
  = StructsMap.empty
  /\ ButtonSet.element_ (ButtonSet.mk [] "goog-buttonset" None (Some 6) None)
     = Some 6
  /\ exists buttons,
       Page.elements
         (ButtonSet.render
            (ButtonSet.run sample_ops
               (ButtonSet.mk [] "goog-buttonset" None (Some 6) None))
            sample_page) !! 6 = Some buttons
       /\ map Element.name buttons = ["ok"; "cancel"].
Proof.
  split; [reflexivity|]. split; [reflexivity|].
  destruct (render_in_insertion_order sample_ops
              (ButtonSet.mk [] "goog-buttonset" None (Some 6) None)
              6 sample_page eq_refl eq_refl)
    as (buttons & Hrender & Hnames & _).
  exists buttons. split; [exact Hrender | exact Hnames].
Defined.

(** ** The monad of methods *)

Section MonadFacts.

Context {A B : Type}.

Lemma bind_Ok_inv (m : M A) (k : A -> M B) d b d' :
  (m ≫= k) d = (Ok b, d') ->
  exists a d1, m d = (Ok a, d1) /\ k a d1 = (Ok b, d').
Proof.
  unfold mbind, M_bind. destruct (m d) as [[a|e|] d1]; [eauto|done|done].
Qed.

Lemma bind_ext_at (m : M A) (k k' : A -> M B) d :
  (forall a d1, m d = (Ok a, d1) -> k a d1 = k' a d1) ->
  (m ≫= k) d = (m ≫= k') d.
Proof.
  intros H. unfold mbind, M_bind.
  destruct (m d) as [[a|e|] d1]; [by apply H|done|done].
Qed.

Lemma invariant_bind I (m : M A) (k : A -> M B) :
  invariant I m -> (forall a, invariant I (k a)) -> invariant I (m ≫= k).
Proof.
  intros Hm Hk d Hd. specialize (Hm d Hd). unfold mbind, M_bind.
  destruct (m d) as [[a|e|] d1]; cbn in *; [by apply Hk|done|done].
Qed.


Lemma invariant_ret I (a : A) : invariant I (mret a : M A).
Proof. by intros d Hd. Qed.

Lemma invariant_gets I (f : Dialog.t -> A) : invariant I (gets f).
Proof. by intros d Hd. Qed.

Lemma invariant_throw I e : invariant I (throw e : M A).
Proof. by intros d Hd. Qed.

Lemma invariant_out_of_fuel I : invariant I (out_of_fuel : M A).
Proof. by intros d Hd. Qed.

Lemma invariant_deref I (o : option A) : invariant I (deref o).
Proof. by destruct o; intros d Hd. Qed.





End MonadFacts.

Section UnitFacts.

Lemma invariant_modify I (g : Dialog.t -> Dialog.t) :
  (forall d, I d -> I (g d)) -> invariant I (modify g).
Proof. intros H d Hd. by apply H. Qed.

Lemma invariant_when I (b : bool) (m : M unit) :
  invariant I m -> invariant I (when b m).
Proof. destruct b; cbn; [done|]. intros _. by intros d Hd. Qed.

Lemma invariant_when_some {A} I (o : option A) (body : A -> M unit) :
  (forall a, invariant I (body a)) -> invariant I (when_some o body).
Proof. destruct o; cbn; [by auto|]. intros _. by intros d Hd. Qed.

Lemma invariant_try_catch I (m : M unit) :
  invariant I m -> invariant I (try_catch m).
Proof.
  intros H d Hd. specialize (H d Hd). unfold try_catch.
  by destruct (m d) as [[a|e|] d1].
Qed.

Lemma invariant_createDom_ I tag cls children :
  (forall d p, I d -> I (set_dom_ p d)) ->
  invariant I (createDom_ tag cls children).
Proof.
  intros H d Hd. unfold createDom_.
  destruct (Page.createDom _ _ _ _). by apply H.
Qed.

Lemma invariant_attachButtons I bs el :
  (forall d p bs', I d -> I (set_buttons_ bs' (set_dom_ p d))) ->
  invariant I (attachButtons bs el).
Proof.
  intros H d Hd. unfold attachButtons, modify. cbv beta.
  destruct (ButtonSet.attachToElement el bs (dom_ d)). by apply H.
Qed.






End UnitFacts.

(** One step through a computation built from the combinators: the rule
    of its head, or the definition of the method at its head. *)
Ltac head_of m :=
  lazymatch m with
  | ?f _ => head_of f
  | _ => m
  end.

Ltac inv_step :=
  lazymatch goal with
  | |- invariant _ (_ ≫= _) => apply invariant_bind; [|intros ?]
  | |- invariant _ (mret _) => apply invariant_ret
  | |- invariant _ (gets _) => apply invariant_gets
  | |- invariant _ (throw _) => apply invariant_throw
  | |- invariant _ out_of_fuel => apply invariant_out_of_fuel
  | |- invariant _ (deref _) => apply invariant_deref
  | |- invariant _ (modify _) =>
      apply invariant_modify; intros ? ?; cbn; repeat case_decide; cbn;
      try done
  | |- invariant _ (when _ _) => apply invariant_when
  | |- invariant _ (when_some _ _) => apply invariant_when_some; intros ?
  | |- invariant _ (try_catch _) => apply invariant_try_catch
  | |- invariant _ (if ?b then _ else _) => destruct b
  | |- invariant _ (match ?o with _ => _ end) => destruct o
  | |- invariant _ ?m => let h := head_of m in unfold h
  end.

(** For a property of fields other than the page and the button set. *)
Ltac field_step :=
  lazymatch goal with
  | |- invariant _ (createDom_ _ _ _) =>
      apply invariant_createDom_; by intros ? ? ?
  | |- invariant _ (attachButtons _ _) =>
      apply invariant_attachButtons; by intros ? ? ? ?
  | _ => inv_step
  end.


(** Evaluates a method on a dialog given by its fields. *)
Ltac run :=
  cbv [setVisible_body mbind M_bind mret M_ret gets modify throw deref when
       when_some emit isInDocument getElement getButtonSet isVisible
       setVisible_listeners setVisible_showElements setVisible_finish
       showElement unlisten dispatchEvent dispose_hidden_dialog dispose_body
       disposeInternal_body exitDocument_body
       set_disposed_ set_listeners set_dom_ set_element_ set_inDocument_
       set_handler_ set_buttons_ set_dragger_ set_visible_
       set_disposeOnHide_ set_bgEl_ set_bgIframeEl_ set_titleEl_
       set_titleTextEl_ set_titleCloseEl_ set_contentEl_ set_buttonEl_
       set_tabCatcherEl_ set_focusHandler_
       disposed_ listeners dom_ element_ inDocument_ handler_ wasDecorated_
       class_ useIframeMask_ modal_ draggable_ backgroundElementOpacity_
       title_ content_ buttons_ dragger_ visible_ disposeOnHide_ bgEl_
       bgIframeEl_ titleEl_ titleTextEl_ titleCloseEl_ contentEl_ buttonEl_
       tabCatcherEl_ focusHandler_
       Page.emit Page.userAgent Page.layout Page.next_uid Page.elements
       Page.activeElement Page.trace
       setVisible_focus focusDefaultButton focusButton focusTemp try_catch
       createDom_ Page.createDom Page.fresh Page.focus
       Page.set_activeElement ButtonSet.getDefault ButtonSet.defaultButton_
       GECKO WEBKIT OPERA truthy defaultButtonElement
       Page.getElementsByTagName after_emit after_dispatch
       eqb negb andb orb src_of].

(** Evaluates the key handler down to the branch taken. *)
Ltac key_run :=
  cbv [onKeyDown_ onKeyDown_ESC onKeyDown_ENTER getButtonSet getElement
       mbind M_bind mret M_ret gets deref escape enter keyCode target
       shiftKey];
  cbn [Z.eqb Pos.eqb KeyCodes.ESC KeyCodes.ENTER KeyCodes.TAB].

(** ** setVisible: the recursion budget *)

Section Fuel.

Lemma setVisible_unfold fuel visible :
  setVisible fuel visible =
  setVisible_body
    (dispose_body (disposeInternal_body (exitDocument_body
       match fuel with
       | O => fun _ => out_of_fuel
       | S fuel' => setVisible fuel'
       end)))
    visible.
Proof. by destruct fuel. Qed.

(** Hidden, the dialog is disposed of without a call of [setVisible]. *)
Lemma dispose_hidden sv sv' d :
  visible_ d = false ->
  dispose_body (disposeInternal_body (exitDocument_body sv)) d
  = dispose_body (disposeInternal_body (exitDocument_body sv')) d.
Proof.
  intros Hv. unfold dispose_body, disposeInternal_body, exitDocument_body.
  cbv [mbind M_bind gets modify when isVisible].
  destruct (disposed_ d); [done|]. cbn. destruct (inDocument_ d); [|done].
  cbn. by rewrite Hv.
Qed.


Lemma dispose_hidden_dialog_visible_ x :
  invariant (fun d => visible_ d = x) dispose_hidden_dialog.
Proof. repeat field_step. Qed.

Lemma setVisible_finish_hidden D D' visible d :
  visible_ d = visible ->
  (forall d', visible_ d' = false -> D d' = D' d') ->
  setVisible_finish D visible d = setVisible_finish D' visible d.
Proof.
  intros Hv HD. destruct visible; [done|]. unfold setVisible_finish. cbn.
  cbv [mbind M_bind gets modify when unlisten dispatchEvent emit mret M_ret].
  cbn. destruct (disposeOnHide_ d); [|done]. by apply HD.
Qed.

(** [setVisible] calls [dispose] only once [visible_] is false. *)
Lemma setVisible_body_hidden D D' visible d :
  (forall d', visible_ d' = false -> D d' = D' d') ->
  setVisible_body D visible d = setVisible_body D' visible d.
Proof.
  intros HD. unfold setVisible_body.
  apply bind_ext_at. intros v d1 _. destruct (eqb visible v); [done|].
  do 5 (apply bind_ext_at; intros ? ? ?).
  apply bind_ext_at. intros [] dm Hdm. injection Hdm as <-.
  by apply setVisible_finish_hidden.
Qed.

(** The budget does not matter: no call of [setVisible] is nested in
    another. *)
Lemma setVisible_fuel fuel visible d :
  setVisible fuel visible d = setVisible 0 visible d.
Proof.
  rewrite !setVisible_unfold. apply setVisible_body_hidden.
  intros d' Hd'. by apply dispose_hidden.
Qed.

Lemma setVisible_hidden_dispose fuel visible d :
  setVisible fuel visible d = setVisible_body dispose_hidden_dialog visible d.
Proof.
  rewrite setVisible_unfold. apply setVisible_body_hidden.
  intros d' Hd'. by apply dispose_hidden.
Qed.


Lemma setVisible_finish_visible_ x visible :
  invariant (fun d => visible_ d = x)
    (setVisible_finish dispose_hidden_dialog visible).
Proof.
  unfold setVisible_finish.
  repeat lazymatch goal with
         | |- invariant _ dispose_hidden_dialog =>
             apply dispose_hidden_dialog_visible_
         | _ => field_step
         end.
Qed.

(** When [setVisible(visible)] returns, [visible_] is [visible]. *)
Lemma setVisible_visible_ fuel visible d d' :
  setVisible fuel visible d = (Ok tt, d') -> visible_ d' = visible.
Proof.
  rewrite setVisible_hidden_dispose. unfold setVisible_body.
  intros (v & d1 & Hv & H)%bind_Ok_inv. injection Hv as <- <-.
  destruct (eqb_spec visible (visible_ d)) as [Heq|_].
  { by injection H as <-. }
  do 4 apply bind_Ok_inv in H as (? & ? & _ & H).
  apply bind_Ok_inv in H as (? & df & _ & H).
  apply bind_Ok_inv in H as ([] & dm & Hm & H). injection Hm as <-.
  pose proof (setVisible_finish_visible_ visible visible
                (set_visible_ visible df)) as Hinv.
  rewrite H in Hinv. by apply Hinv.
Qed.

End Fuel.

(** C9.  [setVisible(visible)] on a dialog whose [visible_] is already
    [visible] returns with the dialog unchanged: no field, no listener
    registration and no observable call or dispatched event differs.
    Hence a second [setVisible(visible)] after one that returned changes
    nothing. *)
Theorem setVisible_same_noop (fuel : nat) (visible : bool) (d : Dialog.t) :
  (visible_ d = visible -> setVisible fuel visible d = (Ok tt, d))
  /\ (forall d', setVisible fuel visible d = (Ok tt, d') ->
                 setVisible fuel visible d' = (Ok tt, d')).
Proof.
  assert (Hsame : forall d0, visible_ d0 = visible ->
                             setVisible fuel visible d0 = (Ok tt, d0)).
  { intros d0 <-. rewrite setVisible_unfold. unfold setVisible_body.
    cbv [mbind M_bind mret M_ret gets]. by rewrite Bool.eqb_reflx. }
  split; [apply Hsame|].
  intros d' Hd'. eapply Hsame, setVisible_visible_, Hd'.
Qed.

(** Showing the shown sample dialog again. *)
Lemma setVisible_same_noop_witness :
  visible_ sample_shown = true
  /\ setVisible 0 true sample_shown = (Ok tt, sample_shown).
Proof.
  assert (Hv : visible_ sample_shown = true) by (vm_compute; reflexivity).
  split; [exact Hv|].
  exact (proj1 (setVisible_same_noop 0 true sample_shown) Hv).
Defined.

(** ** Hiding *)

Section Hide.

Lemma dispatched_app tr tr' :
  dispatched (tr ++ tr') = dispatched tr ++ dispatched tr'.
Proof. apply omap_app. Qed.

Lemma filter_ne_not_elem (l : Listener) (ls : list Listener) :
  l ∉ filter (fun l' => l' <> l) ls.
Proof. intros [Hne _]%list_elem_of_filter. by apply Hne. Qed.

Lemma filter_not_elem (P : Listener -> Prop) `{!forall x, Decision (P x)}
    (l : Listener) (ls : list Listener) :
  l ∉ ls -> l ∉ filter P ls.
Proof. intros Hl [_ Hin]%list_elem_of_filter. by apply Hl. Qed.

Ltac unlistened :=
  solve [ apply not_elem_of_nil
        | repeat first [apply filter_ne_not_elem | apply filter_not_elem] ].

(** Hiding a shown dialog. *)
Lemma setVisible_hide fuel d el :
  Visible d ->
  element_ d = Some el ->
  exists d',
    setVisible fuel false d = (Ok tt, d')
    /\ visible_ d' = false
    /\ (keydownListener el ∉ handler_ d')
    /\ (resizeListener ∉ handler_ d')
    /\ (clickListener (buttonEl_ d) ∉ handler_ d')
    /\ dispatched (Page.trace (dom_ d'))
       = dispatched (Page.trace (dom_ d)) ++ [AFTER_HIDE]
    /\ disposed_ d' = disposeOnHide_ d
    /\ forall ls,
         setVisible fuel false (set_listeners ls d)
         = (Ok tt, set_listeners (if disposeOnHide_ d then [] else ls) d').
Proof.
  intros (Hv & Hin & _ & Hdis) Hel.
  setoid_rewrite setVisible_hidden_dispose.
  destruct d. cbn in Hv, Hin, Hel, Hdis. subst.
  destruct bgIframeEl_0, bgEl_0, disposeOnHide_0, dragger_0, wasDecorated_0,
    focusHandler_0;
    run; (eexists; split; [reflexivity|]).
  all: split; [done|].
  all: do 3 (split; [unlistened|]).
  all: split;
    [cbn; rewrite ?dispatched_app; cbn;
     by rewrite ?app_nil_r, <- ?app_assoc|].
  all: split; done.
Qed.

Lemma Visible_after_emit e d : Visible d -> Visible (after_emit e d).
Proof. by intros (? & ? & ? & ?). Qed.

Lemma dispatched_after_emit e d :
  dispatched (Page.trace (dom_ (after_emit e d)))
  = dispatched (Page.trace (dom_ d)) ++ dispatched [e].
Proof. cbn. by rewrite dispatched_app. Qed.

(** [if (close) { this.setVisible(false); }] on a shown dialog. *)
Lemma hide_if_close fuel (close : bool) d :
  Visible d ->
  exists d',
    when close (setVisible fuel false) d = (Ok tt, d')
    /\ dispatched (Page.trace (dom_ d'))
       = dispatched (Page.trace (dom_ d))
         ++ (if close then [AFTER_HIDE] else [])
    /\ visible_ d' = negb close
    /\ (close = false -> d' = d).
Proof.
  intros HV. pose proof HV as (Hv & _ & [el Hel] & _).
  destruct close; cbn.
  - destruct (setVisible_hide fuel d el HV Hel)
      as (d' & Hrun & Hvis & _ & _ & _ & Htr & _).
    by exists d'.
  - exists d. by rewrite app_nil_r.
Qed.

(** A dispatched SELECT event, followed by the hide it allows: the tail of
    [onButtonClick_] and of [onTitleCloseClick_]. *)
Lemma select_then_hide fuel d ev :
  Visible d ->
  exists d',
    (close ← dispatchEvent ev; when close (setVisible fuel false)) d
    = (Ok tt, d')
    /\ dispatched (Page.trace (dom_ d'))
       = dispatched (Page.trace (dom_ d))
         ++ ev :: (if proceeds ev d then [AFTER_HIDE] else [])
    /\ visible_ d' = negb (proceeds ev d)
    /\ (proceeds ev d = false -> d' = after_dispatch ev d).
Proof.
  intros HV.
  destruct (hide_if_close fuel (proceeds ev d) (after_dispatch ev d))
    as (d' & Hrun & Htr & Hvis & Hsame).
  { by apply Visible_after_emit. }
  exists d'. split; [|split; [|done]].
  - rewrite <- Hrun. reflexivity.
  - rewrite Htr. unfold after_dispatch. rewrite dispatched_after_emit.
    cbn. by rewrite <- app_assoc.
Qed.

(** The same inside [onKeyDown_], which stops the key event in between. *)
Lemma select_by_key fuel d ev :
  Visible d ->
  exists d',
    (close ← dispatchEvent ev;
     when (close || true) (emit StopPropagation;; emit PreventDefault);;
     when close (setVisible fuel false)) d
    = (Ok tt, d')
    /\ dispatched (Page.trace (dom_ d'))
       = dispatched (Page.trace (dom_ d))
         ++ ev :: (if proceeds ev d then [AFTER_HIDE] else [])
    /\ visible_ d' = negb (proceeds ev d).
Proof.
  intros HV.
  set (d2 := after_emit PreventDefault
               (after_emit StopPropagation (after_dispatch ev d))).
  destruct (hide_if_close fuel (proceeds ev d) d2)
    as (d' & Hrun & Htr & Hvis & _).
  { by do 3 apply Visible_after_emit. }
  exists d'. split; [|split; [|done]].
  - rewrite <- Hrun.
    cbv [dispatchEvent emit mbind M_bind mret M_ret gets modify when].
    fold (proceeds ev d). by rewrite orb_true_r.
  - rewrite Htr. unfold d2, after_dispatch. rewrite !dispatched_after_emit.
    cbn. by rewrite !app_nil_r, <- app_assoc.
Qed.

Lemma sample_shown_Visible : Visible sample_shown.
Proof. repeat split; try (vm_compute; reflexivity). by exists 8. Qed.

Lemma sample_shown_buttons_ : buttons_ sample_shown = Some sample_buttons.
Proof. vm_compute. reflexivity. Qed.

End Hide.

(** C4.  [setVisible(false)] on a shown dialog returns with the dialog
    hidden; the keydown listener on the dialog element and the resize
    listener on the window, which [setVisible(true)] attaches, are no
    longer registered; exactly one event, AFTER_HIDE, has been dispatched;
    and the dialog has been disposed of if and only if [disposeOnHide_] is
    set.  The listeners on the dialog have no say in any of this: with
    other listeners the outcome is the same. *)
Theorem hide_detaches_notifies_disposes (fuel : nat) (d : Dialog.t)
    (el : nat) :
  Visible d ->
  element_ d = Some el ->
  exists d',
    setVisible fuel false d = (Ok tt, d')
    /\ visible_ d' = false
    /\ (keydownListener el ∉ handler_ d')
    /\ (resizeListener ∉ handler_ d')
    /\ dispatched (Page.trace (dom_ d'))
       = dispatched (Page.trace (dom_ d)) ++ [AFTER_HIDE]
    /\ disposed_ d' = disposeOnHide_ d
    /\ forall ls,
         setVisible fuel false (set_listeners ls d)
         = (Ok tt, set_listeners (if disposeOnHide_ d then [] else ls) d').
Proof.
  intros HV Hel.
  destruct (setVisible_hide fuel d el HV Hel)
    as (d' & Hrun & Hvis & Hkey & Hres & _ & Htr & Hdis & Hls).
  by exists d'.
Qed.

(** Hiding the shown sample dialog. *)
Lemma hide_detaches_notifies_disposes_witness :
  Visible sample_shown
  /\ element_ sample_shown = Some 8
  /\ (keydownListener 8 ∈ handler_ sample_shown)
  /\ exists d',
       setVisible 0 false sample_shown = (Ok tt, d')
       /\ visible_ d' = false
       /\ (keydownListener 8 ∉ handler_ d').
Proof.
  split; [exact sample_shown_Visible|]. split; [reflexivity|].
  split; [apply (bool_decide_unpack _); vm_compute; exact I|].
  destruct (hide_detaches_notifies_disposes 0 sample_shown 8
              sample_shown_Visible eq_refl)
    as (d' & Hrun & Hvis & Hkey & _).
  exists d'. split; [exact Hrun|]. split; [exact Hvis | exact Hkey].
Defined.

(** C1.  On a shown dialog with a button set, a click that
    [findParentButton_] resolves to an enabled button dispatches exactly
    one SELECT event, with the button's name as key and the caption the
    button set has for it; the dialog is hidden afterwards (with the
    AFTER_HIDE event) if and only if no listener cancels the event, and
    if one does, nothing but the dispatch has happened to the dialog. *)
Theorem click_dispatches_select (fuel : nat) (d : Dialog.t)
    (e_target : list Element.t) (button : Element.t) (bs : ButtonSet.t) :
  Visible d ->
  buttons_ d = Some bs ->
  findParentButton_loop (buttonEl_ d) e_target = Some button ->
  Element.disabled button = false ->
  let ev := SELECT (Element.name button)
                   (ButtonSet.get (Element.name button) bs) in
  exists d',
    onButtonClick_ fuel e_target d = (Ok tt, d')
    /\ dispatched (Page.trace (dom_ d'))
       = dispatched (Page.trace (dom_ d))
         ++ ev :: (if proceeds ev d then [AFTER_HIDE] else [])
    /\ visible_ d' = negb (proceeds ev d)
    /\ (proceeds ev d = false -> d' = after_dispatch ev d).
Proof.
  intros HV Hbs Hfind Hen ev.
  destruct (select_then_hide fuel d ev HV) as (d' & Hrun & H).
  exists d'. split; [|done]. rewrite <- Hrun.
  unfold onButtonClick_, findParentButton_, getButtonSet.
  cbv [mbind M_bind mret M_ret gets when when_some deref].
  rewrite Hfind. cbn. rewrite Hen. cbn. rewrite Hbs. reflexivity.
Qed.

(** A click on the caption of the OK button of the shown sample dialog. *)
Lemma click_dispatches_select_witness :
  Visible sample_shown
  /\ buttons_ sample_shown = Some sample_buttons
  /\ findParentButton_loop (buttonEl_ sample_shown) [sample_ok_button]
     = Some sample_ok_button
  /\ Element.disabled sample_ok_button = false
  /\ exists d',
       onButtonClick_ 0 [sample_ok_button] sample_shown = (Ok tt, d')
       /\ visible_ d' = false.
Proof.
  split; [exact sample_shown_Visible|].
  split; [exact sample_shown_buttons_|].
  split; [reflexivity|]. split; [reflexivity|].
  destruct (click_dispatches_select 0 sample_shown [sample_ok_button]
              sample_ok_button sample_buttons sample_shown_Visible
              sample_shown_buttons_ eq_refl eq_refl)
    as (d' & Hrun & _ & Hvis & _).
  exists d'. split; [exact Hrun | exact Hvis].
Defined.

(** ** Keys *)

(** C2, as stated, fails: with no cancel key, Escape on an enabled SELECT
    leaves the dialog as it is, shown. *)
Lemma escape_on_select_keeps_dialog :
  Visible sample_ok_shown
  /\ cancelKey sample_ok_shown = None
  /\ onKeyDown_ 0 (escape false sample_select) sample_ok_shown
     = (Ok tt, sample_ok_shown).
Proof.
  split; [|split; vm_compute; reflexivity].
  repeat split; try (vm_compute; reflexivity). by exists 8.
Qed.

(** C2 (amended).  On a shown dialog, a keydown of Escape whose target is
    not an enabled SELECT dispatches one SELECT event with the cancel key
    and its caption, and then hides the dialog if and only if no listener
    cancels the event, when the button set has a non-empty cancel key;
    when there is no button set or no such key, it hides the dialog and
    dispatches no SELECT event.  On an enabled SELECT, Escape does nothing
    at all, with or without a cancel key. *)
Theorem escape_key (fuel : nat) (d : Dialog.t) (shiftKey : bool)
    (target : Element.t) :
  Visible d ->
  (onSelect target = false ->
   forall bs k,
     buttons_ d = Some bs -> ButtonSet.getCancel bs = Some k -> k <> "" ->
     let ev := SELECT k (ButtonSet.get k bs) in
     exists d',
       onKeyDown_ fuel (escape shiftKey target) d = (Ok tt, d')
       /\ dispatched (Page.trace (dom_ d'))
          = dispatched (Page.trace (dom_ d))
            ++ ev :: (if proceeds ev d then [AFTER_HIDE] else [])
       /\ visible_ d' = negb (proceeds ev d))
  /\ (onSelect target = false ->
      cancelKey d = None ->
      exists d',
        onKeyDown_ fuel (escape shiftKey target) d = (Ok tt, d')
        /\ dispatched (Page.trace (dom_ d'))
           = dispatched (Page.trace (dom_ d)) ++ [AFTER_HIDE]
        /\ visible_ d' = false)
  /\ (onSelect target = true ->
      onKeyDown_ fuel (escape shiftKey target) d = (Ok tt, d)).
Proof.
  intros HV. split; [|split].
  - intros Hsel bs k Hbs Hk Hne ev.
    destruct (select_by_key fuel d ev HV) as (d' & Hrun & H).
    exists d'. split; [|done]. rewrite <- Hrun. key_run.
    rewrite Hbs, Hk. fold (onSelect target). rewrite Hsel.
    unfold truthy. apply String.eqb_neq in Hne. by rewrite Hne.
  - intros Hsel Hcancel.
    set (d2 := after_emit PreventDefault (after_emit StopPropagation d)).
    destruct (hide_if_close fuel true d2) as (d' & Hrun & Htr & Hvis & _).
    { by do 2 apply Visible_after_emit. }
    exists d'. split; [|split; [|done]].
    + rewrite <- Hrun. key_run. unfold cancelKey in Hcancel.
      fold (onSelect target). rewrite Hsel.
      destruct (buttons_ d) as [bs|]; [|done].
      destruct (ButtonSet.getCancel bs) as [k|]; [|done].
      by destruct (truthy (Some k)).
    + rewrite Htr. unfold d2. rewrite !dispatched_after_emit. cbn.
      by rewrite !app_nil_r.
  - intros Hsel. key_run. fold (onSelect target). rewrite Hsel.
    destruct (buttons_ d) as [bs|]; [|done].
    destruct (ButtonSet.getCancel bs) as [k|]; [|done].
    by rewrite andb_false_r.
Qed.


(** Escape on the content of the shown sample dialog, which has the
    cancel key "cancel". *)
Lemma escape_key_witness :
  Visible sample_shown
  /\ onSelect sample_content = false
  /\ buttons_ sample_shown = Some sample_buttons
  /\ ButtonSet.getCancel sample_buttons = Some "cancel"
  /\ exists d',
       onKeyDown_ 0 (escape false sample_content) sample_shown = (Ok tt, d')
       /\ visible_ d' = false.
Proof.
  split; [exact sample_shown_Visible|]. split; [reflexivity|].
  split; [exact sample_shown_buttons_|]. split; [reflexivity|].
  destruct (escape_key 0 sample_shown false sample_content
              sample_shown_Visible) as (Hcancel & _ & _).
  destruct (Hcancel eq_refl sample_buttons "cancel" sample_shown_buttons_
              eq_refl ltac:(discriminate))
    as (d' & Hrun & _ & Hvis).
  exists d'. split; [exact Hrun | exact Hvis].
Defined.

(** C3, as stated, fails: Enter on a focused button that has no name
    dispatches nothing. *)
Lemma enter_on_unnamed_button_is_silent :
  Visible sample_shown
  /\ Element.tagName sample_unnamed_button = "BUTTON"
  /\ onKeyDown_ 0 (enter false sample_unnamed_button) sample_shown
     = (Ok tt, sample_shown).
Proof.
  split; [exact sample_shown_Visible|]. split; vm_compute; reflexivity.
Qed.

(** C3 (amended).  On a shown dialog, a keydown of Enter
    - on a button with a non-empty name, the dialog having a button set,
      dispatches one SELECT event with that name as key and the string of
      the caption registered for it, and then hides the dialog if and only
      if no listener cancels the event;
    - on another element, dispatches a SELECT event only for the default
      key, and only when the button container has a button with that name
      or id, that button is not disabled, and the target is not an enabled
      TEXTAREA or SELECT; under these conditions, the key being non-empty,
      it does dispatch it;
    - on another element, the default button being disabled, dispatches
      nothing and leaves the dialog as it is. *)
Theorem enter_key (fuel : nat) (d : Dialog.t) (shiftKey : bool)
    (target : Element.t) :
  Visible d ->
  (Element.tagName target = "BUTTON" ->
   Element.name target <> "" ->
   forall bs,
     buttons_ d = Some bs ->
     let ev := enterEvent (Element.name target) bs in
     exists d',
       onKeyDown_ fuel (enter shiftKey target) d = (Ok tt, d')
       /\ dispatched (Page.trace (dom_ d'))
          = dispatched (Page.trace (dom_ d))
            ++ ev :: (if proceeds ev d then [AFTER_HIDE] else [])
       /\ visible_ d' = negb (proceeds ev d))
  /\ (Element.tagName target <> "BUTTON" ->
      forall r d',
        onKeyDown_ fuel (enter shiftKey target) d = (r, d') ->
        exists evs,
          dispatched (Page.trace (dom_ d'))
          = dispatched (Page.trace (dom_ d)) ++ evs
          /\ forall key caption,
               SELECT key caption ∈ evs ->
               exists bs b,
                 buttons_ d = Some bs
                 /\ ButtonSet.getDefault bs = Some key
                 /\ ButtonSet.getButton key bs (dom_ d) = Some (Some b)
                 /\ Element.disabled b = false
                 /\ onTextareaOrSelect target = false
                 /\ SELECT key caption = enterEvent key bs)
  /\ (Element.tagName target <> "BUTTON" ->
      forall bs key b,
        buttons_ d = Some bs ->
        ButtonSet.getDefault bs = Some key ->
        ButtonSet.getButton key bs (dom_ d) = Some (Some b) ->
        Element.disabled b = true ->
        onKeyDown_ fuel (enter shiftKey target) d = (Ok tt, d))
  /\ (Element.tagName target <> "BUTTON" ->
      forall bs key b,
        buttons_ d = Some bs ->
        ButtonSet.getDefault bs = Some key ->
        key <> "" ->
        ButtonSet.getButton key bs (dom_ d) = Some (Some b) ->
        Element.disabled b = false ->
        onTextareaOrSelect target = false ->
        let ev := enterEvent key bs in
        exists d',
          onKeyDown_ fuel (enter shiftKey target) d = (Ok tt, d')
          /\ dispatched (Page.trace (dom_ d'))
             = dispatched (Page.trace (dom_ d))
               ++ ev :: (if proceeds ev d then [AFTER_HIDE] else [])
          /\ visible_ d' = negb (proceeds ev d)).
Proof.
  intros HV.
  assert (Hfire : forall bs key,
    buttons_ d = Some bs -> key <> "" ->
    (Element.tagName target = "BUTTON" /\ key = Element.name target
     \/ Element.tagName target <> "BUTTON"
        /\ ButtonSet.getDefault bs = Some key
        /\ exists b, ButtonSet.getButton key bs (dom_ d) = Some (Some b)
                     /\ Element.disabled b = false
                     /\ onTextareaOrSelect target = false) ->
    let ev := enterEvent key bs in
    exists d',
      onKeyDown_ fuel (enter shiftKey target) d = (Ok tt, d')
      /\ dispatched (Page.trace (dom_ d'))
         = dispatched (Page.trace (dom_ d))
           ++ ev :: (if proceeds ev d then [AFTER_HIDE] else [])
      /\ visible_ d' = negb (proceeds ev d)).
  { intros bs key Hbs Hne Hcase ev.
    destruct (select_by_key fuel d ev HV) as (d' & Hrun & H).
    exists d'. split; [|done]. rewrite <- Hrun. key_run. rewrite Hbs.
    apply String.eqb_neq in Hne.
    destruct Hcase as [[Htag ->]|(Htag & Hk & b & Hb & Hen & Hsp)].
    - rewrite Htag. cbn. unfold truthy. by rewrite Hne.
    - apply String.eqb_neq in Htag. rewrite Htag, Hk. unfold truthy.
      rewrite Hne. cbn. rewrite Hb. cbn. rewrite Hen.
      fold (onTextareaOrSelect target). rewrite Hsp. cbn.
      by rewrite Hne. }
  split; [|split; [|split]].
  - intros Htag Hne bs Hbs. apply Hfire; auto.
  - intros Htag r d' Hrun.
    assert (Hquiet : (r, d') = (Ok tt, d) \/ (r, d') = (Throw TypeError, d) ->
      exists evs,
        dispatched (Page.trace (dom_ d'))
        = dispatched (Page.trace (dom_ d)) ++ evs
        /\ forall key caption, SELECT key caption ∈ evs ->
             exists bs b,
               buttons_ d = Some bs
               /\ ButtonSet.getDefault bs = Some key
               /\ ButtonSet.getButton key bs (dom_ d) = Some (Some b)
               /\ Element.disabled b = false
               /\ onTextareaOrSelect target = false
               /\ SELECT key caption = enterEvent key bs).
    { intros Heq. exists []. split.
      - rewrite app_nil_r. by destruct Heq as [[= _ ->]|[= _ ->]].
      - by intros key caption ?%elem_of_nil. }
    destruct (buttons_ d) as [bs|] eqn:Hbs.
    2:{ apply Hquiet. left. rewrite <- Hrun. key_run. rewrite Hbs.
        apply String.eqb_neq in Htag. by rewrite Htag. }
    destruct (ButtonSet.getDefault bs) as [key|] eqn:Hk.
    2:{ apply Hquiet. left. rewrite <- Hrun. key_run. rewrite Hbs, Hk.
        apply String.eqb_neq in Htag. by rewrite Htag. }
    destruct (String.eqb_spec key "") as [->|Hne].
    { apply Hquiet. left. rewrite <- Hrun. key_run. rewrite Hbs, Hk.
      apply String.eqb_neq in Htag. by rewrite Htag. }
    pose proof Hne as Hne'. apply String.eqb_neq in Hne'.
    pose proof Htag as Htag'. apply String.eqb_neq in Htag'.
    destruct (ButtonSet.getButton key bs (dom_ d)) as [[b|]|] eqn:Hb.
    3:{ apply Hquiet. right. rewrite <- Hrun. key_run.
        rewrite Hbs, Hk, Htag'. unfold truthy. rewrite Hne'. cbn.
        by rewrite Hb. }
    2:{ apply Hquiet. left. rewrite <- Hrun. key_run.
        rewrite Hbs, Hk, Htag'. unfold truthy. rewrite Hne'. cbn.
        by rewrite Hb. }
    destruct (Element.disabled b) eqn:Hen.
    { apply Hquiet. left. rewrite <- Hrun. key_run.
      rewrite Hbs, Hk, Htag'. unfold truthy. rewrite Hne'. cbn.
      rewrite Hb. cbn. by rewrite Hen. }
    destruct (onTextareaOrSelect target) eqn:Hsp.
    { apply Hquiet. left. rewrite <- Hrun. key_run.
      rewrite Hbs, Hk, Htag'. unfold truthy. rewrite Hne'. cbn.
      rewrite Hb. cbn. rewrite Hen. fold (onTextareaOrSelect target).
      by rewrite Hsp. }
    destruct (Hfire bs key eq_refl Hne) as (d'' & Hrun' & Htr & _).
    { right. eauto 10. }
    rewrite Hrun in Hrun'. injection Hrun' as -> ->.
    eexists. split; [exact Htr|].
    intros key' caption Hin. exists bs, b.
    apply elem_of_cons in Hin as [Hin|Hin].
    + unfold enterEvent in Hin. injection Hin as -> ->. done.
    + destruct (proceeds _ d); [|by apply elem_of_nil in Hin].
      apply list_elem_of_singleton in Hin. done.
  - intros Htag bs key b Hbs Hk Hb Hdis. key_run.
    apply String.eqb_neq in Htag. rewrite Hbs, Hk, Htag.
    destruct (truthy (Some key)); [|done].
    cbn. rewrite Hb. cbn. by rewrite Hdis.
  - intros Htag bs key b Hbs Hk Hne Hb Hen Hsp. apply Hfire; eauto 10.
Qed.


(** Enter on the OK button of the shown sample dialog. *)
Lemma enter_key_witness :
  Visible sample_shown
  /\ Element.tagName sample_ok_button = "BUTTON"
  /\ Element.name sample_ok_button <> ""
  /\ buttons_ sample_shown = Some sample_buttons
  /\ exists d',
       onKeyDown_ 0 (enter false sample_ok_button) sample_shown = (Ok tt, d')
       /\ visible_ d' = false.
Proof.
  split; [exact sample_shown_Visible|]. split; [reflexivity|].
  split; [discriminate|]. split; [exact sample_shown_buttons_|].
  destruct (enter_key 0 sample_shown false sample_ok_button
              sample_shown_Visible) as (Hbutton & _ & _ & _).
  destruct (Hbutton eq_refl ltac:(discriminate) sample_buttons
              sample_shown_buttons_)
    as (d' & Hrun & _ & Hvis).
  exists d'. split; [exact Hrun | exact Hvis].
Defined.

(** Enter on the content of the sample dialog once its default button OK
    has been disabled: nothing is dispatched, the dialog stays shown. *)
Example enter_with_disabled_default :
  onKeyDown_ 0 (enter false sample_content) sample_shown_disabled
  = (Ok tt, sample_shown_disabled).
Proof. vm_compute. reflexivity. Qed.

(** Enter on the content of the sample dialog, its default button enabled:
    SELECT for "ok", then AFTER_HIDE. *)
Example enter_with_enabled_default :
  dispatched
    (Page.trace
       (dom_ (snd (onKeyDown_ 0 (enter false sample_content) sample_shown))))
  = [SELECT "ok" (Some (CapText "OK")); AFTER_HIDE].
Proof. vm_compute. reflexivity. Qed.

(** ** Rendering errors *)

(** C8.  [render] on a dialog that is in the document throws
    [Error(ALREADY_RENDERED)], and [renderBefore] throws
    [Error(NOT_SUPPORTED)] whatever the sibling; in both cases the dialog
    is as it was before the call. *)
Theorem render_errors (d : Dialog.t) :
  (inDocument_ d = true ->
   forall opt_parent,
     render opt_parent d = (Throw (Error ALREADY_RENDERED), d))
  /\ (forall sibling,
        renderBefore sibling d = (Throw (Error NOT_SUPPORTED), d)).
Proof.
  split; [|done]. intros Hin opt_parent.
  unfold render, isInDocument. cbv [mbind M_bind gets]. by rewrite Hin.
Qed.


(** Rendering the shown sample dialog once more. *)
Lemma render_errors_witness :
  inDocument_ sample_shown = true
  /\ render None sample_shown
     = (Throw (Error ALREADY_RENDERED), sample_shown).
Proof.
  split; [reflexivity|].
  exact (proj1 (render_errors sample_shown) eq_refl None).
Defined.

(** ** Showing *)

Section Show.

Lemma attachToElement_activeElement el bs p :
  Page.activeElement (snd (ButtonSet.attachToElement el bs p))
  = Page.activeElement p.
Proof.
  unfold ButtonSet.attachToElement, ButtonSet.render. cbn.
  by rewrite render_fold_activeElement.
Qed.

Lemma attachButtons_activeElement x bs el :
  invariant (fun d => Page.activeElement (dom_ d) = x) (attachButtons bs el).
Proof.
  intros d Hd. unfold attachButtons, modify. cbv beta.
  pose proof (attachToElement_activeElement el bs (dom_ d)) as H.
  destruct (ButtonSet.attachToElement el bs (dom_ d)) as [bs' p].
  cbn in *. congruence.
Qed.

Lemma createDom__activeElement x tag cls children :
  invariant (fun d => Page.activeElement (dom_ d) = x)
            (createDom_ tag cls children).
Proof. by intros d Hd. Qed.

Ltac focus_step :=
  lazymatch goal with
  | |- invariant _ (createDom_ _ _ _) => apply createDom__activeElement
  | |- invariant _ (attachButtons _ _) => apply attachButtons_activeElement
  | _ => inv_step
  end.

Lemma render_activeElement x p :
  invariant (fun d => Page.activeElement (dom_ d) = x) (render p).
Proof. repeat focus_step. Qed.

Lemma setVisible_listeners_activeElement x visible :
  invariant (fun d => Page.activeElement (dom_ d) = x)
            (setVisible_listeners visible).
Proof. repeat focus_step. Qed.

Lemma setVisible_showElements_activeElement x visible :
  invariant (fun d => Page.activeElement (dom_ d) = x)
            (setVisible_showElements visible).
Proof. repeat focus_step. Qed.

Lemma setVisible_showElements_element visible d d' :
  setVisible_showElements visible d = (Ok tt, d') -> is_Some (element_ d').
Proof.
  destruct d. destruct bgIframeEl_0, bgEl_0, element_0; run;
    intros H; try discriminate H; injection H as <-; cbn; eauto.
Qed.

(** The block that moves the focus. *)
Lemma setVisible_focus_spec d d' :
  is_Some (element_ d) ->
  setVisible_focus d = (Ok tt, d') ->
  (buttons_ d' = buttons_ d
   /\ buttonEl_ d' = buttonEl_ d
   /\ element_ d' = element_ d
   /\ handler_ d' = handler_ d
   /\ Page.elements (dom_ d') = Page.elements (dom_ d)
   /\ Page.userAgent (dom_ d') = Page.userAgent (dom_ d))
  /\ match defaultButtonElement d with
     | Some b =>
         Element.disabled b = false ->
         Page.activeElement (dom_ d') = Some (Element.uid b)
     | None =>
         Page.activeElement (dom_ d')
         = if GECKO (Page.userAgent (dom_ d)) then element_ d
           else Page.activeElement (dom_ d)
     end.
Proof.
  intros [n Hn]. destruct d. cbn in Hn. subst.
  destruct dom_0 as [[g w o i] lay nuid els act tr].
  destruct buttons_0 as [[m cls [k|] el canc]|]; cycle 1.
  { destruct g, buttonEl_0; run; intros [= <-]; done. }
  { destruct g, buttonEl_0; run; intros [= <-]; done. }
  destruct (String.eqb k "") eqn:Hk.
  { destruct g, buttonEl_0; run; rewrite Hk; run; intros [= <-]; done. }
  destruct buttonEl_0 as [c|]; cycle 1.
  { destruct g; run; rewrite Hk; run; intros H; discriminate H. }
  destruct g; run; rewrite Hk; cbv iota beta;
    match goal with
    | |- context [List.find ?f ?l] => destruct (List.find f l) as [b|]
    end;
    run;
    try (intros [= <-]; done);
    destruct (Element.disabled b) eqn:Hdis, w, o; run; rewrite ?Hdis;
    intros [= <-]; done.
Qed.

Lemma defaultButtonElement_ext d d' :
  buttons_ d' = buttons_ d ->
  buttonEl_ d' = buttonEl_ d ->
  Page.elements (dom_ d') = Page.elements (dom_ d) ->
  defaultButtonElement d' = defaultButtonElement d.
Proof.
  intros Hbs Hel Hels. unfold defaultButtonElement, Page.getElementsByTagName.
  by rewrite Hbs, Hel, Hels.
Qed.

Lemma setVisible_show fuel d d' :
  visible_ d = false ->
  setVisible fuel true d = (Ok tt, d') ->
  exists d1 d2,
    Page.activeElement (dom_ d1) = Page.activeElement (dom_ d)
    /\ is_Some (element_ d1)
    /\ setVisible_focus d1 = (Ok tt, d2)
    /\ listen (src_of (buttonEl_ d2)) CLICK Fn.onButtonClick_ false
         (set_visible_ true d2) = (Ok tt, d').
Proof.
  intros Hv. rewrite setVisible_hidden_dispose. unfold setVisible_body.
  intros (v & d0 & Hv0 & H)%bind_Ok_inv. injection Hv0 as <- <-.
  rewrite Hv in H. cbn [eqb] in H.
  apply bind_Ok_inv in H as (inDoc & d0 & Hin & H). injection Hin as <- <-.
  apply bind_Ok_inv in H as ([] & da & Ha & H).
  apply bind_Ok_inv in H as ([] & db & Hb & H).
  apply bind_Ok_inv in H as ([] & dc & Hc & H).
  apply bind_Ok_inv in H as ([] & df & Hf & H).
  apply bind_Ok_inv in H as ([] & dm & Hm & H). injection Hm as <-.
  exists dc, df. split; [|split; [|split]].
  - pose proof (setVisible_showElements_activeElement
                  (Page.activeElement (dom_ d)) true db) as H3.
    rewrite Hc in H3. apply H3.
    pose proof (setVisible_listeners_activeElement
                  (Page.activeElement (dom_ d)) true da) as H2.
    rewrite Hb in H2. apply H2.
    destruct (inDocument_ d); cbn in Ha.
    + by injection Ha as <-.
    + pose proof (render_activeElement (Page.activeElement (dom_ d))
                    (Some Page.body) d) as H1.
      rewrite Ha in H1. by apply H1.
  - by eapply setVisible_showElements_element.
  - exact Hf.
  - exact H.
Qed.

End Show.


(** C7, as stated, fails: on a browser other than Gecko, a dialog whose
    button set has no default button is shown without the focus moving to
    the dialog element. *)
Lemma show_without_default_leaves_focus :
  fst (setVisible 0 true sample_no_default) = Ok tt
  /\ defaultButtonElement (snd (setVisible 0 true sample_no_default)) = None
  /\ element_ (snd (setVisible 0 true sample_no_default)) = Some 8
  /\ Page.activeElement (dom_ (snd (setVisible 0 true sample_no_default)))
     = None.
Proof. repeat split; vm_compute; reflexivity. Qed.

(** C7 (amended).  When [setVisible(true)] returns on a hidden dialog, the
    focus is on the first button below the button container whose name is
    the non-empty default key of the button set, when there is such a
    button and it is enabled; when there is none, the focus is on the
    dialog element on Gecko, and where it was before the call on other
    browsers. *)
Theorem show_moves_focus (fuel : nat) (d d' : Dialog.t) :
  visible_ d = false ->
  setVisible fuel true d = (Ok tt, d') ->
  match defaultButtonElement d' with
  | Some b =>
      Element.disabled b = false ->
      Page.activeElement (dom_ d') = Some (Element.uid b)
  | None =>
      Page.activeElement (dom_ d')
      = if GECKO (Page.userAgent (dom_ d')) then element_ d'
        else Page.activeElement (dom_ d)
  end.
Proof.
  intros Hv Hrun.
  destruct (setVisible_show fuel d d' Hv Hrun)
    as (d1 & d2 & Hact & Hel & Hfocus & Hlisten).
  destruct (setVisible_focus_spec d1 d2 Hel Hfocus)
    as ((Hbs & Hbel & Helem & _ & Hels & Hua) & Hspec).
  assert (Hd' : buttons_ d' = buttons_ d2 /\ buttonEl_ d' = buttonEl_ d2
                /\ element_ d' = element_ d2 /\ dom_ d' = dom_ d2).
  { unfold listen, modify in Hlisten. injection Hlisten as <-.
    by case_decide. }
  destruct Hd' as (Hbs' & Hbel' & Helem' & Hdom').
  rewrite (defaultButtonElement_ext d1 d') by congruence.
  rewrite Hdom', Helem', Hua, Helem, <- Hact. exact Hspec.
Qed.



(** The first show of the sample dialog focuses its OK button, node 9. *)
Lemma show_moves_focus_witness :
  visible_ sample_dialog = false
  /\ setVisible 0 true sample_dialog = (Ok tt, sample_shown)
  /\ Page.activeElement (dom_ sample_shown) = Some 9.
Proof.
  assert (Hrun : setVisible 0 true sample_dialog = (Ok tt, sample_shown))
    by (vm_compute; reflexivity).
  split; [reflexivity|]. split; [exact Hrun|].
  pose proof (show_moves_focus 0 sample_dialog sample_shown eq_refl Hrun)
    as Hfocus.
  exact (Hfocus eq_refl).
Defined.

(** ** The lifecycle *)

Section Lifecycle.

Lemma render_disposed_ x p : invariant (fun d => disposed_ d = x) (render p).
Proof. repeat field_step. Qed.

Lemma setVisible_show_disposed_ x :
  invariant (fun d => disposed_ d = x)
    (setVisible_listeners true;; setVisible_showElements true;;
     setVisible_focus;; modify (set_visible_ true);;
     setVisible_finish dispose_hidden_dialog true).
Proof. unfold setVisible_finish. cbn [negb]. repeat field_step. Qed.

Lemma setVisible_show_inDocument_ :
  invariant (fun d => inDocument_ d = true)
    (setVisible_listeners true;; setVisible_showElements true;;
     setVisible_focus;; modify (set_visible_ true);;
     setVisible_finish dispose_hidden_dialog true).
Proof. unfold setVisible_finish. cbn [negb]. repeat field_step. Qed.

Lemma enterDocument_inDocument_ d d' :
  enterDocument d = (Ok tt, d') -> inDocument_ d' = true.
Proof.
  unfold enterDocument.
  intros ([] & d1 & H1 & H)%bind_Ok_inv. injection H1 as <-.
  assert (Hinv : invariant (fun d => inDocument_ d = true)
    (draggable ← gets draggable_;
     dragger ← gets dragger_;
     when (draggable && negb (bool_decide (is_Some dragger))) (
       dr ← createDraggableTitleDom_;
       modify (set_dragger_ (Some dr)));;
     titleCloseEl ← gets titleCloseEl_;
     listen (src_of titleCloseEl) CLICK Fn.onTitleCloseClick_ false;;
     focusHandler ← gets focusHandler_;
     listen (if (focusHandler : bool) then SrcFocusHandler else SrcNull)
            FOCUSIN Fn.onFocus_ false;;
     el ← getElement;
     n ← deref el;
     emit (SetRole n "dialog");;
     titleTextEl ← gets titleTextEl_;
     _ ← deref titleTextEl;
     mret tt)).
  { repeat field_step. }
  specialize (Hinv (set_inDocument_ true d) eq_refl).
  by rewrite H in Hinv.
Qed.

Lemma render_inDocument_ p d d' :
  render p d = (Ok tt, d') -> inDocument_ d' = true.
Proof.
  unfold render, Component_render.
  intros (inDoc & d0 & H0 & H)%bind_Ok_inv. injection H0 as <- <-.
  destruct (inDocument_ d); [done|].
  do 2 apply bind_Ok_inv in H as (? & ? & _ & H).
  apply bind_Ok_inv in H as ([] & d1 & _ & H).
  apply bind_Ok_inv in H as (inDoc & d2 & H2 & H). injection H2 as <- <-.
  destruct (inDocument_ d1); [done|].
  do 4 apply bind_Ok_inv in H as (? & ? & _ & H).
  apply bind_Ok_inv in H as ([] & d3 & _ & H).
  by apply enterDocument_inDocument_ in H.
Qed.

(** Showing a dialog that has not been disposed of leads to the state
    Visible. *)
Lemma setVisible_show_Visible fuel d d' :
  visible_ d = false ->
  disposed_ d = false ->
  setVisible fuel true d = (Ok tt, d') ->
  Visible d'.
Proof.
  intros Hv Hdis Hrun. split; [by eapply setVisible_visible_|].
  assert (Hel : is_Some (element_ d')).
  { destruct (setVisible_show fuel d d' Hv Hrun)
      as (d1 & d2 & _ & Hel & Hfocus & Hlisten).
    destruct (setVisible_focus_spec d1 d2 Hel Hfocus)
      as ((_ & _ & Helem & _) & _).
    unfold listen, modify in Hlisten. injection Hlisten as <-.
    case_decide; cbn; by rewrite Helem. }
  rewrite setVisible_hidden_dispose in Hrun. unfold setVisible_body in Hrun.
  apply bind_Ok_inv in Hrun as (v & d0 & Hv0 & H). injection Hv0 as <- <-.
  rewrite Hv in H. cbn [eqb] in H.
  apply bind_Ok_inv in H as (inDoc & d0 & Hin & H). injection Hin as <- <-.
  apply bind_Ok_inv in H as ([] & da & Ha & H).
  assert (Hda : inDocument_ da = true /\ disposed_ da = false).
  { destruct (inDocument_ d) eqn:Hin; cbn in Ha.
    - by injection Ha as <-.
    - split; [by eapply render_inDocument_|].
      pose proof (render_disposed_ false (Some Page.body) d Hdis) as H1.
      by rewrite Ha in H1. }
  destruct Hda as [Hin Hdis'].
  pose proof (setVisible_show_inDocument_ da Hin) as H1.
  pose proof (setVisible_show_disposed_ false da Hdis') as H2.
  cbn [when] in H.
  unfold mbind at 1 2 3 4 in H1. unfold mbind at 1 2 3 4 in H2.
  unfold mbind at 1 2 3 4 in H. rewrite H in H1, H2. done.
Qed.

End Lifecycle.

(** * Further properties *)

(** ** Decorating a container of buttons *)

Section DecorateFacts.

Context (getTextContent value : Element.t -> string).

Lemma decorate_button_keyed i b bs p :
  button_key b <> "" ->
  ButtonSet.decorate_button getTextContent value i b (bs, p)
  = (ButtonSet.set (button_key b) (decorate_caption getTextContent value b)
       (Some (Nat.eqb i 0)) (Some (String.eqb (Element.name b) "cancel")) bs,
     if Nat.eqb i 0
     then Page.emit (AddClass (Element.uid b)
                       (getCssName (ButtonSet.class_ bs) "default")) p
     else p).
Proof.
  intros Hk%String.eqb_neq. unfold ButtonSet.decorate_button.
  fold (button_key b). rewrite Hk. cbn [negb].
  by rewrite ButtonSet_set_class_.
Qed.

Lemma decorate_button_unkeyed i b s :
  button_key b = "" ->
  ButtonSet.decorate_button getTextContent value i b s = s.
Proof.
  intros Hk. unfold ButtonSet.decorate_button. destruct s as [bs p].
  fold (button_key b). by rewrite Hk.
Qed.

(** The loop makes the calls [decorate_ops] lists. *)
Lemma decorate_loop_run buttons : forall i bs p,
  fst (ButtonSet.decorate_loop getTextContent value i buttons (bs, p))
  = ButtonSet.run (decorate_ops getTextContent value i buttons) bs.
Proof.
  induction buttons as [|b rest IH]; intros i bs p; [done|].
  cbn [ButtonSet.decorate_loop decorate_ops].
  destruct (decide (button_key b = "")) as [Hk|Hk].
  - rewrite decorate_button_unkeyed by done. apply IH.
  - rewrite decorate_button_keyed by done. rewrite IH. done.
Qed.

(** Only the first button found can be marked, and is when it has a key. *)
Lemma decorate_loop_page buttons : forall i bs p,
  snd (ButtonSet.decorate_loop getTextContent value i buttons (bs, p))
  = match buttons with
    | b :: _ =>
        if Nat.eqb i 0 && negb (String.eqb (button_key b) "")
        then Page.emit (AddClass (Element.uid b)
                          (getCssName (ButtonSet.class_ bs) "default")) p
        else p
    | [] => p
    end.
Proof.
  assert (Hlater : forall buttons i bs p,
    snd (ButtonSet.decorate_loop getTextContent value (S i) buttons (bs, p))
    = p).
  { clear. induction buttons as [|b rest IH]; intros i bs p; [done|].
    cbn [ButtonSet.decorate_loop].
    destruct (decide (button_key b = "")) as [Hk|Hk].
    - rewrite decorate_button_unkeyed by done. apply IH.
    - rewrite decorate_button_keyed by done. cbn [Nat.eqb]. apply IH. }
  intros i bs p. destruct buttons as [|b rest]; [done|].
  cbn [ButtonSet.decorate_loop].
  destruct (String.eqb_spec (button_key b) "") as [Hk|Hk].
  - rewrite decorate_button_unkeyed by done. rewrite andb_false_r.
    apply Hlater.
  - rewrite decorate_button_keyed by done. rewrite andb_true_r.
    rewrite Hlater. done.
Qed.

Lemma decorate_ops_set_keys buttons : forall i,
  ButtonSet.set_keys (decorate_ops getTextContent value i buttons)
  = map button_key (keyed buttons).
Proof.
  unfold keyed.
  induction buttons as [|b rest IH]; intros i; [done|].
  cbn [decorate_ops]. unfold ButtonSet.set_keys in *.
  rewrite omap_app, IH, filter_cons.
  by destruct (decide (button_key b = "")), (decide (button_key b <> "")).
Qed.

Lemma run_class_ ops bs :
  ButtonSet.class_ (ButtonSet.run ops bs) = ButtonSet.class_ bs.
Proof.
  revert bs. induction ops as [|op ops IH]; intros bs; [done|].
  unfold ButtonSet.run in *. cbn [fold_left]. rewrite IH.
  destruct op; cbn; [apply ButtonSet_set_class_|done|done].
Qed.

Lemma run_app ops ops' bs :
  ButtonSet.run (ops ++ ops') bs = ButtonSet.run ops' (ButtonSet.run ops bs).
Proof. apply fold_left_app. Qed.

(** Later buttons leave the default key alone. *)
Lemma decorate_ops_default buttons : forall i bs,
  ButtonSet.defaultButton_
    (ButtonSet.run (decorate_ops getTextContent value (S i) buttons) bs)
  = ButtonSet.defaultButton_ bs.
Proof.
  induction buttons as [|b rest IH]; intros i bs; [done|].
  cbn [decorate_ops]. rewrite run_app, IH.
  destruct (decide (button_key b = "")); [done|].
  unfold ButtonSet.run. cbn [fold_left ButtonSet.apply].
  by rewrite ButtonSet_set_defaultButton_.
Qed.

Lemma decorate_ops_cancel buttons : forall i bs,
  ButtonSet.cancelButton_
    (ButtonSet.run (decorate_ops getTextContent value i buttons) bs)
  = if existsb (fun b => String.eqb (Element.name b) "cancel") buttons
    then Some "cancel" else ButtonSet.cancelButton_ bs.
Proof.
  induction buttons as [|b rest IH]; intros i bs; [done|].
  cbn [decorate_ops existsb]. rewrite run_app, IH.
  destruct (existsb _ rest).
  { by rewrite orb_true_r. }
  rewrite orb_false_r.
  destruct (String.eqb_spec (Element.name b) "cancel") as [Hn|Hn].
  - assert (Hk : button_key b = "cancel").
    { unfold button_key, or_else. by rewrite Hn. }
    rewrite Hk. rewrite decide_False by done.
    unfold ButtonSet.run. cbn [fold_left ButtonSet.apply].
    rewrite ButtonSet_set_cancelButton_. done.
  - destruct (decide (button_key b = "")); [done|].
    unfold ButtonSet.run. cbn [fold_left ButtonSet.apply].
    by rewrite ButtonSet_set_cancelButton_.
Qed.

Lemma find_app_first {A} (f : A -> bool) (l l' : list A) :
  List.find f (l ++ l')
  = match List.find f l with Some a => Some a | None => List.find f l' end.
Proof.
  induction l as [|a l IH]; [done|]. cbn. by destruct (f a).
Qed.

(** The caption of a key is the one of the last button that has it. *)
Lemma decorate_ops_get key buttons : forall i bs,
  ButtonSet.get key
    (ButtonSet.run (decorate_ops getTextContent value i buttons) bs)
  = match List.find (fun b => String.eqb (button_key b) key)
            (rev (keyed buttons)) with
    | Some b => Some (decorate_caption getTextContent value b)
    | None => ButtonSet.get key bs
    end.
Proof.
  unfold keyed.
  induction buttons as [|b rest IH]; intros i bs; [done|].
  cbn [decorate_ops]. rewrite run_app, IH, filter_cons.
  destruct (decide (button_key b = "")) as [Hk|Hk].
  - rewrite decide_False by (intros Hn; by apply Hn). done.
  - rewrite decide_True by done. cbn [rev].
    rewrite find_app_first.
    destruct (List.find _ (rev _)); [done|].
    unfold ButtonSet.run. cbn [fold_left ButtonSet.apply List.find].
    unfold ButtonSet.get. rewrite ButtonSet_set_map_.
    destruct (String.eqb_spec (button_key b) key) as [<-|Hne].
    + apply get_set_eq.
    + apply get_set_ne. congruence.
Qed.

Lemma decorate_ops_keys_ok buttons : forall i bs,
  ButtonSet.keys_ok bs ->
  ButtonSet.keys_ok
    (ButtonSet.run (decorate_ops getTextContent value i buttons) bs).
Proof.
  induction buttons as [|b rest IH]; intros i bs Hbs; [done|].
  cbn [decorate_ops]. rewrite run_app. apply IH.
  destruct (decide (button_key b = "")); [done|].
  unfold ButtonSet.run. cbn [fold_left ButtonSet.apply].
  by apply keys_ok_set.
Qed.

End DecorateFacts.

(** X1.  [decorate] on an element node makes it the container of the
    button set and reads the buttons below it, in document order; a button
    counts when it has a name or, failing that, an id.  The keys of these
    buttons are added to the mapping in order of first occurrence, after
    the keys it had; the caption of a key is read off the last button that
    has it.  The default key becomes the key of the first button found,
    and only of that one: when the first button has neither name nor id,
    the default key stays as it was, and no button is marked.  The cancel
    key becomes "cancel" exactly when a button is named so.  On null or
    on a node that is not an element, nothing changes. *)
Theorem decorate_reads_buttons (getTextContent value : Element.t -> string)
    (n : nat) (bs : ButtonSet.t) (p : Page.t) :
  let buttons := Page.getElementsByTagName n "BUTTON" p in
  let r := ButtonSet.decorate getTextContent value
             (Some (n, NodeType.ELEMENT)) bs p in
  ButtonSet.element_ (fst r) = Some n
  /\ StructsMap.getKeys (ButtonSet.map_ (fst r))
     = StructsMap.getKeys (ButtonSet.map_ bs)
       ++ filter (fun k => k ∉ StructsMap.getKeys (ButtonSet.map_ bs))
            (first_occurrences (map button_key (keyed buttons)))
  /\ (forall key,
        ButtonSet.get key (fst r)
        = match List.find (fun b => String.eqb (button_key b) key)
                  (rev (keyed buttons)) with
          | Some b => Some (decorate_caption getTextContent value b)
          | None => ButtonSet.get key bs
          end)
  /\ ButtonSet.getDefault (fst r)
     = match buttons with
       | b :: _ => if decide (button_key b = "") then ButtonSet.getDefault bs
                   else Some (button_key b)
       | [] => ButtonSet.getDefault bs
       end
  /\ ButtonSet.getCancel (fst r)
     = (if existsb (fun b => String.eqb (Element.name b) "cancel") buttons
        then Some "cancel" else ButtonSet.getCancel bs)
  /\ snd r
     = match buttons with
       | b :: _ => if decide (button_key b = "") then p
                   else Page.emit
                          (AddClass (Element.uid b)
                             (getCssName (ButtonSet.class_ bs) "default")) p
       | [] => p
       end
  /\ ButtonSet.decorate getTextContent value None bs p = (bs, p)
  /\ forall nodeType,
       nodeType <> NodeType.ELEMENT ->
       ButtonSet.decorate getTextContent value (Some (n, nodeType)) bs p
       = (bs, p).
Proof.
  intros buttons r.
  assert (Hr : r = ButtonSet.decorate_loop getTextContent value 0 buttons
                     (attached n bs, p)) by reflexivity.
  assert (Hfst : fst r = ButtonSet.run
                           (decorate_ops getTextContent value 0 buttons)
                           (attached n bs)).
  { rewrite Hr. apply decorate_loop_run. }
  split; [by rewrite Hfst, run_element_|].
  split.
  { rewrite Hfst, getKeys_run, decorate_ops_set_keys. done. }
  split.
  { intros key. rewrite Hfst, decorate_ops_get. reflexivity. }
  split.
  { rewrite Hfst. unfold ButtonSet.getDefault.
    destruct buttons as [|b rest]; [done|]. cbn [decorate_ops].
    rewrite run_app, decorate_ops_default.
    destruct (decide (button_key b = "")); [done|].
    unfold ButtonSet.run. cbn [fold_left ButtonSet.apply].
    by rewrite ButtonSet_set_defaultButton_. }
  split.
  { rewrite Hfst. unfold ButtonSet.getCancel.
    rewrite decorate_ops_cancel. reflexivity. }
  split.
  { rewrite Hr, decorate_loop_page. destruct buttons as [|b rest]; [done|].
    cbn [Nat.eqb andb attached ButtonSet.class_].
    destruct (decide (button_key b = "")) as [Hk|Hk].
    - by rewrite Hk.
    - apply String.eqb_neq in Hk. by rewrite Hk. }
  split; [done|].
  intros nodeType Hne. unfold ButtonSet.decorate.
  apply Z.eqb_neq in Hne. by rewrite Hne.
Qed.

(** X2.  [decorate] keeps the key bookkeeping sound: when the default key
    and the cancel key of the button set were keys of its mapping (or
    unset), they still are afterwards, whatever the buttons found. *)
Theorem decorate_keys_ok (getTextContent value : Element.t -> string)
    (element : option (nat * Z)) (bs : ButtonSet.t) (p : Page.t) :
  ButtonSet.keys_ok bs ->
  ButtonSet.keys_ok
    (fst (ButtonSet.decorate getTextContent value element bs p)).
Proof.
  intros Hok. unfold ButtonSet.decorate.
  destruct element as [[n nodeType]|]; [|done].
  destruct (Z.eqb nodeType NodeType.ELEMENT); [|done].
  rewrite decorate_loop_run. apply decorate_ops_keys_ok. exact Hok.
Qed.

(** Decorating the sample markup with the OK/Cancel set: the keys "save"
    and "later" are added, "save" becomes the default key. *)
Lemma decorate_keys_ok_witness :
  ButtonSet.keys_ok ButtonSet.OK_CANCEL
  /\ ButtonSet.keys_ok
       (fst (ButtonSet.decorate sample_text sample_value
               (Some (6%nat, NodeType.ELEMENT)) ButtonSet.OK_CANCEL
               sample_markup))
  /\ StructsMap.getKeys
       (ButtonSet.map_
          (fst (ButtonSet.decorate sample_text sample_value
                  (Some (6%nat, NodeType.ELEMENT)) ButtonSet.OK_CANCEL
                  sample_markup)))
     = ["ok"; "cancel"; "save"; "later"].
Proof.
  assert (Hok : ButtonSet.keys_ok ButtonSet.OK_CANCEL).
  { split; cbn; rewrite !elem_of_cons; auto. }
  split; [exact Hok|]. split; [|vm_compute; reflexivity].
  exact (decorate_keys_ok sample_text sample_value
           (Some (6%nat, NodeType.ELEMENT)) ButtonSet.OK_CANCEL
           sample_markup Hok).
Defined.

(** ** The standard button sets *)

(** X3.  In each of the six standard button sets the default key and the
    cancel key are keys of the mapping, and there is a default key; every
    set but OK has a cancel key as well.  None of them has a container
    before a dialog attaches it. *)
Theorem standard_sets_sound :
  Forall (fun bs => ButtonSet.keys_ok bs
                    /\ truthy (ButtonSet.getDefault bs) = true
                    /\ ButtonSet.element_ bs = None)
         standard_sets
  /\ map (fun bs => truthy (ButtonSet.getCancel bs)) standard_sets
     = [false; true; true; true; true; true].
Proof.
  split; [|reflexivity].
  repeat constructor; cbn; rewrite ?elem_of_cons; auto 10.
Qed.

(** ** Looking up a rendered button *)

Section GetButtonFacts.

Lemma find_button_rendered bs key m : forall n,
  key <> "" ->
  match StructsMap.get key m with
  | Some caption =>
      exists u,
        ButtonSet.find_button key
          (imap (fun i kc => ButtonSet.button bs (n + i) (fst kc) (snd kc)) m)
        = Some (ButtonSet.button bs u key caption)
  | None =>
      ButtonSet.find_button key
        (imap (fun i kc => ButtonSet.button bs (n + i) (fst kc) (snd kc)) m)
      = None
  end.
Proof.
  intros n Hkey. revert n.
  induction m as [|[k c] m IH]; intros n; [done|].
  cbn [imap StructsMap.get ButtonSet.find_button List.find fst snd
       ButtonSet.button Element.name Element.id].
  destruct (String.eqb_spec k key) as [->|Hne]; cbn [orb].
  - by exists (n + 0).
  - destruct (String.eqb_spec "" key) as [Hemp|_]; [congruence|].
    specialize (IH (S n)).
    rewrite (imap_ext _ (fun i kc => ButtonSet.button bs (S n + i)
                                       (fst kc) (snd kc))).
    + exact IH.
    + intros i [k' c'] _. cbn. f_equal. lia.
Qed.

Lemma filter_all_buttons bs m : forall n,
  filter (fun e => Element.tagName e = "BUTTON")
    (imap (fun i kc => ButtonSet.button bs (n + i) (fst kc) (snd kc)) m)
  = imap (fun i kc => ButtonSet.button bs (n + i) (fst kc) (snd kc)) m.
Proof.
  induction m as [|[k c] m IH]; intros n; [done|].
  cbn [imap]. rewrite filter_cons. cbn [ButtonSet.button Element.tagName].
  rewrite decide_True by done. f_equal.
  rewrite (imap_ext _ (fun i kc => ButtonSet.button bs (S n + i)
                                     (fst kc) (snd kc))).
  - apply IH.
  - intros i [k' c'] _. cbn. f_equal. lia.
Qed.

End GetButtonFacts.

(** X4.  After a button set has been rendered into its container,
    [getButton] finds the button of every key of the mapping: an enabled
    BUTTON element named by the key, holding the caption registered for
    it, and marked as the default exactly when the key is the default
    key.  For a key that the mapping does not have it returns null.  (The
    key is not empty: an empty key matches the empty id of any button.)
    On a button set without a container, [getButton] fails on the null
    reference. *)
Theorem getButton_after_render (bs : ButtonSet.t) (el : nat) (p : Page.t)
    (key : string) :
  key <> "" ->
  let (bs', p') := ButtonSet.attachToElement el bs p in
  match ButtonSet.get key bs with
  | Some caption =>
      exists b,
        ButtonSet.getButton key bs' p' = Some (Some b)
        /\ Element.tagName b = "BUTTON"
        /\ Element.name b = key
        /\ Element.content b = [caption]
        /\ Element.disabled b = false
        /\ (Element.className b = getCssName (ButtonSet.class_ bs) "default"
            <-> ButtonSet.getDefault bs = Some key)
  | None => ButtonSet.getButton key bs' p' = Some None
  end
  /\ ButtonSet.getButton key ButtonSet.new p = None.
Proof.
  intros Hkey. cbn [ButtonSet.attachToElement]. split; [|done].
  unfold ButtonSet.getButton, ButtonSet.getAllButtons.
  cbn [ButtonSet.element_]. unfold Page.getElementsByTagName.
  rewrite render_elements by done. cbn [from_option id ButtonSet.map_].
  rewrite filter_all_buttons.
  pose proof (find_button_rendered (attached el bs) key (ButtonSet.map_ bs)
                (Page.next_uid p) Hkey) as Hfind.
  unfold ButtonSet.get.
  destruct (StructsMap.get key (ButtonSet.map_ bs)) as [caption|].
  - destruct Hfind as [u Hfind]. eexists. split.
    { unfold attached in Hfind. by rewrite Hfind. }
    repeat split; try done.
    + intros Hcls. apply (button_marked (attached el bs)) in Hcls.
      symmetry. exact Hcls.
    + intros Hdef. apply (button_marked (attached el bs)).
      symmetry. exact Hdef.
  - unfold attached in Hfind. by rewrite Hfind.
Qed.

(** The OK button of the OK/Cancel set, rendered into node 6. *)
Lemma getButton_after_render_witness :
  "ok" <> ""
  /\ exists b,
       ButtonSet.getButton "ok"
         (fst (ButtonSet.attachToElement 6 ButtonSet.OK_CANCEL sample_page))
         (snd (ButtonSet.attachToElement 6 ButtonSet.OK_CANCEL sample_page))
       = Some (Some b)
       /\ Element.name b = "ok".
Proof.
  split; [discriminate|].
  destruct (getButton_after_render ButtonSet.OK_CANCEL 6 sample_page "ok"
              ltac:(discriminate)) as [(b & Hb & _ & Hname & _) _].
  exists b. split; [exact Hb | exact Hname].
Defined.

(** ** Clicks *)

Section ClickFacts.

Lemma findParentButton_loop_below c chain :
  findParentButton_loop c chain
  = List.find (fun e => String.eqb (Element.tagName e) "BUTTON")
              (below c chain).
Proof.
  induction chain as [|e parents IH]; [done|].
  cbn [findParentButton_loop below].
  destruct (decide (Some (Element.uid e) = c)); [done|].
  cbn [List.find]. by destruct (String.eqb (Element.tagName e) "BUTTON").
Qed.

End ClickFacts.

(** X5.  A click in the button container counts for the nearest BUTTON
    among the target and its ancestors strictly below the container.
    When there is none (a click on the container itself, or between the
    buttons), or when that button is disabled, the click changes nothing
    and dispatches nothing.  When the button is enabled but the dialog has
    no button set, the handler fails on the null reference before
    anything is dispatched. *)
Theorem click_ignored (fuel : nat) (d : Dialog.t)
    (e_target : list Element.t) :
  findParentButton_loop (buttonEl_ d) e_target = clicked_button d e_target
  /\ (clicked_button d e_target = None ->
      onButtonClick_ fuel e_target d = (Ok tt, d))
  /\ (forall b,
        clicked_button d e_target = Some b ->
        Element.disabled b = true ->
        onButtonClick_ fuel e_target d = (Ok tt, d))
  /\ (forall b,
        clicked_button d e_target = Some b ->
        Element.disabled b = false ->
        buttons_ d = None ->
        onButtonClick_ fuel e_target d = (Throw TypeError, d)).
Proof.
  pose proof (findParentButton_loop_below (buttonEl_ d) e_target) as Hfind.
  fold (clicked_button d e_target) in Hfind.
  split; [exact Hfind|].
  unfold onButtonClick_, findParentButton_, getButtonSet.
  cbv [mbind M_bind mret M_ret gets when when_some deref throw].
  rewrite Hfind.
  split; [|split].
  - by intros ->.
  - intros b -> Hdis. cbv iota beta. by rewrite Hdis.
  - intros b -> Hen Hbs. cbv iota beta. rewrite Hen. cbn [negb].
    by rewrite Hbs.
Qed.

(** A click on the button container of the shown sample dialog. *)
Lemma click_ignored_witness :
  onButtonClick_ 0 [sample_container; sample_element] sample_shown
  = (Ok tt, sample_shown).
Proof.
  apply (click_ignored 0 sample_shown [sample_container; sample_element]).
  reflexivity.
Defined.

(** ** The close box *)

(** X6.  On a shown dialog, a click on the close box of the title bar
    dispatches one SELECT event with the cancel key and its caption when
    the button set has a non-empty cancel key, and then hides the dialog
    if and only if no listener cancels the event; when a listener does,
    only the dispatch has happened.  Without a button set or a cancel key
    it hides the dialog, and AFTER_HIDE is the only event. *)
Theorem close_click (fuel : nat) (d : Dialog.t) :
  Visible d ->
  (forall bs k,
     buttons_ d = Some bs -> ButtonSet.getCancel bs = Some k -> k <> "" ->
     let ev := SELECT k (ButtonSet.get k bs) in
     exists d',
       onTitleCloseClick_ fuel d = (Ok tt, d')
       /\ dispatched (Page.trace (dom_ d'))
          = dispatched (Page.trace (dom_ d))
            ++ ev :: (if proceeds ev d then [AFTER_HIDE] else [])
       /\ visible_ d' = negb (proceeds ev d)
       /\ (proceeds ev d = false -> d' = after_dispatch ev d))
  /\ (cancelKey d = None ->
      exists d',
        onTitleCloseClick_ fuel d = (Ok tt, d')
        /\ dispatched (Page.trace (dom_ d'))
           = dispatched (Page.trace (dom_ d)) ++ [AFTER_HIDE]
        /\ visible_ d' = false).
Proof.
  intros HV. split.
  - intros bs k Hbs Hk Hne ev.
    destruct (select_then_hide fuel d ev HV) as (d' & Hrun & H).
    exists d'. split; [|done]. rewrite <- Hrun.
    unfold onTitleCloseClick_, getButtonSet.
    cbv [mbind M_bind gets]. rewrite Hbs, Hk.
    unfold truthy. apply String.eqb_neq in Hne. by rewrite Hne.
  - intros Hcancel.
    destruct (hide_if_close fuel true d HV) as (d' & Hrun & Htr & Hvis & _).
    exists d'. split; [|done]. rewrite <- Hrun.
    unfold onTitleCloseClick_, getButtonSet, cancelKey in *.
    cbv [mbind M_bind gets when].
    destruct (buttons_ d) as [bs|]; [|done].
    destruct (ButtonSet.getCancel bs) as [k|]; [|done].
    by destruct (truthy (Some k)).
Qed.

(** The close box of the shown sample dialog, whose cancel key is
    "cancel". *)
Lemma close_click_witness :
  Visible sample_shown
  /\ exists d',
       onTitleCloseClick_ 0 sample_shown = (Ok tt, d')
       /\ dispatched (Page.trace (dom_ d'))
          = [SELECT "cancel" (Some (CapText "Cancel")); AFTER_HIDE]
       /\ visible_ d' = false.
Proof.
  split; [exact sample_shown_Visible|].
  destruct (close_click 0 sample_shown sample_shown_Visible) as [Hcancel _].
  destruct (Hcancel sample_buttons "cancel" sample_shown_buttons_ eq_refl
              ltac:(discriminate))
    as (d' & Hrun & Htr & Hvis & _).
  exists d'. split; [exact Hrun|]. split; [exact Htr | exact Hvis].
Defined.

(** ** Other keys *)

(** X7.  A keydown of a key other than Escape and Enter never hides the
    dialog and dispatches nothing.  Shift+Tab on the dialog element
    itself is stopped and its default action prevented, so that the focus
    cannot leave the dialog backwards; every other key is left alone. *)
Theorem other_keys (fuel : nat) (d : Dialog.t) (e : KeyEvent) :
  keyCode e <> KeyCodes.ESC ->
  keyCode e <> KeyCodes.ENTER ->
  onKeyDown_ fuel e d
  = (Ok tt,
     if Z.eqb (keyCode e) KeyCodes.TAB && shiftKey e
        && bool_decide (Some (Element.uid (target e)) = element_ d)
     then after_emit PreventDefault (after_emit StopPropagation d)
     else d).
Proof.
  intros Hesc%Z.eqb_neq Hent%Z.eqb_neq.
  unfold onKeyDown_, getButtonSet, getElement.
  cbv [mbind M_bind mret M_ret gets]. rewrite Hesc, Hent. cbn [orb].
  by destruct (_ && _ && _).
Qed.

(** Shift+Tab on the element of the shown sample dialog. *)
Lemma other_keys_witness :
  KeyCodes.TAB <> KeyCodes.ESC
  /\ KeyCodes.TAB <> KeyCodes.ENTER
  /\ onKeyDown_ 0 (tab true sample_element) sample_shown
     = (Ok tt,
        after_emit PreventDefault (after_emit StopPropagation sample_shown)).
Proof.
  split; [discriminate|]. split; [discriminate|].
  exact (other_keys 0 sample_shown (tab true sample_element)
           ltac:(discriminate) ltac:(discriminate)).
Defined.

(** X8.  On a dialog without a button set, Enter on a button with a
    non-empty name fails on the null reference before anything is
    dispatched; Enter anywhere else does nothing. *)
Theorem enter_without_button_set (fuel : nat) (d : Dialog.t)
    (shiftKey : bool) (target : Element.t) :
  buttons_ d = None ->
  onKeyDown_ fuel (enter shiftKey target) d
  = (if String.eqb (Element.tagName target) "BUTTON"
        && negb (String.eqb (Element.name target) "")
     then Throw TypeError else Ok tt,
     d).
Proof.
  intros Hbs. key_run. rewrite Hbs.
  destruct (String.eqb (Element.tagName target) "BUTTON"); [|done].
  cbn [andb truthy]. by destruct (String.eqb (Element.name target) "").
Qed.

(** Enter on the OK button of a shown dialog that has no button set. *)
Lemma enter_without_button_set_witness :
  buttons_ sample_no_buttons = None
  /\ onKeyDown_ 0 (enter false sample_ok_button) sample_no_buttons
     = (Throw TypeError, sample_no_buttons).
Proof.
  split; [reflexivity|].
  exact (enter_without_button_set 0 sample_no_buttons false sample_ok_button
           eq_refl).
Defined.

(** ** The background masks *)

(** Evaluates a method that does not go through [setVisible] on a dialog
    given by its fields. *)
Ltac exec :=
  cbv [mbind M_bind mret M_ret gets modify throw deref when when_some emit
       isInDocument getElement getButtonSet isVisible showElement
       createDom_ try_catch
       manageBackgroundDom_ setModal setContent setBackgroundElementOpacity
       renderBackground_ createDraggableTitleDom_ resizeBackground_
       reposition onResize_ focusElement_ render_unless
       set_disposed_ set_listeners set_dom_ set_element_ set_inDocument_
       set_handler_ set_buttons_ set_dragger_ set_visible_
       set_disposeOnHide_ set_bgEl_ set_bgIframeEl_ set_titleEl_
       set_titleTextEl_ set_titleCloseEl_ set_contentEl_ set_buttonEl_
       set_tabCatcherEl_ set_focusHandler_ set_modal_ set_content_
       set_backgroundElementOpacity_
       disposed_ listeners dom_ element_ inDocument_ handler_ wasDecorated_
       class_ useIframeMask_ modal_ draggable_ backgroundElementOpacity_
       title_ content_ buttons_ dragger_ visible_ disposeOnHide_ bgEl_
       bgIframeEl_ titleEl_ titleTextEl_ titleCloseEl_ contentEl_ buttonEl_
       tabCatcherEl_ focusHandler_
       Page.emit Page.userAgent Page.layout Page.next_uid Page.elements
       Page.activeElement Page.trace Page.createDom Page.fresh Page.focus
       Page.set_activeElement Page.body
       GECKO WEBKIT OPERA IE
       drag_target drag_handle limits
       scrollWidth scrollHeight viewportWidth viewportHeight dialogWidth
       dialogHeight scrollX scrollY positionFixed
       after_emit masks option_list
       bool_decide decide decide_rel is_Some_dec
       eqb negb andb orb src_of fst snd].

Section BackgroundFacts.

Lemma Forall_reveals_nil : Forall (fun e => ~ reveals e) [].
Proof. constructor. Qed.

End BackgroundFacts.

(** X9.  [setModal(modal)] returns with the background masks matching the
    modality: afterwards the dialog has a background mask exactly when it
    is modal, and an iframe mask exactly when it is modal and was built to
    use one.  A mask that is already there is kept, not created again, so
    a second [setModal(modal)], or any further [manageBackgroundDom_],
    changes nothing.  The call creates and removes masks only: it never
    appends one to the document and never shows one, also when the dialog
    has been rendered. *)
Theorem masks_follow_modality (modal : bool) (d : Dialog.t) :
  exists d',
    setModal modal d = (Ok tt, d')
    /\ modal_ d' = modal
    /\ (is_Some (bgEl_ d') <-> modal = true)
    /\ (is_Some (bgIframeEl_ d') <-> useIframeMask_ d && modal = true)
    /\ (modal = true -> is_Some (bgEl_ d) -> bgEl_ d' = bgEl_ d)
    /\ setModal modal d' = (Ok tt, d')
    /\ manageBackgroundDom_ d' = (Ok tt, d')
    /\ exists tr,
         Page.trace (dom_ d') = Page.trace (dom_ d) ++ tr
         /\ Forall (fun e => ~ reveals e) tr.
Proof.
  destruct d. destruct dom_0.
  destruct modal, useIframeMask_0, bgIframeEl_0, bgEl_0; exec;
    (eexists; split; [reflexivity|]);
    cbn; rewrite ?is_Some_alt;
    repeat split; try done; try (intros []; done);
    (eexists; split;
     [rewrite <- ?app_assoc; cbn; try reflexivity;
      symmetry; apply app_nil_r
     |repeat constructor; cbn; tauto]).
Qed.

(** ** Geometry *)

Section GeometryFacts.



End GeometryFacts.


(** X11.  [resizeBackground_], which is also what a window resize runs,
    hides every mask the dialog has, then shows each one again with the
    width of the document body and the larger of the height of the body
    and the height of the viewport, so that the mask covers the viewport
    also when the document is shorter.  When the dialog is draggable, the
    dragger is limited to that rectangle less the size of the dialog.  A
    draggable dialog that has no element or no dragger makes the call
    fail on the null reference, after the masks have been resized. *)
Theorem resizeBackground_covers (d : Dialog.t) :
  let l := Page.layout (dom_ d) in
  let w := scrollWidth l in
  let h := Z.max (scrollHeight l) (viewportHeight l) in
  let resized :=
    Page.trace (dom_ d)
    ++ map (fun n => ShowElement n false) (masks d)
    ++ flat_map (fun n => [ShowElement n true; SetSize n w h]) (masks d) in
  (scrollHeight l <= h /\ viewportHeight l <= h)%Z
  /\ onResize_ d = resizeBackground_ d
  /\ Page.trace (dom_ (snd (resizeBackground_ d))) = resized
  /\ (draggable_ d = false ->
      exists p, resizeBackground_ d = (Ok tt, set_dom_ p d))
  /\ (draggable_ d = true ->
      forall dr,
        is_Some (element_ d) ->
        dragger_ d = Some dr ->
        exists p,
          resizeBackground_ d
          = (Ok tt,
             set_dragger_
               (Some (Build_Dragger (drag_target dr) (drag_handle dr)
                        (Some (0, 0, w - dialogWidth l,
                               h - dialogHeight l)%Z)))
               (set_dom_ p d)))
  /\ (draggable_ d = true ->
      element_ d = None \/ dragger_ d = None ->
      fst (resizeBackground_ d) = Throw TypeError).
Proof.
  intros l w h resized. split; [lia|]. split; [reflexivity|].
  subst resized h w l. destruct d. destruct dom_0.
  destruct bgIframeEl_0, bgEl_0, draggable_0, element_0, dragger_0; exec;
    cbn; rewrite <- ?app_assoc; cbn.
  all: split; [rewrite ?app_nil_r; reflexivity|].
  all: split; [first [done | intros _; eexists; reflexivity]|].
  all: split; [first [done | intros _ dr [? ?] [= <-]; eexists; reflexivity
                     | intros _ dr [? [=]] | intros _ dr _ [=] ]|].
  all: first [done | intros _ [?|?]; done].
Qed.

(** ** Rendering a consistent dialog *)

Section RunFacts.

Context {A B : Type}.

Lemma bind_Ok (m : M A) (k : A -> M B) d a d1 :
  m d = (Ok a, d1) -> (m ≫= k) d = k a d1.
Proof. unfold mbind, M_bind. by intros ->. Qed.

Lemma bind_gets (f : Dialog.t -> A) (k : A -> M B) d :
  (gets f ≫= k) d = k (f d) d.
Proof. reflexivity. Qed.

Lemma bind_ret (a : A) (k : A -> M B) d : (mret a ≫= k) d = k a d.
Proof. reflexivity. Qed.

End RunFacts.

Lemma bind_modify {B} (g : Dialog.t -> Dialog.t) (k : unit -> M B) d :
  (modify g ≫= k) d = k tt (g d).
Proof. reflexivity. Qed.

(** Closes the side goals of an evaluated state: that a part is there, or
    is there exactly when a flag is set. *)
Ltac parts :=
  repeat split; try done; try (by eexists); try (by intros [? [=]]);
  try (by intros ? [= <-]).

Section RenderTotal.

Lemma render_entry_dispatched bs el p entry :
  dispatched (Page.trace (ButtonSet.render_entry bs el p entry))
  = dispatched (Page.trace p).
Proof.
  destruct entry as [key caption]. unfold ButtonSet.render_entry. cbn.
  case_decide; cbn; rewrite ?dispatched_app; cbn; by rewrite ?app_nil_r.
Qed.

(** Rendering the buttons dispatches no event. *)
Lemma render_dispatched bs p :
  dispatched (Page.trace (ButtonSet.render bs p)) = dispatched (Page.trace p).
Proof.
  unfold ButtonSet.render. destruct (ButtonSet.element_ bs) as [el|]; [|done].
  transitivity (dispatched (Page.trace (Page.clear el p))).
  - generalize (Page.clear el p).
    induction (ButtonSet.map_ bs) as [|entry m IH]; intros p0; [done|].
    cbn [fold_left]. by rewrite IH, render_entry_dispatched.
  - cbn. rewrite dispatched_app. cbn. by rewrite app_nil_r.
Qed.

Lemma listen_new s ty f c d :
  Build_Listener s ty f c ∉ handler_ d ->
  listen s ty f c d
  = (Ok tt, set_handler_ (handler_ d ++ [Build_Listener s ty f c]) d).
Proof. intros Hl. unfold listen, modify. by rewrite decide_False. Qed.

(** [createDom] builds every part, whatever was there before. *)
Lemma createDom_total d :
  exists d',
    createDom d = (Ok tt, d')
    /\ is_Some (element_ d') /\ Built d'
    /\ settings d' = settings d /\ visible_ d' = visible_ d
    /\ inDocument_ d' = inDocument_ d /\ handler_ d' = handler_ d
    /\ dragger_ d' = dragger_ d.
Proof.
  destruct d. destruct dom_0.
  destruct useIframeMask_0, modal_0, bgIframeEl_0, bgEl_0, buttons_0,
    (String.eqb content_0 "") eqn:Hc;
    unfold createDom, attachButtons, ButtonSet.attachToElement; exec;
    rewrite Hc; exec;
    (eexists; split; [reflexivity|]);
    unfold Built, settings; exec; parts.
Qed.

(** [enterDocument] on a built dialog that holds no listener. *)
Lemma enterDocument_total d :
  is_Some (element_ d) ->
  is_Some (titleEl_ d) ->
  is_Some (titleTextEl_ d) ->
  handler_ d = [] ->
  exists p dr,
    enterDocument d
    = (Ok tt,
       set_handler_ [closeListener d; focusListener d]
         (set_dragger_ dr (set_dom_ p (set_inDocument_ true d))))
    /\ (draggable_ d = true -> is_Some dr).
Proof.
  intros [el Hel] [t Ht] [tt' Htt] Hh.
  destruct d. destruct dom_0. cbn in Hel, Ht, Htt, Hh. subst.
  unfold enterDocument.
  destruct draggable_0, dragger_0; exec.
  all: rewrite listen_new by apply not_elem_of_nil; exec.
  all: rewrite listen_new
    by (cbn [handler_ app]; intros H%list_elem_of_singleton; discriminate H);
    exec.
  all: eexists _, _; split; [reflexivity|parts].
Qed.

Lemma renderBackground__total parent d :
  exists p, renderBackground_ parent d = (Ok tt, set_dom_ p d).
Proof.
  destruct d. destruct dom_0.
  destruct bgIframeEl_0, bgEl_0; exec; eexists; reflexivity.
Qed.

Lemma Component_render_total parent d :
  inDocument_ d = false ->
  is_Some (element_ d) ->
  is_Some (titleEl_ d) ->
  is_Some (titleTextEl_ d) ->
  handler_ d = [] ->
  exists p dr,
    Component_render parent d
    = (Ok tt,
       set_handler_ [closeListener d; focusListener d]
         (set_dragger_ dr (set_dom_ p (set_inDocument_ true d))))
    /\ (draggable_ d = true -> is_Some dr).
Proof.
  intros Hin [el Hel] Ht Htt Hh.
  destruct (enterDocument_total
              (set_dom_ (Page.emit (AppendChild parent el) (dom_ d)) d))
    as (p & dr & Hrun & Hdr); try done.
  exists p, dr. split; [|exact Hdr].
  unfold Component_render, getElement.
  cbv [mbind M_bind gets]. rewrite Hin, Hel.
  cbv [when negb bool_decide decide decide_rel is_Some_dec mret M_ret deref
       emit modify].
  rewrite Hel. cbv beta iota. rewrite Hrun. by destruct d.
Qed.

(** [render] on a consistent dialog outside the document. *)
Lemma render_total opt_parent d :
  Consistent d ->
  inDocument_ d = false ->
  exists d',
    render opt_parent d = (Ok tt, d')
    /\ Consistent d'
    /\ inDocument_ d' = true
    /\ visible_ d' = false
    /\ settings d' = settings d
    /\ (is_Some (element_ d) ->
        element_ d' = element_ d /\ contentEl_ d' = contentEl_ d).
Proof.
  intros (Hvis & _ & _ & Hbuilt & Hh) Hin.
  assert (Hv : visible_ d = false).
  { destruct (visible_ d); [|done]. by rewrite Hvis in Hin. }
  unfold registered in Hh. rewrite Hin in Hh.
  assert (Hd1 : exists d1,
    when (negb (bool_decide (is_Some (element_ d)))) createDom d = (Ok tt, d1)
    /\ is_Some (element_ d1) /\ Built d1
    /\ settings d1 = settings d /\ visible_ d1 = false
    /\ inDocument_ d1 = false /\ handler_ d1 = []
    /\ (is_Some (element_ d) -> d1 = d)).
  { destruct (element_ d) as [el|] eqn:Hel.
    - exists d. split; [reflexivity|]. split; [by eexists|].
      split; [by apply Hbuilt|]. by split_and!.
    - destruct (createDom_total d)
        as (d1 & Hrun & Hel1 & Hb1 & Hs1 & Hv1 & Hin1 & Hh1 & _).
      exists d1. cbv [when negb bool_decide decide decide_rel is_Some_dec].
      split; [exact Hrun|]. split_and!; try done; try congruence. }
  destruct Hd1 as (d1 & Hrun1 & Hel1 & Hb1 & Hs1 & Hv1 & Hin1 & Hh1 & Hsame).
  set (parent := default Page.body opt_parent).
  destruct (renderBackground__total parent d1) as (p2 & Hrun2).
  pose proof Hb1 as (Ht & Htt & _).
  destruct (Component_render_total parent (set_dom_ p2 d1))
    as (p3 & dr & Hrun3 & Hdr); try done.
  eexists. split.
  { unfold render, isInDocument, getElement.
    rewrite bind_gets, Hin, bind_gets, (bind_Ok _ _ _ _ _ Hrun1).
    fold parent. rewrite (bind_Ok _ _ _ _ _ Hrun2). exact Hrun3. }
  split.
  { unfold Consistent, registered. cbn. rewrite Hv1.
    split_and!; [done | done | intros _ H; apply Hdr, H
                | intros _; exact Hb1 | reflexivity]. }
  split; [done|]. split; [done|]. split.
  { rewrite <- Hs1. unfold settings. by cbn. }
  intros Hel. rewrite (Hsame Hel). by cbn.
Qed.

End RenderTotal.

(** ** Showing a consistent dialog *)

Section ShowTotal.

Lemma setVisible_listeners_show d el :
  element_ d = Some el ->
  (draggable_ d = true -> is_Some (dragger_ d)) ->
  keydownListener el ∉ handler_ d ->
  resizeListener ∉ handler_ d ->
  exists p dr,
    setVisible_listeners true d
    = (Ok tt,
       set_handler_ (handler_ d ++ [keydownListener el; resizeListener])
         (set_dragger_ dr (set_dom_ p d)))
    /\ (is_Some dr <-> is_Some (dragger_ d)).
Proof.
  intros Hel Hdr Hk Hr.
  destruct d. destruct dom_0. cbn in Hel, Hdr, Hk, Hr. subst.
  unfold setVisible_listeners.
  destruct bgIframeEl_0, bgEl_0, draggable_0, dragger_0; exec.
  all: try (by destruct (Hdr eq_refl) as [? [=]]).
  all: rewrite listen_new by exact Hk; exec.
  all: rewrite listen_new
    by (cbn [handler_]; rewrite elem_of_app, list_elem_of_singleton;
        intros [?|[=]]; by apply Hr);
    exec.
  all: eexists _, _; split;
    [rewrite <- (app_assoc handler_0 [_] [_]); reflexivity
    |split; intros; first [assumption | by eexists]].
Qed.

Lemma setVisible_showElements_total visible d :
  is_Some (element_ d) ->
  exists p, setVisible_showElements visible d = (Ok tt, set_dom_ p d).
Proof.
  intros [el Hel]. destruct d. destruct dom_0. cbn in Hel. subst.
  unfold setVisible_showElements.
  destruct bgIframeEl_0, bgEl_0; exec; eexists; reflexivity.
Qed.

Lemma setVisible_focus_total d :
  is_Some (element_ d) ->
  is_Some (buttonEl_ d) ->
  exists p, setVisible_focus d = (Ok tt, set_dom_ p d).
Proof.
  intros [n Hn] [c Hc]. destruct d. cbn in Hn, Hc. subst.
  destruct dom_0 as [[g w o i] lay nuid els act tr].
  destruct buttons_0 as [[m cls [k|] el canc]|]; cycle 1.
  { destruct g; run; eexists; reflexivity. }
  { destruct g; run; eexists; reflexivity. }
  destruct (String.eqb k "") eqn:Hk.
  { destruct g; run; rewrite Hk; run; eexists; reflexivity. }
  destruct g; run; rewrite Hk; cbv iota beta;
    match goal with
    | |- context [List.find ?f ?l] => destruct (List.find f l) as [b|]
    end;
    run;
    try (eexists; reflexivity);
    destruct (Element.disabled b) eqn:Hdis, w, o; run; rewrite ?Hdis;
    eexists; reflexivity.
Qed.

Lemma setVisible_finish_show D d :
  clickListener (buttonEl_ d) ∉ handler_ d ->
  setVisible_finish D true d
  = (Ok tt, set_handler_ (handler_ d ++ [clickListener (buttonEl_ d)]) d).
Proof.
  intros Hc. unfold setVisible_finish. cbn [negb].
  rewrite bind_gets. by apply listen_new.
Qed.

(** Showing a hidden dialog that is in the document: the listeners of
    the shown state are added; besides, only the page and the limits of
    the dragger change. *)
Lemma show_in_document fuel d :
  Consistent d ->
  inDocument_ d = true ->
  visible_ d = false ->
  exists p dr,
    setVisible fuel true d
    = (Ok tt,
       set_handler_ (registered (set_visible_ true d))
         (set_visible_ true (set_dragger_ dr (set_dom_ p d))))
    /\ (is_Some dr <-> is_Some (dragger_ d)).
Proof.
  intros (_ & Hel & Hdr & Hbuilt & Hh) Hin Hv.
  specialize (Hel Hin) as [el Hel]. specialize (Hdr Hin).
  assert (HB : Built d) by (apply Hbuilt; by eexists).
  pose proof HB as (_ & _ & _ & _ & Hbel & _).
  unfold registered in Hh. rewrite Hin, Hv in Hh. cbn [app] in Hh.
  destruct (setVisible_listeners_show d el Hel Hdr)
    as (p1 & dr & Hrun1 & Hdr1).
  { rewrite Hh. rewrite !elem_of_cons. intros [[=]|[[=]|[]%elem_of_nil]]. }
  { rewrite Hh. rewrite !elem_of_cons. intros [[=]|[[=]|[]%elem_of_nil]]. }
  set (d1 := set_handler_ (handler_ d ++ [keydownListener el; resizeListener])
               (set_dragger_ dr (set_dom_ p1 d))) in *.
  destruct (setVisible_showElements_total true d1) as (p2 & Hrun2).
  { by eexists. }
  destruct (setVisible_focus_total (set_dom_ p2 d1)) as (p3 & Hrun3).
  { by eexists. }
  { exact Hbel. }
  exists p3, dr. split; [|exact Hdr1].
  rewrite setVisible_hidden_dispose. unfold setVisible_body, isInDocument.
  rewrite bind_gets, Hv. cbn [eqb]. rewrite bind_gets, Hin.
  cbn [negb when]. rewrite bind_ret.
  rewrite (bind_Ok _ _ _ _ _ Hrun1), (bind_Ok _ _ _ _ _ Hrun2).
  rewrite (bind_Ok _ _ _ _ _ Hrun3), bind_modify.
  rewrite setVisible_finish_show.
  - subst d1. unfold closeListener, focusListener in Hh.
    destruct d. cbn in Hel, Hin, Hv, Hh. subst. reflexivity.
  - cbn. rewrite Hh. cbn [app]. rewrite !elem_of_cons.
    intros [[=]|[[=]|[[=]|[[=]|[]%elem_of_nil]]]].
Qed.

Lemma shown_Consistent d p dr :
  Consistent d ->
  inDocument_ d = true ->
  (is_Some dr <-> is_Some (dragger_ d)) ->
  Consistent
    (set_handler_ (registered (set_visible_ true d))
       (set_visible_ true (set_dragger_ dr (set_dom_ p d)))).
Proof.
  intros (Hv & Hel & Hdr & Hb & Hh) Hin Hiff.
  unfold Consistent. cbn.
  split_and!; [done | exact Hel | intros H1 H2; by apply Hiff, Hdr
              | exact Hb | reflexivity].
Qed.

(** A dialog outside the document is rendered first, then shown. *)
Lemma show_after_render fuel d d1 :
  visible_ d = false ->
  inDocument_ d = false ->
  render (Some Page.body) d = (Ok tt, d1) ->
  inDocument_ d1 = true ->
  visible_ d1 = false ->
  setVisible fuel true d = setVisible fuel true d1.
Proof.
  intros Hv Hin Hrun Hin1 Hv1.
  rewrite !setVisible_hidden_dispose. unfold setVisible_body, isInDocument.
  rewrite (bind_gets _ _ d), Hv. cbn [eqb]. rewrite (bind_gets _ _ d), Hin.
  rewrite (bind_gets _ _ d1), Hv1. cbn [eqb].
  rewrite (bind_gets _ _ d1), Hin1. cbn [negb when].
  by rewrite (bind_Ok _ _ _ _ _ Hrun), bind_ret.
Qed.

Lemma show_total fuel d :
  Consistent d ->
  exists d',
    setVisible fuel true d = (Ok tt, d')
    /\ Consistent d'
    /\ visible_ d' = true
    /\ inDocument_ d' = true
    /\ settings d' = settings d
    /\ (is_Some (element_ d) -> element_ d' = element_ d).
Proof.
  intros HC. destruct (visible_ d) eqn:Hv.
  { exists d. pose proof HC as (Hin & _).
    split; [|by split_and!; auto].
    rewrite setVisible_unfold. unfold setVisible_body.
    by rewrite bind_gets, Hv. }
  destruct (inDocument_ d) eqn:Hin.
  { destruct (show_in_document fuel d HC Hin Hv) as (p & dr & Hrun & Hdr).
    eexists. split; [exact Hrun|].
    split; [by apply shown_Consistent|]. by split_and!. }
  destruct (render_total (Some Page.body) d HC Hin)
    as (d1 & Hrun1 & HC1 & Hin1 & Hv1 & Hs1 & Hel1).
  destruct (show_in_document fuel d1 HC1 Hin1 Hv1) as (p & dr & Hrun & Hdr).
  eexists. split.
  { rewrite (show_after_render fuel d d1) by done. exact Hrun. }
  split; [by apply shown_Consistent|].
  split; [done|]. split; [exact Hin1|]. split; [exact Hs1|].
  intros Hsome. cbn. by apply Hel1.
Qed.

End ShowTotal.

(** ** Hiding and disposing of a consistent dialog *)

Section HideTotal.

Lemma unlisten_shown (c f k r cl : Listener) :
  c <> k -> c <> r -> c <> cl -> f <> k -> f <> r -> f <> cl ->
  k <> r -> k <> cl -> r <> cl ->
  filter (fun l => l <> cl)
    (filter (fun l => l <> r) (filter (fun l => l <> k) [c; f; k; r; cl]))
  = [c; f].
Proof.
  intros.
  repeat (rewrite ?filter_cons, ?filter_nil;
          repeat first [rewrite decide_True by congruence
                       |rewrite decide_False by (intros Hn; by apply Hn)]).
  reflexivity.
Qed.

(** Hiding a shown dialog, consistent up to its listeners, that is not to
    be disposed of: the listeners of the shown state go, nothing else but
    the page changes. *)
Lemma hide_shape fuel d el :
  visible_ d = true ->
  element_ d = Some el ->
  inDocument_ d = true ->
  handler_ d = registered d ->
  disposeOnHide_ d = false \/ disposed_ d = true ->
  exists p,
    setVisible fuel false d
    = (Ok tt,
       set_visible_ false
         (set_handler_ [closeListener d; focusListener d] (set_dom_ p d)))
    /\ dispatched (Page.trace p)
       = dispatched (Page.trace (dom_ d)) ++ [AFTER_HIDE].
Proof.
  intros Hv Hel Hin Hh Hkeep.
  rewrite setVisible_hidden_dispose.
  unfold registered in Hh. rewrite Hin, Hv in Hh. cbn [app] in Hh.
  assert (Hf : filter (fun l => l <> clickListener (buttonEl_ d))
                 (filter (fun l => l <> resizeListener)
                    (filter (fun l => l <> keydownListener el) (handler_ d)))
               = [closeListener d; focusListener d]).
  { rewrite Hh, Hel. by apply unlisten_shown. }
  destruct d. cbn in Hv, Hel, Hin, Hkeep, Hf. subst.
  cbv [clickListener resizeListener keydownListener src_of] in Hf.
  destruct bgIframeEl_0, bgEl_0, disposeOnHide_0, disposed_0;
    try (by destruct Hkeep);
    run; rewrite Hf;
    (eexists; split; [reflexivity|]);
    cbn; rewrite ?dispatched_app; cbn;
    by rewrite ?app_nil_r, <- ?app_assoc.
Qed.

Lemma Disposed_Consistent d : Disposed d -> Consistent d.
Proof.
  intros (_ & Hv & Hin & Hel & Hh & _).
  unfold Consistent, registered. rewrite Hv, Hin, Hel, Hh.
  split_and!; try done.
Qed.

(** Hiding a shown dialog that is to be disposed of. *)
Lemma hide_disposing fuel d el :
  visible_ d = true ->
  element_ d = Some el ->
  inDocument_ d = true ->
  disposeOnHide_ d = true ->
  disposed_ d = false ->
  exists d',
    setVisible fuel false d = (Ok tt, d')
    /\ Disposed d'
    /\ dispatched (Page.trace (dom_ d'))
       = dispatched (Page.trace (dom_ d)) ++ [AFTER_HIDE].
Proof.
  intros Hv Hel Hin Hdoh Hdis.
  rewrite setVisible_hidden_dispose.
  destruct d. cbn in Hv, Hel, Hin, Hdoh, Hdis. subst.
  destruct bgIframeEl_0, bgEl_0, dragger_0, wasDecorated_0, focusHandler_0;
    run; (eexists; split; [reflexivity|]);
    (split; [by split_and!|]);
    cbn; rewrite ?dispatched_app; cbn;
    by rewrite ?app_nil_r, <- ?app_assoc.
Qed.

Lemma hide_total fuel d :
  Consistent d ->
  exists d',
    setVisible fuel false d = (Ok tt, d')
    /\ Consistent d'
    /\ visible_ d' = false
    /\ dispatched (Page.trace (dom_ d'))
       = dispatched (Page.trace (dom_ d))
         ++ (if visible_ d then [AFTER_HIDE] else []).
Proof.
  intros HC. destruct (visible_ d) eqn:Hv.
  2:{ exists d. split; [|by rewrite app_nil_r].
      rewrite setVisible_unfold. unfold setVisible_body.
      by rewrite bind_gets, Hv. }
  pose proof HC as (Hin & Hel & Hdr & Hbuilt & Hh).
  specialize (Hin Hv). specialize (Hel Hin) as [el Hel].
  destruct (disposeOnHide_ d) eqn:Hdoh, (disposed_ d) eqn:Hdis.
  2:{ destruct (hide_disposing fuel d el) as (d' & Hrun & HD & Htr);
        try done.
      exists d'. split; [exact Hrun|]. split; [by apply Disposed_Consistent|].
      split; [apply HD | exact Htr]. }
  all: destruct (hide_shape fuel d el) as (p & Hrun & Htr); auto.
  all: eexists; (split; [exact Hrun|]).
  all: split; [|by split].
  all: unfold Consistent, registered; cbn; rewrite Hin.
  all: split_and!; try done.
  all: intros _; by apply Hdr.
Qed.

Lemma disposeInternal_body_at X X' d :
  X (set_listeners [] d) = X' (set_listeners [] d) ->
  disposeInternal_body X d = disposeInternal_body X' d.
Proof.
  intros HX. unfold disposeInternal_body.
  rewrite !bind_modify, !bind_gets.
  destruct (inDocument_ (set_listeners [] d)); [|done].
  cbn [when]. unfold mbind, M_bind. by rewrite HX.
Qed.

(** [exitDocument] on a shown dialog that is not to be disposed of. *)
Lemma exitDocument_shown fuel d el :
  visible_ d = true ->
  element_ d = Some el ->
  inDocument_ d = true ->
  handler_ d = registered d ->
  disposeOnHide_ d = false \/ disposed_ d = true ->
  exists p,
    exitDocument fuel d
    = (Ok tt,
       set_inDocument_ false
         (set_handler_ []
            (set_dragger_ None (set_visible_ false (set_dom_ p d)))))
    /\ dispatched (Page.trace p)
       = dispatched (Page.trace (dom_ d)) ++ [AFTER_HIDE].
Proof.
  intros Hv Hel Hin Hh Hkeep.
  destruct (hide_shape fuel d el Hv Hel Hin Hh Hkeep) as (p & Hhide & Htr).
  unfold exitDocument, exitDocument_body, isVisible.
  rewrite bind_gets, Hv. cbn [when]. rewrite (bind_Ok _ _ _ _ _ Hhide).
  destruct d. destruct p. cbn [Page.trace dom_] in Htr.
  destruct dragger_0; exec; (eexists; split; [reflexivity|]);
    cbn [Page.trace];
    rewrite ?dispatched_app, Htr; cbn; by rewrite ?app_nil_r.
Qed.

(** [dispose] on a dialog that has not been disposed of. *)
Lemma dispose_total fuel d :
  Consistent d ->
  disposed_ d = false ->
  exists d',
    dispose fuel d = (Ok tt, d')
    /\ Disposed d'
    /\ (inDocument_ d = true -> dragger_ d' = None)
    /\ dispatched (Page.trace (dom_ d'))
       = dispatched (Page.trace (dom_ d))
         ++ (if visible_ d then [AFTER_HIDE] else []).
Proof.
  intros (Hin & Hel & _ & _ & Hh) Hdis.
  unfold dispose, dispose_body. rewrite bind_gets, Hdis.
  cbn [negb when]. rewrite bind_modify. unfold disposeInternal.
  destruct (visible_ d) eqn:Hv.
  - specialize (Hin eq_refl). specialize (Hel Hin) as [el Hel].
    destruct (exitDocument_shown fuel
                (set_listeners [] (set_disposed_ true d)) el)
      as (p & Hexit & Htr); auto.
    rewrite (disposeInternal_body_at _ (fun _ => (Ok tt, _)) _ Hexit).
    destruct d. destruct p. cbn in Hv, Hin, Hel, Hdis. subst.
    cbn [Page.trace dom_ set_listeners set_disposed_] in Htr.
    destruct dom_0.
    destruct wasDecorated_0, focusHandler_0, bgEl_0, bgIframeEl_0;
      run; (eexists; split; [reflexivity|]);
      (split; [repeat split|]); (split; [done|]);
      cbv [Page.trace dom_] in Htr |- *;
      rewrite ?dispatched_app, Htr; cbn;
      by rewrite ?app_nil_r.
  - clear Hin. unfold exitDocument.
    destruct d. destruct dom_0. cbn in Hv, Hel, Hdis. subst.
    destruct inDocument_0, dragger_0, wasDecorated_0, element_0,
      focusHandler_0, bgEl_0, bgIframeEl_0;
      run; (eexists; split; [reflexivity|]);
      (split; [repeat split|]); (split; [done|]);
      cbn; rewrite ?dispatched_app; cbn;
      by rewrite ?app_nil_r.
Qed.

(** [exitDocument] hides the dialog if it is shown and leaves the
    document. *)
Lemma exitDocument_total fuel d :
  Consistent d ->
  exists d',
    exitDocument fuel d = (Ok tt, d')
    /\ Consistent d'
    /\ visible_ d' = false
    /\ inDocument_ d' = false
    /\ dragger_ d' = None
    /\ handler_ d' = []
    /\ dispatched (Page.trace (dom_ d'))
       = dispatched (Page.trace (dom_ d))
         ++ (if visible_ d then [AFTER_HIDE] else []).
Proof.
  intros HC.
  destruct (hide_total fuel d HC) as (d1 & Hrun & HC1 & Hv1 & Htr).
  assert (Htail : exists p,
    (dragger ← gets dragger_;
     when_some dragger (fun _ =>
       emit DisposeDragger;; modify (set_dragger_ None));;
     modify (set_handler_ []);;
     modify (set_inDocument_ false)) d1
    = (Ok tt,
       set_inDocument_ false
         (set_handler_ [] (set_dragger_ None (set_dom_ p d1))))
    /\ dispatched (Page.trace p) = dispatched (Page.trace (dom_ d1))).
  { destruct d1. destruct dom_0.
    destruct dragger_0; exec; (eexists; split; [reflexivity|]); cbn;
      rewrite ?dispatched_app; cbn; by rewrite ?app_nil_r. }
  destruct Htail as (p & Htail & Htr').
  assert (Hd1 : (v ← isVisible; when v (setVisible fuel false)) d
                = (Ok tt, d1)).
  { unfold isVisible. rewrite bind_gets.
    destruct (visible_ d) eqn:Hv; [exact Hrun|].
    rewrite setVisible_unfold in Hrun. unfold setVisible_body in Hrun.
    rewrite bind_gets, Hv in Hrun. exact Hrun. }
  eexists. split.
  { unfold exitDocument, exitDocument_body. unfold isVisible in *.
    rewrite bind_gets in *. rewrite (bind_Ok _ _ _ _ _ Hd1). exact Htail. }
  destruct HC1 as (_ & _ & _ & Hb & _).
  unfold Consistent, registered. cbn. split_and!; try done.
  - by rewrite Hv1.
  - by rewrite Htr', Htr.
Qed.

End HideTotal.

(** ** Showing dispatches no event *)

Section Quiet.

Lemma emit_quiet x e :
  (forall ev, e <> Dispatched ev) ->
  invariant (fun d => dispatched (Page.trace (dom_ d)) = x) (emit e).
Proof.
  intros He d Hd. cbn. rewrite dispatched_app, Hd.
  destruct e; cbn; rewrite ?app_nil_r; try done. by destruct (He e).
Qed.

Lemma createDom__quiet x tag cls children :
  invariant (fun d => dispatched (Page.trace (dom_ d)) = x)
    (createDom_ tag cls children).
Proof.
  intros d Hd. cbn. rewrite dispatched_app, Hd. cbn. by rewrite app_nil_r.
Qed.

Lemma attachButtons_quiet x bs el :
  invariant (fun d => dispatched (Page.trace (dom_ d)) = x)
    (attachButtons bs el).
Proof.
  intros d Hd. unfold attachButtons, modify, ButtonSet.attachToElement.
  cbn [snd dom_ set_buttons_ set_dom_]. by rewrite render_dispatched.
Qed.

Lemma focus_quiet x n :
  invariant (fun d => dispatched (Page.trace (dom_ d)) = x)
    (modify (fun d => set_dom_ (Page.focus n (dom_ d)) d)).
Proof.
  intros d Hd. cbn. rewrite dispatched_app, Hd. cbn. by rewrite app_nil_r.
Qed.

End Quiet.

Ltac quiet_step :=
  lazymatch goal with
  | |- invariant _ (emit _) => apply emit_quiet; intros ?; discriminate
  | |- invariant _ (createDom_ _ _ _) => apply createDom__quiet
  | |- invariant _ (attachButtons _ _) => apply attachButtons_quiet
  | |- invariant _ (modify (fun d => set_dom_ (Page.focus _ (dom_ d)) d)) =>
      apply focus_quiet
  | _ => inv_step
  end.

Section QuietShow.

Lemma render_quiet x opt_parent :
  invariant (fun d => dispatched (Page.trace (dom_ d)) = x)
    (render opt_parent).
Proof. repeat quiet_step. Qed.

Lemma setVisible_show_quiet x fuel :
  invariant (fun d => dispatched (Page.trace (dom_ d)) = x)
    (setVisible fuel true).
Proof.
  intros d Hd. rewrite setVisible_hidden_dispose. revert d Hd.
  change (invariant (fun d => dispatched (Page.trace (dom_ d)) = x)
            (setVisible_body dispose_hidden_dialog true)).
  unfold setVisible_body, setVisible_finish. cbn [negb].
  repeat quiet_step.
Qed.

End QuietShow.

(** ** Every call keeps a dialog consistent *)

Section Keeps.

Lemma Consistent_set_dom_ p d : Consistent d -> Consistent (set_dom_ p d).
Proof. intros H. exact H. Qed.



Lemma setVisible_Consistent fuel visible :
  invariant Consistent (setVisible fuel visible).
Proof.
  intros d HC. destruct visible.
  - destruct (show_total fuel d HC) as (d' & -> & HC' & _). exact HC'.
  - destruct (hide_total fuel d HC) as (d' & -> & HC' & _). exact HC'.
Qed.




End Keeps.


Section KeepsHandlers.











End KeepsHandlers.

(** ** Calls that return *)

Section Returns.

Context {A B : Type}.




End Returns.

Section ReturnsUnit.









End ReturnsUnit.


Section NoThrow.





Lemma resizeBackground__returns d :
  (draggable_ d = true -> is_Some (element_ d) /\ is_Some (dragger_ d)) ->
  exists d', resizeBackground_ d = (Ok tt, d').
Proof.
  intros H. destruct d. destruct dom_0. cbn in H.
  destruct bgIframeEl_0, bgEl_0, draggable_0, element_0, dragger_0; exec;
    try (eexists; reflexivity);
    destruct (H eq_refl) as [[? ?] [? ?]]; done.
Qed.


End NoThrow.

Section ThrowsTypeError.

Context {A B : Type}.




End ThrowsTypeError.


Section OnlyTypeError.






End OnlyTypeError.

(** ** The life of a dialog *)

Section NewFacts.

Lemma new_Consistent opt_class opt_useIframeMask page :
  Consistent (new opt_class opt_useIframeMask page).
Proof.
  unfold Consistent, registered, new. cbn.
  split_and!; try done.
Qed.

Lemma sample_dialog_Consistent : Consistent sample_dialog.
Proof. apply new_Consistent. Qed.

End NewFacts.



(** X13.  Showing a hidden dialog that is in the document and hiding it
    again gives the dialog back: the same listeners, not more, the same
    DOM, the same settings.  Only the page has changed, one AFTER_HIDE
    event has been dispatched, and the dragger, if there is one, has new
    limits.  (The dialog is not one that hiding disposes of.) *)
Theorem show_hide_round_trip (fuel : nat) (d : Dialog.t) :
  Consistent d ->
  inDocument_ d = true ->
  visible_ d = false ->
  disposeOnHide_ d = false \/ disposed_ d = true ->
  exists d1 p dr,
    setVisible fuel true d = (Ok tt, d1)
    /\ visible_ d1 = true
    /\ setVisible fuel false d1 = (Ok tt, set_dragger_ dr (set_dom_ p d))
    /\ (is_Some dr <-> is_Some (dragger_ d))
    /\ dispatched (Page.trace p)
       = dispatched (Page.trace (dom_ d)) ++ [AFTER_HIDE].
Proof.
  intros HC Hin Hv Hkeep.
  destruct (show_in_document fuel d HC Hin Hv) as (p1 & dr & Hrun1 & Hdr).
  pose proof HC as (_ & Hel & _ & _ & Hh). destruct (Hel Hin) as [el He].
  set (d1 := set_handler_ (registered (set_visible_ true d))
               (set_visible_ true (set_dragger_ dr (set_dom_ p1 d)))) in *.
  destruct (hide_shape fuel d1 el) as (p2 & Hrun2 & Htr); try done.
  assert (Hshow : dispatched (Page.trace p1)
                  = dispatched (Page.trace (dom_ d))).
  { pose proof (setVisible_show_quiet _ fuel d eq_refl) as Hq.
    by rewrite Hrun1 in Hq. }
  exists d1, p2, dr. split_and!; try done.
  - rewrite Hrun2. f_equal. subst d1.
    unfold registered, closeListener, focusListener in Hh.
    rewrite Hin, Hv in Hh.
    destruct d. cbn in Hin, Hv, Hh. subst. reflexivity.
  - rewrite Htr. subst d1.
    cbn [dom_ set_handler_ set_visible_ set_dragger_ set_dom_].
    by rewrite Hshow.
Qed.

Section SampleFacts.

Lemma sample_shown_Consistent : Consistent sample_shown.
Proof.
  exact (setVisible_Consistent 0 true sample_dialog sample_dialog_Consistent).
Qed.

Lemma sample_hidden_Consistent : Consistent sample_hidden.
Proof.
  exact (setVisible_Consistent 0 false sample_shown sample_shown_Consistent).
Qed.

End SampleFacts.

(** Showing and hiding the hidden sample dialog once more. *)
Lemma show_hide_round_trip_witness :
  Consistent sample_hidden
  /\ inDocument_ sample_hidden = true
  /\ visible_ sample_hidden = false
  /\ disposeOnHide_ sample_hidden = false
  /\ exists d1 d2,
       setVisible 0 true sample_hidden = (Ok tt, d1)
       /\ setVisible 0 false d1 = (Ok tt, d2)
       /\ handler_ d2 = handler_ sample_hidden.
Proof.
  split; [exact sample_hidden_Consistent|]. split; [reflexivity|].
  split; [reflexivity|]. split; [reflexivity|].
  destruct (show_hide_round_trip 0 sample_hidden sample_hidden_Consistent
              eq_refl eq_refl (or_introl eq_refl))
    as (d1 & p & dr & Hrun1 & _ & Hrun2 & _).
  exists d1. eexists. split; [exact Hrun1|]. split; [exact Hrun2|].
  reflexivity.
Defined.

(** ** Disposal *)

(** X14.  [dispose] on a consistent dialog that has not been disposed of
    returns with the dialog disposed of: hidden, out of the document,
    without listeners on the dialog or registered by it, and with its
    element, masks, close box, button container and tab catcher nulled;
    a dragger it had in the document is gone.  AFTER_HIDE is dispatched
    once if the dialog was shown, and not at all otherwise; this is so
    also when the dialog is set to be disposed of on hide, where hiding
    calls [dispose] again.  A second [dispose] does nothing. *)
Theorem dispose_clears (fuel : nat) (d : Dialog.t) :
  Consistent d ->
  disposed_ d = false ->
  exists d',
    dispose fuel d = (Ok tt, d')
    /\ Disposed d'
    /\ Consistent d'
    /\ (inDocument_ d = true -> dragger_ d' = None)
    /\ dispatched (Page.trace (dom_ d'))
       = dispatched (Page.trace (dom_ d))
         ++ (if visible_ d then [AFTER_HIDE] else [])
    /\ dispose fuel d' = (Ok tt, d').
Proof.
  intros HC Hdis.
  destruct (dispose_total fuel d HC Hdis) as (d' & Hrun & HD & Hdr & Htr).
  exists d'. split_and!; try done.
  - by apply Disposed_Consistent.
  - destruct HD as (Hd & _). unfold dispose, dispose_body.
    by rewrite bind_gets, Hd.
Qed.

(** Disposing of the shown sample dialog. *)
Lemma dispose_clears_witness :
  Consistent sample_shown
  /\ disposed_ sample_shown = false
  /\ exists d',
       dispose 0 sample_shown = (Ok tt, d')
       /\ Disposed d'
       /\ dispatched (Page.trace (dom_ d')) = [AFTER_HIDE].
Proof.
  split; [exact sample_shown_Consistent|]. split; [reflexivity|].
  destruct (dispose_clears 0 sample_shown sample_shown_Consistent eq_refl)
    as (d' & Hrun & HD & _ & _ & Htr & _).
  exists d'. split; [exact Hrun|]. split; [exact HD | exact Htr].
Defined.

(** X15.  [exitDocument] on a consistent dialog returns with the dialog
    hidden and out of the document, without a dragger and without a
    registered listener; AFTER_HIDE is dispatched exactly when the dialog
    was shown.  The dialog is consistent again, so that it can be shown
    once more. *)
Theorem exitDocument_leaves (fuel : nat) (d : Dialog.t) :
  Consistent d ->
  exists d',
    exitDocument fuel d = (Ok tt, d')
    /\ Consistent d'
    /\ visible_ d' = false
    /\ inDocument_ d' = false
    /\ dragger_ d' = None
    /\ handler_ d' = []
    /\ dispatched (Page.trace (dom_ d'))
       = dispatched (Page.trace (dom_ d))
         ++ (if visible_ d then [AFTER_HIDE] else []).
Proof. apply exitDocument_total. Qed.

(** Taking the shown sample dialog out of the document. *)
Lemma exitDocument_leaves_witness :
  Consistent sample_shown
  /\ exists d',
       exitDocument 0 sample_shown = (Ok tt, d')
       /\ inDocument_ d' = false
       /\ handler_ d' = [].
Proof.
  split; [exact sample_shown_Consistent|].
  destruct (exitDocument_leaves 0 sample_shown sample_shown_Consistent)
    as (d' & Hrun & _ & _ & Hin & _ & Hh & _).
  exists d'. split; [exact Hrun|]. split; [exact Hin | exact Hh].
Defined.

(** ** The lazy getters *)

Section GetterFacts.


End GetterFacts.



(** ** Any use of a dialog *)

Section AnyCall.

Lemma calls_snoc fuel cs c d :
  calls fuel (cs ++ [c]) d = snd (call fuel c (calls fuel cs d)).
Proof. unfold calls. by rewrite fold_left_app. Qed.











End AnyCall.




(** ** Buttons, content and focus of a built dialog *)

(** X19.  On a dialog that has its button container, [setButtonSet]
    renders at once: the dialog holds the new set, attached to the
    container, and the container holds one button per key of the set, in
    the order of the set, whatever it held before; with [null] the
    container is emptied.  Whether the dialog is shown or in the document
    does not change. *)
Theorem setButtonSet_rerenders (buttons : option ButtonSet.t)
    (d : Dialog.t) (c : nat) :
  buttonEl_ d = Some c ->
  exists d',
    setButtonSet buttons d = (Ok tt, d')
    /\ buttons_ d' = attached c <$> buttons
    /\ map Element.name (Page.getElementsByTagName c "BUTTON" (dom_ d'))
       = match buttons with
         | Some bs => StructsMap.getKeys (ButtonSet.map_ bs)
         | None => []
         end
    /\ visible_ d' = visible_ d
    /\ inDocument_ d' = inDocument_ d
    /\ buttonEl_ d' = Some c.
Proof.
  intros Hc. unfold setButtonSet, attachButtons, ButtonSet.attachToElement.
  rewrite bind_modify, bind_gets. cbn [buttonEl_ set_buttons_].
  rewrite Hc. cbn [when_some].
  destruct buttons as [bs|]; eexists; (split; [reflexivity|]).
  - cbn [dom_ set_dom_ set_buttons_ buttons_ fmap option_fmap option_map
         visible_ inDocument_ buttonEl_].
    split; [done|]. split; [|done].
    unfold Page.getElementsByTagName.
    rewrite (render_elements (attached c bs) c) by done.
    cbn [default from_option id attached ButtonSet.map_].
    by rewrite filter_all_buttons, render_names.
  - cbn. split; [done|]. split; [|done].
    unfold Page.getElementsByTagName. cbn.
    by rewrite lookup_insert_eq.
Qed.

(** The Yes/No set given to the shown sample dialog. *)
Lemma setButtonSet_rerenders_witness :
  buttonEl_ sample_shown = Some 6%nat
  /\ exists d',
       setButtonSet (Some ButtonSet.YES_NO) sample_shown = (Ok tt, d')
       /\ map Element.name (Page.getElementsByTagName 6 "BUTTON" (dom_ d'))
          = ["yes"; "no"].
Proof.
  split; [reflexivity|].
  destruct (setButtonSet_rerenders (Some ButtonSet.YES_NO) sample_shown 6
              eq_refl) as (d' & Hrun & _ & Hnames & _).
  exists d'. split; [exact Hrun | exact Hnames].
Defined.

(** X20.  Tabbing past the end of the dialog wraps the focus.  A focus
    event on the tab catcher changes nothing by itself and schedules one
    call; when the timer runs it, on a dialog that has its element, the
    call returns with the focus on the dialog element, having changed
    nothing but the document.  A focus event on any other target
    schedules nothing. *)
Theorem focus_wraps (e_target : nat) (d : Dialog.t) :
  tabCatcherEl_ d = Some e_target ->
  (exists scheduled,
     onFocus_ e_target d = (Ok (Some scheduled), d)
     /\ forall d0 el,
          element_ d0 = Some el ->
          exists p,
            scheduled d0 = (Ok tt, set_dom_ p d0)
            /\ Page.activeElement p = Some el
            /\ last (Page.trace p) = Some (Focus el)
            /\ Page.elements p = Page.elements (dom_ d0))
  /\ forall other, other <> e_target -> onFocus_ other d = (Ok None, d).
Proof.
  intros Ht. split.
  - exists focusElement_. split.
    + unfold onFocus_. rewrite bind_gets, Ht. by rewrite decide_True.
    + intros d0 el Hel. unfold focusElement_, getElement. rewrite bind_gets.
      destruct (IE _); cbn [when].
      * rewrite bind_modify, bind_gets. cbn [element_ set_dom_].
        rewrite Hel. cbn [deref]. rewrite bind_ret.
        eexists. split; [by destruct d0|]. cbn. by rewrite last_snoc.
      * rewrite bind_ret, bind_gets, Hel. cbn [deref]. rewrite bind_ret.
        eexists. split; [reflexivity|]. cbn. by rewrite last_snoc.
  - intros other Hne. unfold onFocus_. rewrite bind_gets, Ht.
    rewrite decide_False; [done|]. by intros [= ->].
Qed.

(** The tab catcher of the shown sample dialog. *)
Lemma focus_wraps_witness :
  tabCatcherEl_ sample_shown = Some 7%nat
  /\ exists scheduled d',
       onFocus_ 7 sample_shown = (Ok (Some scheduled), sample_shown)
       /\ scheduled sample_shown = (Ok tt, d')
       /\ Page.activeElement (dom_ d') = Some 8%nat.
Proof.
  split; [reflexivity|].
  destruct (focus_wraps 7 sample_shown eq_refl)
    as [(scheduled & Hrun & Hk) _].
  destruct (Hk sample_shown 8%nat eq_refl) as (p & Hrun' & Ha & _).
  exists scheduled, (set_dom_ p sample_shown).
  split; [exact Hrun|]. split; [exact Hrun' | exact Ha].
Defined.

(** ** The content *)

Section Recorded.

Variable e : Effect.






End Recorded.


Section ContentFacts.



End ContentFacts.

Section ContentWritten.



End ContentWritten.


